(** * CMCC truth model: the evaluation graph of [cmcc_truth_model_builder.py]

    [build_workbook] writes a workbook whose cells are literals and
    spreadsheet formulas.  The evaluation graph of the model (units ->
    constants -> calculations -> instances -> claims -> questions) is the
    value those formulas take.  This file embeds that graph: every sheet is a
    table of cell values, every formula string of the builder is the Rocq
    expression with the same operators, and the operators ([VLOOKUP], [IF],
    [ABS], [MAX], [MIN], [OR], [NOT], [=], [<=], [+], [-], [*], [/], [^])
    are given their spreadsheet meaning in module [Excel].

    Numbers are IEEE-754 binary64 values (Rocq's primitive floats), rounded to
    nearest even, as spreadsheet engines store and compute them; an operation
    whose result is not a finite number yields an error value. *)

From Stdlib Require Import List String Ascii Bool ZArith Lia.
From Stdlib Require Import Floats.
Import ListNotations.

Local Open Scope string_scope.

(* Decimal literals are read as the nearest binary64 value. *)
Set Warnings "-inexact-float".

(** ** Spreadsheet values and operators *)

Module Excel.

Inductive error : Type :=
| ErrValue   (* #VALUE! *)
| ErrNA      (* #N/A    *)
| ErrDiv0    (* #DIV/0! *)
| ErrNum.    (* #NUM!   *)

Inductive value : Type :=
| VBlank
| VNum (x : float)
| VText (s : string)
| VBool (b : bool)
| VErr (e : error).

(** Operand of an arithmetic operator once coerced. *)
Inductive operand : Type :=
| Number (x : float)
| Failure (e : error).

(** A blank cell counts as 0, a logical as 1 or 0; text that is not a number
    (the workbook's text cells are identifiers, labels and empty strings) is
    [#VALUE!]; an error stays the error it is. *)
Definition to_number (v : value) : operand :=
  match v with
  | VBlank => Number 0%float
  | VNum x => Number x
  | VBool b => Number (if b then 1%float else 0%float)
  | VText _ => Failure ErrValue
  | VErr e => Failure e
  end.

(** A numeric result is a cell value only when finite. *)
Definition number (x : float) : value :=
  if is_finite x then VNum x else VErr ErrNum.

Definition arith (op : float -> float -> float) (a b : value) : value :=
  match to_number a with
  | Failure e => VErr e
  | Number x =>
      match to_number b with
      | Failure e => VErr e
      | Number y => number (op x y)
      end
  end.

Definition xl_add : value -> value -> value := arith PrimFloat.add.
Definition xl_sub : value -> value -> value := arith PrimFloat.sub.
Definition xl_mul : value -> value -> value := arith PrimFloat.mul.

Definition xl_div (a b : value) : value :=
  match to_number a with
  | Failure e => VErr e
  | Number x =>
      match to_number b with
      | Failure e => VErr e
      | Number y => if (y =? 0)%float then VErr ErrDiv0 else number (x / y)%float
      end
  end.

(** [a^2], the only power the builder writes: the square, correctly rounded. *)
Definition xl_pow2 (a : value) : value := xl_mul a a.

Definition xl_abs (a : value) : value :=
  match to_number a with
  | Failure e => VErr e
  | Number x => number (abs x)
  end.

(** Text is compared without regard to case. *)
Definition upper_ascii (c : ascii) : ascii :=
  let n := nat_of_ascii c in
  if (97 <=? n)%nat && (n <=? 122)%nat then ascii_of_nat (n - 32) else c.

Fixpoint upper (s : string) : string :=
  match s with
  | EmptyString => EmptyString
  | String c r => String (upper_ascii c) (upper r)
  end.

Definition text_eqb (s t : string) : bool := String.eqb (upper s) (upper t).
Definition text_leb (s t : string) : bool := String.leb (upper s) (upper t).

(** Comparison of two non-error values: numbers sort before text, text before
    logicals; a blank cell is the neutral value of the other side's type. *)
Definition value_eqb (a b : value) : bool :=
  match a, b with
  | VNum x, VNum y => (x =? y)%float
  | VText s, VText t => text_eqb s t
  | VBool p, VBool q => Bool.eqb p q
  | VBlank, VBlank => true
  | VBlank, VNum y | VNum y, VBlank => (y =? 0)%float
  | VBlank, VText t | VText t, VBlank => text_eqb t ""
  | VBlank, VBool q | VBool q, VBlank => negb q
  | _, _ => false
  end.

Definition value_leb (a b : value) : bool :=
  match a, b with
  | VNum x, VNum y => (x <=? y)%float
  | VText s, VText t => text_leb s t
  | VBool p, VBool q => implb p q
  | VBlank, VBlank => true
  | VBlank, VNum y => (0 <=? y)%float
  | VNum x, VBlank => (x <=? 0)%float
  | VBlank, VText t => true
  | VText s, VBlank => text_eqb s ""
  | VBlank, VBool q => true
  | VBool p, VBlank => negb p
  | VNum _, (VText _ | VBool _) => true
  | VText _, VBool _ => true
  | _, _ => false
  end.

Definition compare_op (test : value -> value -> bool) (a b : value) : value :=
  match a, b with
  | VErr e, _ => VErr e
  | _, VErr e => VErr e
  | _, _ => VBool (test a b)
  end.

Definition xl_eq : value -> value -> value := compare_op value_eqb.
Definition xl_le : value -> value -> value := compare_op value_leb.

(** Truth value of a condition or of a logical argument. *)
Inductive truth : Type :=
| Truth (b : bool)
| NoTruth (e : error).

Definition to_bool (v : value) : truth :=
  match v with
  | VBool b => Truth b
  | VNum x => Truth (negb (x =? 0)%float)
  | VBlank => Truth false
  | VText _ => NoTruth ErrValue
  | VErr e => NoTruth e
  end.

Definition xl_if (c a b : value) : value :=
  match to_bool c with
  | NoTruth e => VErr e
  | Truth true => a
  | Truth false => b
  end.

Definition xl_not (a : value) : value :=
  match to_bool a with
  | NoTruth e => VErr e
  | Truth b => VBool (negb b)
  end.

Fixpoint or_args (acc : bool) (args : list value) : value :=
  match args with
  | [] => VBool acc
  | a :: rest =>
      match to_bool a with
      | NoTruth e => VErr e
      | Truth b => or_args (acc || b) rest
      end
  end.

Definition xl_or (args : list value) : value := or_args false args.

(** [MAX] and [MIN] over cell references: only the numbers in the referenced
    cells count; text, logicals and blanks are skipped, an error in any cell
    is the result, and no number at all gives 0. *)
Inductive numbers : Type :=
| Numbers (xs : list float)
| NoNumbers (e : error).

Fixpoint ref_numbers (refs : list value) : numbers :=
  match refs with
  | [] => Numbers []
  | VErr e :: _ => NoNumbers e
  | VNum x :: rest =>
      match ref_numbers rest with
      | Numbers xs => Numbers (x :: xs)
      | NoNumbers e => NoNumbers e
      end
  | _ :: rest => ref_numbers rest
  end.

Definition fmax (x y : float) : float := if (x <? y)%float then y else x.
Definition fmin (x y : float) : float := if (y <? x)%float then y else x.

Definition extremum (pick : float -> float -> float) (xs : list float) : float :=
  match xs with
  | [] => 0%float
  | x :: rest => fold_left pick rest x
  end.

Definition xl_max (refs : list value) : value :=
  match ref_numbers refs with
  | NoNumbers e => VErr e
  | Numbers xs => VNum (extremum fmax xs)
  end.

Definition xl_min (refs : list value) : value :=
  match ref_numbers refs with
  | NoNumbers e => VErr e
  | Numbers xs => VNum (extremum fmin xs)
  end.

(** Sheets: a table is the list of its data rows (sheet row 2 onwards), a row
    the list of its cells, columns counted from 1 as in the builder. *)
Definition row : Type := list value.
Definition table : Type := list row.

Definition col (c : nat) (r : row) : value := nth (c - 1) r VBlank.

(** Writing a cell.  The builder only assigns cells of rows it has appended
    and within their width, so nothing is modelled past the end of a list:
    there the list is returned as it is. *)
Fixpoint set_nth {A : Type} (n : nat) (x : A) (l : list A) : list A :=
  match n, l with
  | _, [] => []
  | O, _ :: t => x :: t
  | S k, h :: t => h :: set_nth k x t
  end.

Definition set_col (c : nat) (v : value) (r : row) : row := set_nth (c - 1) v r.

(** [cell r c t]: the cell at sheet row [r] (the header is row 1). *)
Definition cell (r c : nat) (t : table) : value := col c (nth (r - 2) t []).

Definition set_cell (r c : nat) (v : value) (t : table) : table :=
  set_nth (r - 2) (set_col c v (nth (r - 2) t [])) t.

(** [VLOOKUP(key, range, c, FALSE)]: first row whose first cell matches. *)
Definition lookup_match (key first : value) : bool :=
  match key, first with
  | VText s, VText t => text_eqb s t
  | VNum x, VNum y => (x =? y)%float
  | VBool p, VBool q => Bool.eqb p q
  | _, _ => false
  end.

Definition vlookup (key : value) (range : table) (c : nat) : value :=
  match key with
  | VErr e => VErr e
  | _ =>
      match find (fun r => lookup_match key (col 1 r)) range with
      | Some r => col c r
      | None => VErr ErrNA
      end
  end.

(** The value a formula cell shows: a formula that lands on a blank cell
    shows 0. *)
Definition formula (v : value) : value :=
  match v with
  | VBlank => VNum 0%float
  | _ => v
  end.

End Excel.

Import Excel.

(** ** The workbook of [build_workbook]

    Rows are the tuples the builder appends, cell for cell.  A cell the
    builder fills with the Python empty string is saved without a value.
    Where such a cell is then overwritten by a formula, or is only ever
    tested with [=""] (which holds of a blank cell and of the empty text
    alike), the rows below carry the empty text; the Result_SI cells of
    F_Calculations, one of which stays as it was appended, are blank. *)

Local Abbreviation T := VText (only parsing).
Local Abbreviation N := VNum (only parsing).

(** *** D_Units *)

Definition units_data : table :=
  [ [T "U_J"; T "joule"; T "Energy"; T "J"; N 1.0; N 0.0; T "https://www.bipm.org/en/measurement-units"];
    [T "U_eV"; T "electronvolt"; T "Energy"; T "J"; N 1.602176634e-19; N 0.0; T "https://physics.nist.gov/cgi-bin/cuu/Value?evj="];
    [T "U_ftlbf"; T "foot-pound force"; T "Energy"; T "J"; N 1.3558179483314; N 0.0; T "https://www.convertunits.com/from/ft-lbf/to/joule"];
    [T "U_K"; T "kelvin"; T "Temperature"; T "K"; N 1.0; N 0.0; T "https://www.bipm.org/documents/20126/41483022/SI-Brochure-9-concise-EN.pdf"];
    [T "U_C"; T "degree Celsius"; T "Temperature"; T "K"; N 1.0; N 273.15; T "https://www.bipm.org/documents/20126/41483022/SI-Brochure-9-concise-EN.pdf"];
    [T "U_kg"; T "kilogram"; T "Mass"; T "kg"; N 1.0; N 0.0; T "https://www.bipm.org/en/measurement-units"];
    [T "U_mps"; T "metre per second"; T "Speed"; T "m/s"; N 1.0; N 0.0; T "https://www.bipm.org/documents/20126/41483022/SI-Brochure-9-EN.pdf"];
    [T "U_Coul"; T "coulomb"; T "Charge"; T "C"; N 1.0; N 0.0; T "https://www.bipm.org/en/measurement-units"] ].

(** [D_Units!$A$2:$G$9] *)
Definition units_range : table := units_data.

(** The affine conversion every Value_SI and Canonical_SI cell carries:
    [=VLOOKUP(unit,units,5,FALSE)], [=VLOOKUP(unit,units,6,FALSE)] and
    [=value*mult+offset]. *)
Definition unit_mult (unit_id : value) : value := formula (vlookup unit_id units_range 5).
Definition unit_offset (unit_id : value) : value := formula (vlookup unit_id units_range 6).

Definition to_si (raw mult offset : value) : value :=
  formula (xl_add (xl_mul raw mult) offset).

Definition convert (unit_id raw : value) : value :=
  to_si raw (unit_mult unit_id) (unit_offset unit_id).

(** *** The editable cells

    The builder marks the Value column of D_Constants as the workbook's input
    cells; the one literal instance value (0 K) is the other number a user
    can change. *)
Record inputs : Type := {
  in_C_me : float;
  in_C_c : float;
  in_C_e : float;
  in_C_mec2 : float;
  in_C_abs0 : float;
  in_I_Tabs0_K : float
}.

Definition shipped : inputs := {|
  in_C_me := 9.1093837139e-31;
  in_C_c := 299792458.0;
  in_C_e := 1.602176634e-19;
  in_C_mec2 := 8.1871057880e-14;
  in_C_abs0 := 0.0;
  in_I_Tabs0_K := 0.0
|}.

(** *** D_Constants *)

Definition constants_rows (i : inputs) : table :=
  [ [T "C_me"; T "electron mass"; T "m_e"; N (in_C_me i); T "U_kg"; T "Measured (CODATA)"; T "https://physics.nist.gov/cgi-bin/cuu/Value?me="; T ""; T ""; T ""; T "From NIST CODATA"];
    [T "C_c"; T "speed of light in vacuum"; T "c"; N (in_C_c i); T "U_mps"; T "Defined (SI)"; T "https://www.bipm.org/en/measurement-units"; T ""; T ""; T ""; T "Exact by SI definition"];
    [T "C_e"; T "elementary charge"; T "e"; N (in_C_e i); T "U_Coul"; T "Defined (SI)"; T "https://www.bipm.org/en/measurement-units"; T ""; T ""; T ""; T "Exact by SI definition"];
    [T "C_mec2"; T "electron mass energy equivalent"; T "m_e c^2"; N (in_C_mec2 i); T "U_J"; T "Measured/Adjusted (CODATA)"; T "https://physics.nist.gov/cgi-bin/cuu/Value?mec2%7Csearch_for=electron+mass"; T ""; T ""; T ""; T "Reference value to validate E=mc^2 calc"];
    [T "C_abs0"; T "absolute zero (thermodynamic)"; T "0 K"; N (in_C_abs0 i); T "U_K"; T "Defined (scale anchor)"; T "https://www.bipm.org/documents/20126/41483022/SI-Brochure-9-concise-EN.pdf"; T ""; T ""; T ""; T "0 K is absolute zero on Kelvin scale"] ].

(** Columns 8, 9, 10 of a constants row: the unit's factors and
    [=D*H+I]. *)
Definition constant_formulas (r : row) : row :=
  let r := set_col 8 (unit_mult (col 5 r)) r in
  let r := set_col 9 (unit_offset (col 5 r)) r in
  set_col 10 (to_si (col 4 r) (col 8 r) (col 9 r)) r.

Definition constants_sheet (i : inputs) : table :=
  map constant_formulas (constants_rows i).

(** [D_Constants!$A$2:$J$6], and [vconst]: Value_SI is column 10. *)
Definition vconst (const_range : table) (const_id : string) : value :=
  vlookup (T const_id) const_range 10.

(** *** F_Calculations *)

Definition calc_rows : table :=
  [ [T "F_Ecalc"; T "Electron rest energy from E=mc^2"; T "m_e * c^2"; T "U_J"; VBlank; T "Uses constants C_me and C_c"];
    [T "F_eV_to_J"; T "eV to J conversion"; T "e (since 1 V = 1 J/C, so eV = e·J)"; T "U_J"; VBlank; T "Checks constructed truth: conversion derives from defined constants"];
    [T "F_T_C_from_K"; T "Celsius from Kelvin"; T "t(°C)=T(K)-273.15"; T "U_C"; VBlank; T "Uses BIPM relationship"] ].

(** E2 is [=vconst(C_me)*(vconst(C_c)^2)], E3 is [=vconst(C_e)]; E4 keeps
    what its row was appended with: no value. *)
Definition calcs_sheet (const_range : table) (rows : table) : table :=
  let t := rows in
  let t := set_cell 2 5 (formula (xl_mul (vconst const_range "C_me") (xl_pow2 (vconst const_range "C_c")))) t in
  set_cell 3 5 (formula (vconst const_range "C_e")) t.

(** [F_Calculations!$A$2:$E$4], and [vcalc]: Result_SI is column 5. *)
Definition vcalc (calcs_range : table) (calc_id : string) : value :=
  vlookup (T calc_id) calcs_range 5.

(** *** D_Instances *)

Definition instances_rows (i : inputs) : table :=
  [ [T "I_Ecalc_J"; T "ElectronRestEnergy"; T "E (calc)"; T "Energy"; T ""; T "U_J"; T ""; T ""; T ""; T "From F_Ecalc"];
    [T "I_Ecalc_eV"; T "ElectronRestEnergy"; T "E (calc)"; T "Energy"; T ""; T "U_eV"; T ""; T ""; T ""; T "Converted from SI"];
    [T "I_Ecalc_ftlbf"; T "ElectronRestEnergy"; T "E (calc)"; T "Energy"; T ""; T "U_ftlbf"; T ""; T ""; T ""; T "Converted from SI"];
    [T "I_Eexpected_J"; T "ElectronRestEnergy"; T "E (CODATA)"; T "Energy"; T ""; T "U_J"; T ""; T ""; T ""; T "Reference constant C_mec2"];
    [T "I_Tabs0_K"; T "AbsoluteZero"; T "T absolute"; T "Temperature"; N (in_I_Tabs0_K i); T "U_K"; T ""; T ""; T ""; T "0 Kelvin"];
    [T "I_Tabs0_C"; T "AbsoluteZero"; T "T absolute"; T "Temperature"; T ""; T "U_C"; T ""; T ""; T ""; T "Celsius representation of absolute zero"] ].

Definition instance_unit_factors (r : row) : row :=
  let r := set_col 7 (unit_mult (col 6 r)) r in
  set_col 8 (unit_offset (col 6 r)) r.

(** [=E*G+H] *)
Definition instance_canonical (r : row) : row :=
  set_col 9 (to_si (col 5 r) (col 7 r) (col 8 r)) r.

(** The sheet; [D_Instances!$A$2:$I$7] is the range the claims read,
    Canonical_SI its column 9. *)
Definition instances_sheet (const_range calcs_range : table) (rows : table) : table :=
  let t := map instance_unit_factors rows in
  let t := set_cell 2 5 (formula (vcalc calcs_range "F_Ecalc")) t in
  let t := set_cell 3 5 (formula (xl_div (vcalc calcs_range "F_Ecalc") (vcalc calcs_range "F_eV_to_J"))) t in
  let t := set_cell 4 5 (formula (xl_div (vcalc calcs_range "F_Ecalc") (vlookup (T "U_ftlbf") units_range 5))) t in
  let t := set_cell 5 5 (formula (vconst const_range "C_mec2")) t in
  let t := set_cell 7 5 (formula (xl_sub (cell 6 5 t) (N 273.15))) t in
  map instance_canonical t.

(** *** D_Claims *)

Definition claims_rows : table :=
  [ [T "CL1"; T "Electron rest energy is invariant across units (J, eV, ft-lbf)."; T "Reality-constrained invariant";
     T "Max(SI)-Min(SI) <= tolerance"; T "I_Ecalc_J"; T "I_Ecalc_eV"; T "I_Ecalc_ftlbf"; N 1e-25; T ""; T ""; T ""; T ""; T ""; T ""];
    [T "CL2"; T "E = m c^2 (using m_e and c) matches CODATA m_e c^2 within tolerance."; T "Reality-constrained invariant";
     T "Abs(SI_calc - SI_ref) <= tolerance"; T "I_Ecalc_J"; T "I_Eexpected_J"; T ""; N 1e-22; T ""; T ""; T ""; T ""; T ""; T ""];
    [T "CL3"; T "0 K and -273.15 °C represent the same absolute temperature."; T "Mixed (scale + reality)";
     T "Abs(SI_K - SI_C) <= tolerance"; T "I_Tabs0_K"; T "I_Tabs0_C"; T ""; N 1e-9; T ""; T ""; T ""; T ""; T ""; T ""];
    [T "CL4"; T "1 eV equals e joules (constructed via SI definition of e and volt)."; T "Constructed (definition/convention)";
     T "Abs(eV_to_J - e) <= tolerance"; T ""; T ""; T ""; N 0.0; T ""; T ""; T ""; T ""; T ""; T ""] ].

(** [=IF(E="","",VLOOKUP(E,instances,9,FALSE))] *)
Definition claim_si (inst_range : table) (instance_id : value) : value :=
  formula (xl_if (xl_eq instance_id (T "")) (T "") (vlookup instance_id inst_range 9)).

(** [=IF(K="",ABS(I-J),MAX(I,J,K)-MIN(I,J,K))] *)
Definition range_abs (si_1 si_2 si_3 : value) : value :=
  formula (xl_if (xl_eq si_3 (T ""))
                 (xl_abs (xl_sub si_1 si_2))
                 (xl_sub (xl_max [si_1; si_2; si_3]) (xl_min [si_1; si_2; si_3]))).

(** [=L<=H] *)
Definition pass (range tolerance : value) : value :=
  formula (xl_le range tolerance).

(** The loop over the claim rows: columns 9 to 13 (column 14, the
    truth-source label, lies outside every range that is read). *)
Definition claim_formulas (inst_range : table) (r : row) : row :=
  let r := set_col 9 (claim_si inst_range (col 5 r)) r in
  let r := set_col 10 (claim_si inst_range (col 6 r)) r in
  let r := set_col 11 (claim_si inst_range (col 7 r)) r in
  let r := set_col 12 (range_abs (col 9 r) (col 10 r) (col 11 r)) r in
  set_col 13 (pass (col 12 r) (col 8 r)) r.

(** The patch of CL4 (sheet row 5): calculation F_eV_to_J against constant
    C_e. *)
Definition r_cl4 : nat := 5.

Definition patch_cl4 (const_range calcs_range : table) (t : table) : table :=
  let t := set_cell r_cl4 9 (formula (vcalc calcs_range "F_eV_to_J")) t in
  let t := set_cell r_cl4 10 (formula (vconst const_range "C_e")) t in
  let t := set_cell r_cl4 11 (T "") t in
  let t := set_cell r_cl4 12 (formula (xl_abs (xl_sub (cell r_cl4 9 t) (cell r_cl4 10 t)))) t in
  set_cell r_cl4 13 (formula (xl_le (cell r_cl4 12 t) (cell r_cl4 8 t))) t.

Definition claims_sheet (const_range calcs_range inst_range : table) (rows : table) : table :=
  patch_cl4 const_range calcs_range (map (claim_formulas inst_range) rows).

(** [D_Claims!$A$2:$M$5], and [vclaim_pass]: Pass is column 13. *)
Definition vclaim_pass (claims_range : table) (cid : string) : value :=
  vlookup (T cid) claims_range 13.

(** *** D_Questions: the Answer cells D2 to D7 *)

Inductive question : Type := Q0 | Q1 | Q2 | Q3 | Q4 | Q5.

Definition answer (claims_range : table) (q : question) : value :=
  let p := vclaim_pass claims_range in
  match q with
  | Q0 => formula (p "CL4")
  | Q1 => formula (xl_or [p "CL1"; p "CL2"; p "CL3"])
  | Q2 => formula (xl_not (p "CL1"))
  | Q3 => formula (p "CL2")
  | Q4 => formula (p "CL3")
  | Q5 => formula (xl_or [p "CL1"; p "CL2"; p "CL3"])
  end.

(** *** The whole graph, from the editable cells *)

Definition const_range (i : inputs) : table := constants_sheet i.
Definition calcs_range (i : inputs) : table := calcs_sheet (const_range i) calc_rows.
Definition inst_range (i : inputs) : table :=
  instances_sheet (const_range i) (calcs_range i) (instances_rows i).
Definition claims_range (i : inputs) : table :=
  claims_sheet (const_range i) (calcs_range i) (inst_range i) claims_rows.

Definition instance_si (i : inputs) (instance_id : string) : value :=
  vlookup (T instance_id) (inst_range i) 9.
Definition claim_range (i : inputs) (cid : string) : value :=
  vlookup (T cid) (claims_range i) 12.
Definition claim_pass (i : inputs) (cid : string) : value :=
  vclaim_pass (claims_range i) cid.

(** *** Rows the builder could hold

    A claim row as [claims_rows] lays it out, for any identifiers and
    tolerance, and the Canonical_SI of an instance whose Value is
    [=vcalc(calc_id)], as the Value of I_Ecalc_J is, in any unit. *)
Definition claim_row (cid text ctype criteria id_1 id_2 id_3 : string) (tol : float) : row :=
  [T cid; T text; T ctype; T criteria; T id_1; T id_2; T id_3; N tol;
   T ""; T ""; T ""; T ""; T ""; T ""].

Definition instance_of_calc (calcs_range : table) (calc_id unit_id : string) : value :=
  convert (T unit_id) (formula (vcalc calcs_range calc_id)).

(** *** Editing the literal instance value

    The shipped workbook with another number typed into the Value cell of
    I_Tabs0_K. *)
Definition with_kelvin (k : float) : inputs := {|
  in_C_me := in_C_me shipped;
  in_C_c := in_C_c shipped;
  in_C_e := in_C_e shipped;
  in_C_mec2 := in_C_mec2 shipped;
  in_C_abs0 := in_C_abs0 shipped;
  in_I_Tabs0_K := k
|}.

(** Decidable readings of a cell: the number 0 (bit for bit), the logical
    TRUE. *)
Definition is_zero_number (v : value) : bool :=
  match v with
  | VNum r => PrimFloat.Leibniz.eqb r 0%float
  | _ => false
  end.

Definition is_true (v : value) : bool :=
  match v with
  | VBool b => b
  | _ => false
  end.

(** What the two temperature instances and claim CL3 come to, as functions
    of the Kelvin literal (lemma [temperature_instances] reads them off the
    sheets). *)
Definition kelvin_si (k : float) : value :=
  formula (convert (VText "U_K") (VNum k)).

Definition celsius_si (k : float) : value :=
  formula (convert (VText "U_C") (formula (xl_sub (VNum k) (VNum 273.15)))).

Definition cl3_range (k : float) : value :=
  range_abs (kelvin_si k) (celsius_si k) (VText "").

Definition cl3_pass (k : float) : value := pass (cl3_range k) (VNum 1e-9).

(** *** Numbers a cell can hold unchanged

    A plain number is finite and is not the negative zero: multiplying it by
    1 and adding 0, as the conversion of an SI unit does, gives it back. *)

Definition plain (x : float) : bool :=
  is_finite x && negb (PrimFloat.Leibniz.eqb x (-0)%float).

Definition plain_inputs (i : inputs) : bool :=
  plain (in_C_me i) && plain (in_C_c i) && plain (in_C_e i) &&
  plain (in_C_mec2 i) && plain (in_C_abs0 i) && plain (in_I_Tabs0_K i).

(** The shipped workbook with another elementary charge typed into the
    Value cell of C_e. *)
Definition with_charge (e : float) : inputs := {|
  in_C_me := in_C_me shipped;
  in_C_c := in_C_c shipped;
  in_C_e := e;
  in_C_mec2 := in_C_mec2 shipped;
  in_C_abs0 := in_C_abs0 shipped;
  in_I_Tabs0_K := in_I_Tabs0_K shipped
|}.

(** *** Which lookups find a row *)

Definition found (key : value) (range : table) : bool :=
  match find (fun r => lookup_match key (col 1 r)) range with
  | Some _ => true
  | None => false
  end.

(** No two ids of a column match each other (VLOOKUP would only ever see the
    first). *)
Fixpoint distinct_ids (ids : list value) : bool :=
  match ids with
  | [] => true
  | a :: rest => negb (existsb (lookup_match a) rest) && distinct_ids rest
  end.

(** A reference slot of a claim row: empty, or the id of an instance. *)
Definition referenced_or_empty (range : table) (id : value) : bool :=
  value_eqb id (VText "") || found id range.

(** *** A_Dashboard *)

(** A count as the number a cell holds. *)
Definition count_number (n : nat) : float := of_uint63 (Uint63.of_Z (Z.of_nat n)).

(** [COUNTIF(range,TRUE)]: the number of cells holding the logical TRUE;
    errors and anything else are passed over. *)
Definition xl_countif_true (range : list value) : value :=
  VNum (count_number (List.length (filter is_true range))).

(** B4 to B6: [=VLOOKUP("F_Ecalc",...)], [=VLOOKUP("C_mec2",...)],
    [=VLOOKUP("C_abs0",...)]. *)
Definition dash_B4 (calcs_range : table) : value := formula (vcalc calcs_range "F_Ecalc").
Definition dash_B5 (const_range : table) : value := formula (vconst const_range "C_mec2").
Definition dash_B6 (const_range : table) : value := formula (vconst const_range "C_abs0").

(** B8: [=COUNTIF(D_Claims!$M$2:$M${1+len(claims_rows)},TRUE)]. *)
Definition dash_B8 (claims_sheet : table) : value :=
  formula (xl_countif_true (map (fun r => col 13 r) (firstn (List.length claims_rows) claims_sheet))).

(** B9: [={len(claims_rows)}]. *)
Definition dash_B9 : value := formula (VNum (count_number (List.length claims_rows))).

Definition all_questions : list question := [Q0; Q1; Q2; Q3; Q4; Q5].

(** Rows 12 onwards: [B{12+idx} = D_Questions!D{2+idx}]. *)
Definition dash_answers (claims_range : table) : list (nat * value) :=
  map (fun p => (12 + fst p, formula (answer claims_range (snd p))))
      (combine (seq 0 (List.length all_questions)) all_questions).

(** Column B of the dashboard, by sheet row: every cell of the sheet that
    holds a number or a logical (column A holds the labels and the texts of
    the questions). *)
Definition dashboard_values (const_range calcs_range claims_range : table) : list (nat * value) :=
  [ (4, dash_B4 calcs_range); (5, dash_B5 const_range); (6, dash_B6 const_range);
    (8, dash_B8 claims_range); (9, dash_B9) ] ++ dash_answers claims_range.

(** *** D_Claims: the TruthSource_Layer column *)

(** [LEFT(text,n)] on a text of one-byte characters, as the claim types are. *)
Definition xl_left (s : string) (n : nat) : string := substring 0 n s.

(** Column 14 of a claim row, from the text of its ClaimType cell:
    [=IF(LEFT(C,11)="Constructed","Convention/Definition","Reality ...")]. *)
Definition truth_source_layer (claim_type : string) : value :=
  formula (xl_if (xl_eq (VText (xl_left claim_type 11)) (VText "Constructed"))
                 (VText "Convention/Definition")
                 (VText "Reality (constraint) + Convention (coordinates)")).

(** ** Formatting helpers

    [set_col_widths], [style_header_row] and [style_data_range] as functions
    on the part of a worksheet they read and write. A call that raises in the
    source returns [None]. *)

Module Formatting.

Local Open Scope Z_scope.

Inductive fill_style : Type := NoFill | HEADER_FILL | INPUT_FILL.
(** [BoldFont16] and [BoldFont] are the dashboard's [Font(bold=True, size=16)]
    and [Font(bold=True)]. *)
Inductive font_style : Type := DefaultFont | HEADER_FONT | INPUT_FONT | BoldFont16 | BoldFont.
Inductive alignment_style : Type := DefaultAlignment | WRAP | CENTER.
Inductive border_style : Type := NoBorder | BORDER.

Record cell_format : Type := {
  fill : fill_style;
  font : font_style;
  alignment : alignment_style;
  border : border_style
}.

(** What the helpers read and write of a worksheet: the format of each cell
    (row, column), the row heights, the column widths (columns by index, which
    [get_column_letter] turns into their letters), and the extent of the
    cells that exist. *)
Record worksheet : Type := {
  cell_formats : Z -> Z -> cell_format;
  row_heights : Z -> option Z;
  col_widths : Z -> option float;
  max_row : Z;
  max_column : Z
}.

(** [ws.cell(row, column)]: refused below 1 (ValueError); otherwise the cell
    exists from then on. *)
Definition ws_cell (ws : worksheet) (r c : Z) : option worksheet :=
  if (1 <=? r) && (1 <=? c) then
    Some {| cell_formats := cell_formats ws;
            row_heights := row_heights ws;
            col_widths := col_widths ws;
            max_row := Z.max (max_row ws) r;
            max_column := Z.max (max_column ws) c |}
  else None.

Definition set_format (ws : worksheet) (r c : Z) (f : cell_format) : worksheet :=
  {| cell_formats := fun r' c' => if (r' =? r) && (c' =? c) then f else cell_formats ws r' c';
     row_heights := row_heights ws;
     col_widths := col_widths ws;
     max_row := max_row ws;
     max_column := max_column ws |}.

Definition set_row_height (ws : worksheet) (r h : Z) : worksheet :=
  {| cell_formats := cell_formats ws;
     row_heights := fun r' => if r' =? r then Some h else row_heights ws r';
     col_widths := col_widths ws;
     max_row := max_row ws;
     max_column := max_column ws |}.

Definition set_col_width (ws : worksheet) (c : Z) (w : float) : worksheet :=
  {| cell_formats := cell_formats ws;
     row_heights := row_heights ws;
     col_widths := fun c' => if c' =? c then Some w else col_widths ws c';
     max_row := max_row ws;
     max_column := max_column ws |}.

(** A [for] loop whose body may raise. *)
Fixpoint for_each {A S : Type} (body : A -> S -> option S) (xs : list A) (s : S) : option S :=
  match xs with
  | [] => Some s
  | x :: rest =>
      match body x s with
      | Some s' => for_each body rest s'
      | None => None
      end
  end.

(** [range(a, b + 1)] *)
Definition range_incl (a b : Z) : list Z :=
  map (fun k => a + Z.of_nat k) (seq 0 (Z.to_nat (b + 1 - a))).

(** [enumerate(xs, start=1)] *)
Definition enumerate1 {A : Type} (xs : list A) : list (Z * A) :=
  combine (map Z.of_nat (seq 1 (List.length xs))) xs.

(** [get_column_letter] raises ValueError outside 1..18278 (column ZZZ). *)
Definition get_column_letter_ok (i : Z) : bool := (1 <=? i) && (i <=? 18278).

Definition set_col_widths (ws : worksheet) (widths : list float) : option worksheet :=
  for_each (fun iw ws =>
              if get_column_letter_ok (fst iw)
              then Some (set_col_width ws (fst iw) (snd iw))
              else None)
           (enumerate1 widths) ws.

Definition header_format : cell_format :=
  {| fill := HEADER_FILL; font := HEADER_FONT; alignment := CENTER; border := BORDER |}.

Definition style_header_cell (row c : Z) (ws : worksheet) : option worksheet :=
  match ws_cell ws row c with
  | Some ws => Some (set_format ws row c header_format)
  | None => None
  end.

Definition style_header_row (ws : worksheet) (row : Z) (max_col : option Z) : option worksheet :=
  let max_col := match max_col with None => max_column ws | Some m => m end in
  let ws := set_row_height ws row 22 in
  for_each (style_header_cell row) (range_incl 1 max_col) ws.

Definition data_format (f : cell_format) : cell_format :=
  {| fill := fill f; font := font f; alignment := WRAP; border := BORDER |}.

Definition style_data_cell (r c : Z) (ws : worksheet) : option worksheet :=
  match ws_cell ws r c with
  | Some ws => Some (set_format ws r c (data_format (cell_formats ws r c)))
  | None => None
  end.

Definition style_data_row (start_col end_col r : Z) (ws : worksheet) : option worksheet :=
  for_each (style_data_cell r) (range_incl start_col end_col) (set_row_height ws r 18).

Definition style_data_range (ws : worksheet)
    (start_row end_row start_col end_col : Z) : option worksheet :=
  for_each (style_data_row start_col end_col) (range_incl start_row end_row) ws.

(** The two calls every data sheet of the builder gets:
    [style_header_row(ws, 1, len(headers))] and
    [style_data_range(ws, 2, ws.max_row, 1, len(headers))]. *)
Definition style_sheet (ws : worksheet) (n_headers : Z) : option worksheet :=
  match style_header_row ws 1 (Some n_headers) with
  | Some ws => style_data_range ws 2 (max_row ws) 1 n_headers
  | None => None
  end.

(** A sheet as [wb.create_sheet] returns it. *)
Definition create_sheet : worksheet :=
  {| cell_formats := fun _ _ =>
       {| fill := NoFill; font := DefaultFont; alignment := DefaultAlignment; border := NoBorder |};
     row_heights := fun _ => None;
     col_widths := fun _ => None;
     max_row := 1;
     max_column := 1 |}.

Definition bind {A B : Type} (m : option A) (k : A -> option B) : option B :=
  match m with
  | Some a => k a
  | None => None
  end.

Notation "x <- m ;; k" := (bind m (fun x => k))
  (at level 61, m at next level, right associativity).

(** [ws.cell(r, c).font = f] and [ws.cell(r, c).alignment = a] *)
Definition set_font (ws : worksheet) (r c : Z) (f : font_style) : option worksheet :=
  ws <- ws_cell ws r c;;
  let old := cell_formats ws r c in
  Some (set_format ws r c
          {| fill := fill old; font := f; alignment := alignment old; border := border old |}).

Definition set_alignment (ws : worksheet) (r c : Z) (a : alignment_style) : option worksheet :=
  ws <- ws_cell ws r c;;
  let old := cell_formats ws r c in
  Some (set_format ws r c
          {| fill := fill old; font := font old; alignment := a; border := border old |}).

(** *** A_Dashboard, as far as formats and the cells that exist go

    Writing a value into a cell makes the cell exist ([ws_cell]); values and
    number formats are not part of a [worksheet] here. *)

(** Rows 1 to 11: titles, the three key values, the two counts. *)
Definition dashboard_head : option worksheet :=
  ws <- ws_cell create_sheet 1 1;;
  ws <- set_font ws 1 1 BoldFont16;;
  ws <- ws_cell ws 3 1;;
  ws <- set_font ws 3 1 BoldFont;;
  ws <- ws_cell ws 4 1;;
  ws <- ws_cell ws 4 2;;
  ws <- ws_cell ws 5 1;;
  ws <- ws_cell ws 5 2;;
  ws <- ws_cell ws 6 1;;
  ws <- ws_cell ws 6 2;;
  ws <- ws_cell ws 8 1;;
  ws <- set_font ws 8 1 BoldFont;;
  ws <- ws_cell ws 8 2;;
  ws <- ws_cell ws 9 1;;
  ws <- ws_cell ws 9 2;;
  ws <- ws_cell ws 11 1;;
  set_font ws 11 1 BoldFont.

(** One question: [A{dr}], [B{dr}] and the centring of [B{dr}], with
    [dr = 12 + idx]. *)
Definition dashboard_question (idx : Z) (ws : worksheet) : option worksheet :=
  let dr := 12 + idx in
  ws <- ws_cell ws dr 1;;
  ws <- ws_cell ws dr 2;;
  set_alignment ws dr 2 CENTER.

(** [for r in range(r0, r1 + 1): for c in range(c0, c1 + 1):] border and
    wrapping of the cell (r, c). *)
Definition border_block (r0 r1 c0 c1 : Z) (ws : worksheet) : option worksheet :=
  for_each (fun r ws => for_each (style_data_cell r) (range_incl c0 c1) ws)
           (range_incl r0 r1) ws.

(** The dashboard of a workbook with [n_questions] question rows; [idx] runs
    over [0 .. n_questions - 1]. *)
Definition dashboard_format (n_questions : Z) : option worksheet :=
  ws <- dashboard_head;;
  ws <- for_each dashboard_question (range_incl 0 (n_questions - 1)) ws;;
  ws <- set_col_widths ws [70; 18; 18; 18]%float;;
  ws <- for_each (fun r ws => ws_cell ws r 2) (range_incl 4 6) ws;;
  ws <- border_block 4 9 1 2 ws;;
  border_block 12 (12 + n_questions - 1) 1 2 ws.

(** The largest of [m] and the elements of [xs]: how far a loop over the
    rows or columns [xs] extends a sheet that reached [m]. *)
Definition grow (m : Z) (xs : list Z) : Z := fold_left Z.max xs m.

(** A format with its alignment replaced by [CENTER]. *)
Definition centred (f : cell_format) : cell_format :=
  {| fill := fill f; font := font f; alignment := CENTER; border := border f |}.

End Formatting.

(** ** Binary64 numbers seen through their specification

    [sf_number] tells the finite values from infinities and NaN; [aligned] is
    the signed mantissa of a finite value at a common exponent, the integer
    that addition and subtraction work on. *)

Definition sf_number (s : spec_float) : bool :=
  match s with
  | S754_zero _ | S754_finite _ _ _ => true
  | _ => false
  end.

Definition sf_valid_number (x : spec_float) : Prop :=
  valid_binary x = true /\ sf_number x = true.

Definition aligned (s : bool) (m : positive) (e ez : Z) : Z :=
  cond_Zopp s (Zpos (fst (shl_align m e ez))).

(** The value of a finite number as an integer, in units of 2^-1074 (the
    smallest positive binary64 number); 0 for infinities and NaN. *)
Definition SFint (x : spec_float) : Z :=
  match x with
  | S754_finite s m e => cond_Zopp s (Zpos m * 2 ^ (e + 1074))
  | _ => 0
  end.

Definition Fint (x : float) : Z := SFint (Prim2SF x).

(** [shifted m P r]: the record [r] is the natural number [m] shifted right
    by the power of two [P]: the quotient, the round bit (the remainder is at
    least half of [P]) and the sticky bit (the remainder is neither 0 nor
    half of [P]). *)
Definition shifted (m P : Z) (r : shr_record) : Prop :=
  (shr_m r = m / P /\
   shr_r r = (P <=? 2 * (m mod P)) /\
   shr_s r = negb (2 * (m mod P) mod P =? 0))%Z.

(** ** Lemmas on binary64 arithmetic *)

Section Binary64.

Lemma is_finite_SF (x : float) : is_finite x = sf_number (Prim2SF x).
Proof.
  unfold is_finite, is_nan, is_infinity.
  rewrite !eqb_spec, abs_spec.
  change (Prim2SF infinity) with (S754_infinity false).
  destruct (Prim2SF x) as [s|s| |s m e] eqn:E; try reflexivity.
  - destruct s; reflexivity.
  - simpl. unfold SFeqb. simpl.
    destruct s; simpl; rewrite Z.compare_refl, Pos.compare_cont_refl; reflexivity.
Qed.

(* rounding commutes with the sign *)
Lemma binary_round_aux_sign s m e l :
  binary_round_aux prec emax s m e l =
  (if s then SFopp (binary_round_aux prec emax false m e l) else binary_round_aux prec emax false m e l).
Proof.
  destruct s; [|reflexivity].
  unfold binary_round_aux.
  destruct (shr_fexp prec emax m e l) as [mrs' e'].
  destruct (shr_fexp prec emax _ e' loc_Exact) as [mrs'' e''].
  destruct (shr_m mrs''); try reflexivity.
  destruct (Z.leb e'' (emax - prec)); reflexivity.
Qed.


Local Open Scope Z_scope.

Lemma digits2_pos_bounds (m : positive) :
  2 ^ (Zpos (digits2_pos m) - 1) <= Zpos m < 2 ^ Zpos (digits2_pos m).
Proof.
  induction m as [m IH|m IH|]; simpl digits2_pos.
  - rewrite Pos2Z.inj_succ.
    replace (Z.succ (Zpos (digits2_pos m)) - 1) with (Z.succ (Zpos (digits2_pos m) - 1)) by lia.
    rewrite !Z.pow_succ_r by lia. lia.
  - rewrite Pos2Z.inj_succ.
    replace (Z.succ (Zpos (digits2_pos m)) - 1) with (Z.succ (Zpos (digits2_pos m) - 1)) by lia.
    rewrite !Z.pow_succ_r by lia. lia.
  - simpl. lia.
Qed.

Lemma iter_xO (m d : positive) : Zpos (Pos.iter xO m d) = Zpos m * 2 ^ Zpos d.
Proof.
  induction d as [|d IH] using Pos.peano_ind.
  - simpl. lia.
  - rewrite Pos.iter_succ, Pos2Z.inj_xO, IH, Pos2Z.inj_succ, Z.pow_succ_r by lia. lia.
Qed.

Lemma shl_align_fst (m : positive) (e ez : Z) :
  ez <= e -> Zpos (fst (shl_align m e ez)) = Zpos m * 2 ^ (e - ez).
Proof.
  intro H. unfold shl_align.
  destruct (ez - e) as [|p|p] eqn:D; simpl fst.
  - replace (e - ez) with 0 by lia. simpl. lia.
  - lia.
  - rewrite iter_xO. replace (e - ez) with (Zpos p) by lia. reflexivity.
Qed.

Lemma canonical_exponent_lt (m1 m2 : positive) (e1 e2 : Z) :
  canonical_mantissa prec emax m1 e1 = true ->
  canonical_mantissa prec emax m2 e2 = true ->
  e1 < e2 -> Zpos m1 < Zpos m2 * 2 ^ (e2 - e1).
Proof.
  unfold canonical_mantissa, fexp, emin, prec, emax.
  intros C1 C2 L.
  apply Z.eqb_eq in C1, C2.
  pose proof (digits2_pos_bounds m1) as [_ U1].
  pose proof (digits2_pos_bounds m2) as [L2 _].
  assert (D1 : Zpos (digits2_pos m1) <= 53) by lia.
  assert (D2 : Zpos (digits2_pos m2) = 53) by lia.
  rewrite D2 in L2.
  assert (Zpos m1 < 2 ^ 53).
  { eapply Z.lt_le_trans; [exact U1|]. apply Z.pow_le_mono_r; lia. }
  assert (2 ^ 1 <= 2 ^ (e2 - e1)) by (apply Z.pow_le_mono_r; lia).
  change (2 ^ (53 - 1)) with 4503599627370496 in L2.
  change (2 ^ 53) with 9007199254740992 in H.
  change (2 ^ 1) with 2 in H0.
  nia.
Qed.

Lemma bounded_canonical m e : bounded prec emax m e = true -> canonical_mantissa prec emax m e = true.
Proof. unfold bounded. intro H. apply andb_prop in H. tauto. Qed.

Lemma aligned_magnitudes (m1 m2 : positive) (e1 e2 : Z) :
  canonical_mantissa prec emax m1 e1 = true ->
  canonical_mantissa prec emax m2 e2 = true ->
  (Zpos (fst (shl_align m1 e1 (Z.min e1 e2))) ?= Zpos (fst (shl_align m2 e2 (Z.min e1 e2)))) =
  match e1 ?= e2 with
  | Lt => Lt
  | Gt => Gt
  | Eq => Pos.compare_cont Eq m1 m2
  end.
Proof.
  intros C1 C2.
  rewrite !shl_align_fst by lia.
  destruct (Z.compare_spec e1 e2) as [E|L|G].
  - subst e2. rewrite Z.min_id, Z.sub_diag. simpl (2 ^ 0). rewrite !Z.mul_1_r. reflexivity.
  - rewrite Z.min_l by lia. rewrite Z.sub_diag. simpl (2 ^ 0). rewrite Z.mul_1_r.
    apply Z.compare_lt_iff. now apply canonical_exponent_lt.
  - rewrite Z.min_r by lia. rewrite Z.sub_diag. simpl (2 ^ 0). rewrite Z.mul_1_r.
    apply Z.compare_gt_iff. apply canonical_exponent_lt; auto; lia.
Qed.

Lemma SFcompare_aligned (s1 s2 : bool) (m1 m2 : positive) (e1 e2 : Z) :
  bounded prec emax m1 e1 = true ->
  bounded prec emax m2 e2 = true ->
  SFcompare (S754_finite s1 m1 e1) (S754_finite s2 m2 e2) =
  Some (aligned s1 m1 e1 (Z.min e1 e2) ?= aligned s2 m2 e2 (Z.min e1 e2)).
Proof.
  intros B1 B2.
  pose proof (aligned_magnitudes m1 m2 e1 e2 (bounded_canonical _ _ B1) (bounded_canonical _ _ B2)) as M.
  unfold aligned, SFcompare.
  destruct s1, s2; simpl cond_Zopp.
  - change (Zneg ?a ?= Zneg ?b) with (CompOpp (Zpos a ?= Zpos b)).
    rewrite M. destruct (e1 ?= e2); reflexivity.
  - reflexivity.
  - reflexivity.
  - rewrite M. reflexivity.
Qed.

Lemma binary_normalize_sign (d ez : Z) :
  binary_normalize prec emax d ez false =
  match d with
  | Z0 => S754_zero false
  | Zpos m => binary_round prec emax false m ez
  | Zneg m => SFopp (binary_round prec emax false m ez)
  end.
Proof.
  destruct d; try reflexivity.
  unfold binary_normalize, binary_round.
  destruct (shl_align _ _ _) as [mz e']. now rewrite binary_round_aux_sign.
Qed.

Lemma binary_round_abs (m : positive) (ez : Z) :
  SFabs (binary_round prec emax false m ez) = binary_round prec emax false m ez.
Proof.
  unfold binary_round. destruct (shl_align _ _ _) as [mz e1].
  unfold binary_round_aux.
  destruct (shr_fexp prec emax _ e1 loc_Exact) as [mrs2 e2].
  destruct (shr_fexp prec emax _ e2 loc_Exact) as [mrs3 e3].
  destruct (shr_m mrs3); try reflexivity.
  destruct (Z.leb e3 (emax - prec)); reflexivity.
Qed.

Lemma SFabs_opp (x : spec_float) : SFabs (SFopp x) = SFabs x.
Proof. destruct x; reflexivity. Qed.

(** The distance of two numbers: [|a - b|] is the larger minus the smaller. *)
Lemma SFabs_sub (a b : spec_float) :
  sf_valid_number a -> sf_valid_number b ->
  SFabs (SF64sub a b) =
  if SFltb a b then SF64sub b a
  else if SFltb b a then SF64sub a b
  else SF64sub a a.
Proof.
  intros [Va Na] [Vb Nb].
  destruct a as [sa|sa| |sa ma ea]; try discriminate Na;
  destruct b as [sb|sb| |sb mb eb]; try discriminate Nb.
  - destruct sa, sb; reflexivity.
  - destruct sa, sb; reflexivity.
  - destruct sa, sb; reflexivity.
  - simpl in Va, Vb.
    unfold SFltb. rewrite !SFcompare_aligned by assumption.
    unfold SF64sub, SFsub. rewrite !Z.min_id.
    rewrite (Z.min_comm eb ea).
    fold (aligned sa ma ea (Z.min ea eb)). fold (aligned sb mb eb (Z.min ea eb)).
    fold (aligned sa ma ea ea).
    set (A := aligned sa ma ea (Z.min ea eb)). set (B := aligned sb mb eb (Z.min ea eb)).
    rewrite Z.sub_diag.
    rewrite !binary_normalize_sign.
    destruct (Z.compare_spec A B) as [E|L|G].
    + rewrite E, Z.compare_refl, Z.sub_diag. reflexivity.
    + destruct (A - B) as [|p|p] eqn:D; try lia.
      replace (B - A) with (Zpos p) by lia.
      rewrite SFabs_opp. apply binary_round_abs.
    + rewrite (proj2 (Z.compare_lt_iff B A)) by lia.
      destruct (A - B) as [|p|p] eqn:D; try lia.
      apply binary_round_abs.
Qed.

Lemma SF64sub_diag (a : spec_float) : sf_number a = true -> SF64sub a a = S754_zero false.
Proof.
  destruct a as [s|s| |s m e]; try discriminate; intros _.
  - destruct s; reflexivity.
  - unfold SF64sub, SFsub. now rewrite Z.sub_diag.
Qed.

Lemma SFltb_asym (a b : spec_float) :
  sf_valid_number a -> sf_valid_number b -> SFltb a b = true -> SFltb b a = false.
Proof.
  intros [Va Na] [Vb Nb].
  destruct a as [sa|sa| |sa ma ea]; try discriminate Na;
  destruct b as [sb|sb| |sb mb eb]; try discriminate Nb.
  - discriminate.
  - unfold SFltb; simpl. destruct sb; [discriminate | reflexivity].
  - unfold SFltb; simpl. destruct sa; [reflexivity | discriminate].
  - simpl in Va, Vb. unfold SFltb.
    rewrite !SFcompare_aligned by assumption. rewrite (Z.min_comm eb ea).
    rewrite (Z.compare_antisym (aligned sa ma ea (Z.min ea eb))).
    destruct (aligned sa ma ea (Z.min ea eb) ?= aligned sb mb eb (Z.min ea eb));
      simpl; intro; try discriminate; reflexivity.
Qed.

Local Close Scope Z_scope.
Local Open Scope float_scope.

Lemma float_valid_number (x : float) :
  is_finite x = true -> sf_valid_number (Prim2SF x).
Proof.
  intro H. split; [apply Prim2SF_valid | now rewrite <- is_finite_SF].
Qed.

Lemma is_finite_abs (x : float) : is_finite (abs x) = is_finite x.
Proof.
  rewrite !is_finite_SF, abs_spec. destruct (Prim2SF x); reflexivity.
Qed.

Lemma sub_diag (x : float) : is_finite x = true -> x - x = 0.
Proof.
  intro H. apply Prim2SF_inj. rewrite sub_spec, SF64sub_diag.
  - reflexivity.
  - now rewrite <- is_finite_SF.
Qed.

(** [ABS(a-b)] and [MAX(a,b)-MIN(a,b)] are the same number. *)
Lemma abs_sub_fmax_fmin (a b : float) :
  is_finite a = true -> is_finite b = true ->
  abs (a - b) = fmax a b - fmin a b.
Proof.
  intros Ha Hb.
  pose proof (float_valid_number a Ha) as Va.
  pose proof (float_valid_number b Hb) as Vb.
  apply Prim2SF_inj.
  rewrite abs_spec, sub_spec, (SFabs_sub _ _ Va Vb).
  unfold fmax, fmin. rewrite !ltb_spec.
  destruct (SFltb (Prim2SF a) (Prim2SF b)) eqn:L.
  - rewrite (SFltb_asym _ _ Va Vb L). now rewrite sub_spec.
  - destruct (SFltb (Prim2SF b) (Prim2SF a)); now rewrite sub_spec.
Qed.

End Binary64.

(** ** Facts on the operators *)

Lemma number_finite (x : float) : is_finite x = true -> number x = VNum x.
Proof. unfold number. now intros ->. Qed.

Lemma number_inv (x y : float) : number x = VNum y -> y = x /\ is_finite y = true.
Proof.
  unfold number. destruct (is_finite x) eqn:F; intro H; inversion H; subst; auto.
Qed.

Lemma formula_number (x : float) : formula (number x) = number x.
Proof. unfold number. now destruct (is_finite x). Qed.

Lemma formula_arith (op : float -> float -> float) (a b : value) :
  formula (arith op a b) = arith op a b.
Proof.
  unfold arith. destruct (to_number a); [|reflexivity].
  destruct (to_number b); [apply formula_number | reflexivity].
Qed.

Lemma formula_abs (a : value) : formula (xl_abs a) = xl_abs a.
Proof. unfold xl_abs. destruct (to_number a); [apply formula_number | reflexivity]. Qed.

Lemma arith_number (op : float -> float -> float) (a b : value) (y : float) :
  arith op a b = VNum y -> is_finite y = true.
Proof.
  unfold arith. destruct (to_number a); [|discriminate].
  destruct (to_number b); [|discriminate].
  intro H. now apply number_inv in H.
Qed.

Lemma xl_abs_sub_max_min (a b : float) :
  is_finite a = true -> is_finite b = true ->
  xl_abs (xl_sub (VNum a) (VNum b)) = xl_sub (VNum (fmax a b)) (VNum (fmin a b)).
Proof.
  intros Ha Hb. unfold xl_abs, xl_sub, arith. cbn [to_number].
  rewrite <- (abs_sub_fmax_fmin a b Ha Hb).
  unfold number at 1. destruct (is_finite (a - b)) eqn:F; cbn [to_number].
  - unfold number. now rewrite is_finite_abs, F.
  - unfold number. now rewrite is_finite_abs, F.
Qed.

(** ** The claim evaluator *)

Lemma range_abs_three (a b c : float) :
  range_abs (VNum a) (VNum b) (VNum c) =
  xl_sub (VNum (extremum fmax [a; b; c])) (VNum (extremum fmin [a; b; c])).
Proof. unfold range_abs. simpl. apply formula_arith. Qed.

Lemma range_abs_two_12 (a b : float) :
  range_abs (VNum a) (VNum b) (VText "") = xl_abs (xl_sub (VNum a) (VNum b)).
Proof. unfold range_abs. simpl. apply formula_abs. Qed.

Lemma range_abs_two_13 (a b : float) :
  is_finite a = true -> is_finite b = true ->
  range_abs (VNum a) (VText "") (VNum b) = xl_abs (xl_sub (VNum a) (VNum b)).
Proof.
  intros Ha Hb. rewrite xl_abs_sub_max_min by assumption.
  unfold range_abs. simpl. apply formula_arith.
Qed.

Lemma range_abs_two_23 (a b : float) :
  is_finite a = true -> is_finite b = true ->
  range_abs (VText "") (VNum a) (VNum b) = xl_abs (xl_sub (VNum a) (VNum b)).
Proof.
  intros Ha Hb. rewrite xl_abs_sub_max_min by assumption.
  unfold range_abs. simpl. apply formula_arith.
Qed.

Lemma claims_range_rows (i : inputs) (r : row) :
  In r (claims_range i) ->
  col 12 r = range_abs (col 9 r) (col 10 r) (col 11 r) /\
  col 13 r = pass (col 12 r) (col 8 r).
Proof.
  unfold claims_range, claims_sheet.
  generalize (inst_range i) (calcs_range i) (const_range i). intros inst calcs consts.
  intro H.
  cbv [claims_rows map claim_formulas patch_cl4 r_cl4 set_cell set_col set_nth col cell nth Nat.sub] in H.
  destruct H as [<-|[<-|[<-|[<-|[]]]]]; split; reflexivity.
Qed.

Lemma pass_numbers (rg tol : float) : pass (VNum rg) (VNum tol) = VBool (rg <=? tol)%float.
Proof. reflexivity. Qed.

(** C1. Every claim row carries [RangeAbs = range_abs(SI_1, SI_2, SI_3)] and
    [Pass = (RangeAbs <= tolerance)], the comparison being inclusive: for a
    numeric range and tolerance, Pass is TRUE exactly when range <= tolerance.
    With three SI values present the range is their maximum minus their
    minimum; with exactly two present, in whichever slots, it is the absolute
    value of their difference. *)
Theorem claim_pass_iff_range_within_tolerance
    (i : inputs) (r : row) (a b c rg tol : float) :
  In r (claims_range i) ->
  is_finite a = true -> is_finite b = true ->
  (col 12 r = range_abs (col 9 r) (col 10 r) (col 11 r) /\
   col 13 r = pass (col 12 r) (col 8 r)) /\
  (pass (VNum rg) (VNum tol) = VBool true <-> (rg <=? tol)%float = true) /\
  range_abs (VNum a) (VNum b) (VNum c) =
    xl_sub (VNum (extremum fmax [a; b; c])) (VNum (extremum fmin [a; b; c])) /\
  range_abs (VNum a) (VNum b) (VText "") = xl_abs (xl_sub (VNum a) (VNum b)) /\
  range_abs (VNum a) (VText "") (VNum b) = xl_abs (xl_sub (VNum a) (VNum b)) /\
  range_abs (VText "") (VNum a) (VNum b) = xl_abs (xl_sub (VNum a) (VNum b)).
Proof.
  intros Hr Ha Hb.
  split; [now apply (claims_range_rows i)|].
  split.
  { rewrite pass_numbers. split; [intro H; now inversion H | now intros ->]. }
  split; [apply range_abs_three|].
  split; [apply range_abs_two_12|].
  split; [now apply range_abs_two_13 | now apply range_abs_two_23].
Qed.

Lemma claim_pass_iff_range_within_tolerance_witness :
  let r := nth 1 (claims_range shipped) [] in
  (col 12 r = range_abs (col 9 r) (col 10 r) (col 11 r) /\
   col 13 r = pass (col 12 r) (col 8 r)) /\
  (pass (VNum 3e-25) (VNum 1e-22) = VBool true <-> (3e-25 <=? 1e-22)%float = true) /\
  range_abs (VNum 2) (VNum 7) (VNum 4) =
    xl_sub (VNum (extremum fmax [2; 7; 4]%float)) (VNum (extremum fmin [2; 7; 4]%float)) /\
  range_abs (VNum 2) (VNum 7) (VText "") = xl_abs (xl_sub (VNum 2) (VNum 7)) /\
  range_abs (VNum 2) (VText "") (VNum 7) = xl_abs (xl_sub (VNum 2) (VNum 7)) /\
  range_abs (VText "") (VNum 2) (VNum 7) = xl_abs (xl_sub (VNum 2) (VNum 7)).
Proof.
  apply (claim_pass_iff_range_within_tolerance shipped).
  - vm_compute. right; left; reflexivity.
  - reflexivity.
  - reflexivity.
Defined.

(** ** The unit registry *)

Lemma units_factors (r : row) (u : string) (m o : float) :
  In r units_data -> col 1 r = VText u -> col 5 r = VNum m -> col 6 r = VNum o ->
  unit_mult (VText u) = VNum m /\ unit_offset (VText u) = VNum o.
Proof.
  intros H H1 H5 H6.
  cbv [units_data] in H.
  repeat (destruct H as [<-|H];
          [cbv [col nth Nat.sub] in H1, H5, H6;
           injection H1 as <-; injection H5 as <-; injection H6 as <-;
           split; vm_compute; reflexivity|]).
  destruct H.
Qed.

Lemma to_si_affine (raw mult offset : value) :
  to_si raw mult offset = xl_add (xl_mul raw mult) offset.
Proof. apply formula_arith. Qed.

(** Every row of D_Constants carries, in its columns 8 to 10, the factors
    of the unit named in its column 5 and the conversion of its Value. *)
Lemma constants_sheet_cells (i : inputs) (r : row) :
  In r (const_range i) ->
  col 8 r = unit_mult (col 5 r) /\
  col 9 r = unit_offset (col 5 r) /\
  col 10 r = convert (col 5 r) (col 4 r).
Proof.
  unfold const_range, constants_sheet. intro H.
  cbv [constants_rows map constant_formulas set_col set_nth col nth Nat.sub] in H.
  destruct H as [<-|[<-|[<-|[<-|[<-|[]]]]]]; repeat split; reflexivity.
Qed.

(** Every row of D_Instances carries, in its columns 7 to 9, the factors of
    the unit named in its column 6 and the conversion of its Value. *)
Lemma instances_sheet_cells (i : inputs) (r : row) :
  In r (inst_range i) ->
  col 7 r = unit_mult (col 6 r) /\
  col 8 r = unit_offset (col 6 r) /\
  col 9 r = convert (col 6 r) (col 5 r).
Proof.
  unfold inst_range, instances_sheet.
  generalize (calcs_range i) (const_range i). intros calcs consts H.
  cbv [instances_rows map instance_unit_factors instance_canonical
       set_cell set_col set_nth col cell nth Nat.sub] in H.
  destruct H as [<-|[<-|[<-|[<-|[<-|[<-|[]]]]]]]; repeat split; reflexivity.
Qed.

(** C3. For every registered unit (a row of D_Units with identifier [u],
    multiplier [m], offset [o]) and every raw value, the conversion is
    [raw * m + o]; on a number [x] whose product and sum stay finite that
    is the binary64 value [x * m + o].  This conversion is what the sheets
    compute: in every row of D_Constants the Value_SI cell, and in every row
    of D_Instances the Canonical_SI cell, is the conversion of the row's
    Value in the row's unit, with the unit's multiplier and offset looked up
    in the two cells before it.  The energy units of the table all have
    offset 0 (electronvolt and foot-pound force with multipliers other than
    1), and degree Celsius is a temperature unit with offset 273.15, which is
    not 0: 0 degrees Celsius converts to 273.15. *)
Theorem convert_is_affine
    (i : inputs) (rc ri : row)
    (r : row) (u : string) (m o : float) (raw : value) (x : float) :
  In r units_data -> col 1 r = VText u -> col 5 r = VNum m -> col 6 r = VNum o ->
  convert (VText u) raw = xl_add (xl_mul raw (VNum m)) (VNum o) /\
  (is_finite (x * m) = true -> is_finite (x * m + o) = true ->
   convert (VText u) (VNum x) = VNum (x * m + o)) /\
  (In rc (const_range i) ->
   col 8 rc = unit_mult (col 5 rc) /\
   col 9 rc = unit_offset (col 5 rc) /\
   col 10 rc = convert (col 5 rc) (col 4 rc) /\
   (col 5 rc = VText u ->
    col 8 rc = VNum m /\ col 9 rc = VNum o /\
    col 10 rc = xl_add (xl_mul (col 4 rc) (VNum m)) (VNum o))) /\
  (In ri (inst_range i) ->
   col 7 ri = unit_mult (col 6 ri) /\
   col 8 ri = unit_offset (col 6 ri) /\
   col 9 ri = convert (col 6 ri) (col 5 ri) /\
   (col 6 ri = VText u ->
    col 7 ri = VNum m /\ col 8 ri = VNum o /\
    col 9 ri = xl_add (xl_mul (col 5 ri) (VNum m)) (VNum o))) /\
  (col 3 r = VText "Energy" -> o = 0%float) /\
  map (fun r => (col 1 r, col 5 r, col 6 r))
      (filter (fun r => value_eqb (col 3 r) (VText "Energy")) units_data) =
    [ (VText "U_J", VNum 1.0, VNum 0.0);
      (VText "U_eV", VNum 1.602176634e-19, VNum 0.0);
      (VText "U_ftlbf", VNum 1.3558179483314, VNum 0.0) ] /\
  map (fun r => (col 1 r, col 2 r, col 5 r, col 6 r))
      (filter (fun r => value_eqb (col 3 r) (VText "Temperature")) units_data) =
    [ (VText "U_K", VText "kelvin", VNum 1.0, VNum 0.0);
      (VText "U_C", VText "degree Celsius", VNum 1.0, VNum 273.15) ] /\
  (273.15 =? 0)%float = false /\
  convert (VText "U_C") (VNum 0) = VNum 273.15.
Proof.
  intros H H1 H5 H6.
  destruct (units_factors r u m o H H1 H5 H6) as [Hm Ho].
  assert (C : forall v, convert (VText u) v = xl_add (xl_mul v (VNum m)) (VNum o)).
  { intro v. unfold convert. rewrite Hm, Ho. apply to_si_affine. }
  split; [apply C|].
  split.
  { intros F1 F2. rewrite C. unfold xl_add, xl_mul, arith. cbn [to_number].
    rewrite (number_finite _ F1). cbn [to_number]. now apply number_finite. }
  split.
  { intro Hc. destruct (constants_sheet_cells i rc Hc) as [C8 [C9 C10]].
    split; [exact C8|]. split; [exact C9|]. split; [exact C10|].
    intro U. rewrite C8, C9, C10, U, Hm, Ho, C. repeat split. }
  split.
  { intro Hi. destruct (instances_sheet_cells i ri Hi) as [C7 [C8 C9]].
    split; [exact C7|]. split; [exact C8|]. split; [exact C9|].
    intro U. rewrite C7, C8, C9, U, Hm, Ho, C. repeat split. }
  split.
  { intro H3. cbv [units_data] in H.
    repeat (destruct H as [<-|H];
            [cbv [col nth Nat.sub] in H3, H6; try discriminate H3;
             now injection H6 as <-|]).
    destruct H. }
  repeat split; vm_compute; reflexivity.
Qed.

Lemma convert_is_affine_witness :
  let ri := nth 5 (inst_range shipped) [] in
  convert (VText "U_C") (VText "abc") = xl_add (xl_mul (VText "abc") (VNum 1.0)) (VNum 273.15) /\
  convert (VText "U_C") (VNum 25) = VNum (25 * 1.0 + 273.15) /\
  col 1 ri = VText "I_Tabs0_C" /\
  col 9 ri = xl_add (xl_mul (col 5 ri) (VNum 1.0)) (VNum 273.15).
Proof.
  cbv zeta.
  pose proof (convert_is_affine shipped [] (nth 5 (inst_range shipped) [])
                (nth 4 units_data []) "U_C" 1.0 273.15 (VText "abc") 25) as W.
  destruct W as [W1 [W2 [_ [W4 _]]]].
  - vm_compute. do 4 right. left. reflexivity.
  - reflexivity.
  - reflexivity.
  - reflexivity.
  - split; [exact W1|]. split; [apply W2; reflexivity|].
    split; [reflexivity|].
    apply W4.
    + vm_compute. do 5 right. left. reflexivity.
    + reflexivity.
Defined.

(** ** The question resolver *)

(** [vclaim_pass] finds, for each claim identifier, the Pass cell of the row
    that carries the identifier. *)
Lemma vclaim_pass_cells (i : inputs) :
  map (fun r => col 1 r) (claims_range i) =
    [VText "CL1"; VText "CL2"; VText "CL3"; VText "CL4"] /\
  vclaim_pass (claims_range i) "CL1" = cell 2 13 (claims_range i) /\
  vclaim_pass (claims_range i) "CL2" = cell 3 13 (claims_range i) /\
  vclaim_pass (claims_range i) "CL3" = cell 4 13 (claims_range i) /\
  vclaim_pass (claims_range i) "CL4" = cell 5 13 (claims_range i).
Proof.
  unfold vclaim_pass, claims_range, claims_sheet.
  generalize (inst_range i) (calcs_range i) (const_range i). intros inst calcs consts.
  cbv [claims_rows map claim_formulas patch_cl4 r_cl4 set_cell set_col set_nth col cell nth Nat.sub].
  repeat split; vm_compute; reflexivity.
Qed.

(** The answers over any claims range whose Pass lookups are logical. *)
Lemma answer_of_passes (cr : table) (b1 b2 b3 b4 : bool) :
  vclaim_pass cr "CL1" = VBool b1 ->
  vclaim_pass cr "CL2" = VBool b2 ->
  vclaim_pass cr "CL3" = VBool b3 ->
  vclaim_pass cr "CL4" = VBool b4 ->
  answer cr Q0 = VBool b4 /\
  answer cr Q1 = VBool (b1 || b2 || b3) /\
  answer cr Q2 = VBool (negb b1) /\
  answer cr Q3 = VBool b2 /\
  answer cr Q4 = VBool b3 /\
  answer cr Q5 = VBool (b1 || b2 || b3).
Proof.
  intros H1 H2 H3 H4. unfold answer. rewrite H1, H2, H3, H4.
  repeat split.
Qed.

(** C6. The Answer cells are fixed boolean formulas over the Pass cells of
    the claims, built from identity, NOT and OR only: Q0 is the pass of CL4,
    Q1 and Q5 are OR(CL1, CL2, CL3), Q2 is NOT(CL1), Q3 is the pass of CL2,
    Q4 the pass of CL3; no answer has an input of its own. *)
Theorem answers_are_formulas_of_claim_passes
    (i : inputs) (b1 b2 b3 b4 : bool) :
  cell 2 13 (claims_range i) = VBool b1 ->
  cell 3 13 (claims_range i) = VBool b2 ->
  cell 4 13 (claims_range i) = VBool b3 ->
  cell 5 13 (claims_range i) = VBool b4 ->
  map (fun r => col 1 r) (claims_range i) =
    [VText "CL1"; VText "CL2"; VText "CL3"; VText "CL4"] /\
  answer (claims_range i) Q0 = VBool b4 /\
  answer (claims_range i) Q1 = VBool (b1 || b2 || b3) /\
  answer (claims_range i) Q2 = VBool (negb b1) /\
  answer (claims_range i) Q3 = VBool b2 /\
  answer (claims_range i) Q4 = VBool b3 /\
  answer (claims_range i) Q5 = VBool (b1 || b2 || b3).
Proof.
  intros H1 H2 H3 H4.
  destruct (vclaim_pass_cells i) as [Ids [P1 [P2 [P3 P4]]]].
  split; [exact Ids|].
  exact (answer_of_passes (claims_range i) b1 b2 b3 b4
           (eq_trans P1 H1) (eq_trans P2 H2) (eq_trans P3 H3) (eq_trans P4 H4)).
Qed.

Lemma answers_are_formulas_of_claim_passes_witness :
  answer (claims_range shipped) Q0 = VBool true /\
  answer (claims_range shipped) Q1 = VBool (true || true || true) /\
  answer (claims_range shipped) Q2 = VBool (negb true) /\
  answer (claims_range shipped) Q3 = VBool true /\
  answer (claims_range shipped) Q4 = VBool true /\
  answer (claims_range shipped) Q5 = VBool (true || true || true).
Proof.
  apply (answers_are_formulas_of_claim_passes shipped true true true true);
    vm_compute; reflexivity.
Defined.

(** ** The shipped workbook *)

(** C8. With m_e = 9.1093837139e-31 kg and c = 299792458 m/s the calculation
    F_Ecalc is m_e * c^2; the three instances that express it in joules,
    electronvolts and foot-pound force convert back to the same SI value, so
    every pairwise difference, and the range of claim CL1, is 0, which is at
    most the tolerance 1e-25 J: CL1 passes. *)
Theorem electron_rest_energy_invariant_across_units :
  in_C_me shipped = 9.1093837139e-31%float /\
  in_C_c shipped = 299792458%float /\
  vcalc (calcs_range shipped) "F_Ecalc" =
    VNum (9.1093837139e-31 * (299792458 * 299792458))%float /\
  map (fun r => (col 1 r, col 6 r)) (firstn 3 (inst_range shipped)) =
    [ (VText "I_Ecalc_J", VText "U_J");
      (VText "I_Ecalc_eV", VText "U_eV");
      (VText "I_Ecalc_ftlbf", VText "U_ftlbf") ] /\
  instance_si shipped "I_Ecalc_J" = VNum 8.1871057879684495e-14 /\
  instance_si shipped "I_Ecalc_eV" = VNum 8.1871057879684495e-14 /\
  instance_si shipped "I_Ecalc_ftlbf" = VNum 8.1871057879684495e-14 /\
  cell 2 8 (claims_range shipped) = VNum 1e-25 /\
  claim_range shipped "CL1" = VNum 0 /\
  (0 <=? 1e-25)%float = true /\
  claim_pass shipped "CL1" = VBool true.
Proof. repeat split; vm_compute; reflexivity. Qed.

(** C9. The instance holding 0 K and the instance holding -273.15 degrees
    Celsius both convert to the SI value 0; their difference, the range of
    claim CL3, is 0, at most the tolerance 1e-9: CL3 passes. *)
Theorem absolute_zero_scale_anchor :
  map (fun r => (col 1 r, col 5 r, col 6 r)) (skipn 4 (inst_range shipped)) =
    [ (VText "I_Tabs0_K", VNum 0, VText "U_K");
      (VText "I_Tabs0_C", VNum (-273.15), VText "U_C") ] /\
  instance_si shipped "I_Tabs0_K" = convert (VText "U_K") (VNum 0) /\
  instance_si shipped "I_Tabs0_C" = convert (VText "U_C") (VNum (-273.15)) /\
  instance_si shipped "I_Tabs0_K" = VNum 0 /\
  instance_si shipped "I_Tabs0_C" = VNum 0 /\
  cell 4 8 (claims_range shipped) = VNum 1e-9 /\
  claim_range shipped "CL3" = VNum 0 /\
  (0 <=? 1e-9)%float = true /\
  claim_pass shipped "CL3" = VBool true.
Proof. repeat split; vm_compute; reflexivity. Qed.

(** ** The definitional claim CL4 *)

Lemma xl_sub_diag (y : float) : is_finite y = true -> xl_sub (VNum y) (VNum y) = VNum 0.
Proof.
  intro F. unfold xl_sub, arith. cbn [to_number]. rewrite (sub_diag y F). reflexivity.
Qed.

(** Both sides of CL4 are the Value_SI cell of C_e. *)
Lemma cl4_cells (consts inst : table) :
  let t := claims_sheet consts (calcs_sheet consts calc_rows) inst claims_rows in
  let si := formula (vconst consts "C_e") in
  vlookup (VText "CL4") t 9 = formula si /\
  vlookup (VText "CL4") t 10 = si /\
  vlookup (VText "CL4") t 8 = VNum 0 /\
  vlookup (VText "CL4") t 12 = formula (xl_abs (xl_sub (formula si) si)) /\
  vlookup (VText "CL4") t 13 =
    formula (xl_le (formula (xl_abs (xl_sub (formula si) si))) (VNum 0)).
Proof. cbv zeta. repeat split; vm_compute; reflexivity. Qed.

Lemma const_e_value_si (i : inputs) :
  vconst (const_range i) "C_e" = to_si (VNum (in_C_e i)) (VNum 1) (VNum 0).
Proof. vm_compute. reflexivity. Qed.

(** C4. Whenever the Value_SI of constant C_e is a number [y] (as it is for
    the shipped 1.602176634e-19), claim CL4 compares [y], read through the
    calculation F_eV_to_J, against [y] itself: its range is exactly 0 and it
    passes under its tolerance of 0. *)
Theorem definitional_claim_range_is_zero (i : inputs) (y : float) :
  vconst (const_range i) "C_e" = VNum y ->
  vlookup (VText "CL4") (claims_range i) 9 = VNum y /\
  vlookup (VText "CL4") (claims_range i) 10 = VNum y /\
  vlookup (VText "CL4") (claims_range i) 8 = VNum 0 /\
  claim_range i "CL4" = VNum 0 /\
  claim_pass i "CL4" = VBool true.
Proof.
  intro H.
  assert (F : is_finite y = true).
  { pose proof (const_e_value_si i) as E. rewrite H in E. symmetry in E.
    rewrite to_si_affine in E. exact (arith_number _ _ _ _ E). }
  destruct (cl4_cells (const_range i) (inst_range i)) as [S1 [S2 [S8 [S12 S13]]]].
  cbv zeta in S1, S2, S8, S12, S13.
  rewrite H in S1, S2, S12, S13.
  cbn [formula] in S1, S2, S12, S13.
  rewrite (xl_sub_diag y F) in S12, S13.
  unfold claim_range, claim_pass, vclaim_pass, claims_range, calcs_range.
  repeat split; assumption.
Qed.

Lemma definitional_claim_range_is_zero_witness :
  claim_range shipped "CL4" = VNum 0 /\ claim_pass shipped "CL4" = VBool true.
Proof.
  apply (definitional_claim_range_is_zero shipped 1.602176634e-19).
  vm_compute. reflexivity.
Defined.

(** ** Reading a logical off a cell *)

Lemma is_true_inv (v : value) : is_true v = true -> v = VBool true.
Proof. destruct v; try discriminate. simpl. now intros ->. Qed.

(** ** Claims with a single referenced value *)

Lemma text_eqb_empty (s : string) : s <> "" -> text_eqb s "" = false.
Proof. destruct s; [congruence | reflexivity]. Qed.

Lemma claim_si_empty (inst : table) : claim_si inst (VText "") = VText "".
Proof. reflexivity. Qed.

Lemma claim_si_number (inst : table) (id : string) (x : float) :
  id <> "" -> vlookup (VText id) inst 9 = VNum x -> claim_si inst (VText id) = VNum x.
Proof.
  intros Hid Hx. unfold claim_si, xl_eq, compare_op, value_eqb.
  rewrite (text_eqb_empty id Hid), Hx. reflexivity.
Qed.

Lemma claim_row_cells (inst : table) (cid text ctype criteria id_1 id_2 id_3 : string) (tol : float) :
  let r := claim_formulas inst (claim_row cid text ctype criteria id_1 id_2 id_3 tol) in
  col 12 r = range_abs (claim_si inst (VText id_1)) (claim_si inst (VText id_2))
                       (claim_si inst (VText id_3)) /\
  col 13 r = pass (col 12 r) (VNum tol).
Proof. split; reflexivity. Qed.

Lemma range_abs_single_3 (x : float) :
  is_finite x = true -> range_abs (VText "") (VText "") (VNum x) = VNum 0.
Proof.
  intro F.
  change (range_abs (VText "") (VText "") (VNum x))
    with (formula (xl_sub (VNum x) (VNum x))).
  now rewrite (xl_sub_diag x F).
Qed.

(** C7, as the workbook has it.  Take a claim row whose only reference [id]
    resolves to the number [x].  When the reference sits in the third slot,
    the range is MAX - MIN over that one number, 0, and Pass is TRUE exactly
    when 0 <= tolerance.  When it sits in the first or the second slot, the
    range is ABS of a number minus an empty text: the error #VALUE!, and so
    is Pass. *)
Theorem single_reference_claim
    (inst : table) (cid text ctype criteria id : string) (x tol : float) :
  id <> "" -> vlookup (VText id) inst 9 = VNum x -> is_finite x = true ->
  (let r := claim_formulas inst (claim_row cid text ctype criteria "" "" id tol) in
   col 12 r = VNum 0 /\ col 13 r = VBool (0 <=? tol)%float) /\
  (let r := claim_formulas inst (claim_row cid text ctype criteria id "" "" tol) in
   col 12 r = VErr ErrValue /\ col 13 r = VErr ErrValue) /\
  (let r := claim_formulas inst (claim_row cid text ctype criteria "" id "" tol) in
   col 12 r = VErr ErrValue /\ col 13 r = VErr ErrValue).
Proof.
  intros Hid Hx F. cbv zeta.
  repeat split.
  - rewrite (proj1 (claim_row_cells _ _ _ _ _ _ _ _ _)).
    rewrite claim_si_empty, (claim_si_number inst id x Hid Hx).
    now apply range_abs_single_3.
  - rewrite (proj2 (claim_row_cells _ _ _ _ _ _ _ _ _)), (proj1 (claim_row_cells _ _ _ _ _ _ _ _ _)).
    rewrite claim_si_empty, (claim_si_number inst id x Hid Hx).
    rewrite (range_abs_single_3 x F). reflexivity.
  - rewrite (proj1 (claim_row_cells _ _ _ _ _ _ _ _ _)).
    rewrite claim_si_empty, (claim_si_number inst id x Hid Hx). reflexivity.
  - rewrite (proj2 (claim_row_cells _ _ _ _ _ _ _ _ _)), (proj1 (claim_row_cells _ _ _ _ _ _ _ _ _)).
    rewrite claim_si_empty, (claim_si_number inst id x Hid Hx). reflexivity.
Qed.

Lemma single_reference_claim_witness :
  let inst := inst_range shipped in
  (let r := claim_formulas inst (claim_row "CL5" "" "" "" "" "" "I_Ecalc_J" 1e-25) in
   col 12 r = VNum 0 /\ col 13 r = VBool (0 <=? 1e-25)%float) /\
  (let r := claim_formulas inst (claim_row "CL5" "" "" "" "I_Ecalc_J" "" "" 1e-25) in
   col 12 r = VErr ErrValue /\ col 13 r = VErr ErrValue) /\
  (let r := claim_formulas inst (claim_row "CL5" "" "" "" "" "I_Ecalc_J" "" 1e-25) in
   col 12 r = VErr ErrValue /\ col 13 r = VErr ErrValue).
Proof.
  apply (single_reference_claim (inst_range shipped) "CL5" "" "" "" "I_Ecalc_J"
           8.1871057879684495e-14 1e-25).
  - discriminate.
  - vm_compute. reflexivity.
  - reflexivity.
Defined.

(** C7 as stated fails: a claim of the shipped workbook whose only reference
    is I_Ecalc_J, in the first slot, has SI_1 = 8.1871057879684495e-14 and
    empty SI_2, SI_3; its range is #VALUE!, not 0, and its Pass is #VALUE!,
    not TRUE. *)
Lemma single_reference_claim_is_an_error :
  let r := claim_formulas (inst_range shipped)
             (claim_row "CL5" "" "" "" "I_Ecalc_J" "" "" 1e-25) in
  col 9 r = VNum 8.1871057879684495e-14 /\
  col 10 r = VText "" /\
  col 11 r = VText "" /\
  col 12 r = VErr ErrValue /\
  col 13 r = VErr ErrValue /\
  col 12 r <> VNum 0 /\
  col 13 r <> VBool true.
Proof.
  cbv zeta. repeat split; try (vm_compute; reflexivity).
  - intro H. vm_compute in H. discriminate H.
  - intro H. vm_compute in H. discriminate H.
Qed.

(** ** The calculation left without a formula *)

(** The instances and claims sheets read the calculations only through
    [vcalc] at F_Ecalc and F_eV_to_J. *)
Lemma instances_sheet_reads (consts c1 c2 rows : table) :
  vcalc c1 "F_Ecalc" = vcalc c2 "F_Ecalc" ->
  vcalc c1 "F_eV_to_J" = vcalc c2 "F_eV_to_J" ->
  instances_sheet consts c1 rows = instances_sheet consts c2 rows.
Proof. intros H1 H2. unfold instances_sheet. now rewrite H1, H2. Qed.

Lemma claims_sheet_reads (consts c1 c2 inst rows : table) :
  vcalc c1 "F_eV_to_J" = vcalc c2 "F_eV_to_J" ->
  claims_sheet consts c1 inst rows = claims_sheet consts c2 inst rows.
Proof. intro H. unfold claims_sheet, patch_cl4. now rewrite H. Qed.

Lemma calcs_sheet_specified (consts : table) (e4 : value) :
  let c1 := calcs_sheet consts (set_cell 4 5 e4 calc_rows) in
  let c2 := calcs_sheet consts calc_rows in
  vcalc c1 "F_Ecalc" = vcalc c2 "F_Ecalc" /\
  vcalc c1 "F_eV_to_J" = vcalc c2 "F_eV_to_J" /\
  vcalc c1 "F_T_C_from_K" = e4 /\
  vcalc c2 "F_T_C_from_K" = VBlank.
Proof. cbv zeta. repeat split; vm_compute; reflexivity. Qed.

(** Nothing on the instances and claims sheets reads Result_SI of
    F_T_C_from_K (cell E4): whatever it holds, they are the same. *)
Lemma unspecified_cell_is_not_read (i : inputs) (e4 : value) :
  let calcs := calcs_sheet (const_range i) (set_cell 4 5 e4 calc_rows) in
  let inst := instances_sheet (const_range i) calcs (instances_rows i) in
  inst = inst_range i /\
  claims_sheet (const_range i) calcs inst claims_rows = claims_range i.
Proof.
  cbv zeta.
  destruct (calcs_sheet_specified (const_range i) e4) as [H1 [H2 _]].
  assert (E : instances_sheet (const_range i)
                (calcs_sheet (const_range i) (set_cell 4 5 e4 calc_rows))
                (instances_rows i) = inst_range i).
  { unfold inst_range, calcs_range. now apply instances_sheet_reads. }
  split; [exact E|].
  rewrite E. unfold claims_range, calcs_range. now apply claims_sheet_reads.
Qed.

(** A formula that reads the blank Result_SI reads the number 0. *)
Lemma instance_of_blank_calc (i : inputs) (u : string) :
  instance_of_calc (calcs_range i) "F_T_C_from_K" u = convert (VText u) (VNum 0).
Proof.
  unfold instance_of_calc, calcs_range.
  now rewrite (proj2 (proj2 (proj2 (calcs_sheet_specified (const_range i) VBlank)))).
Qed.

Lemma range_pass_numbers (x b tol : float) :
  is_finite (x - b) = true ->
  range_abs (VNum x) (VNum b) (VText "") = VNum (abs (x - b)) /\
  pass (range_abs (VNum x) (VNum b) (VText "")) (VNum tol) = VBool (abs (x - b) <=? tol)%float.
Proof.
  intro F.
  assert (R : range_abs (VNum x) (VNum b) (VText "") = VNum (abs (x - b))).
  { rewrite range_abs_two_12. unfold xl_sub, xl_abs, arith. cbn [to_number].
    rewrite (number_finite _ F). cbn [to_number].
    apply number_finite. now rewrite is_finite_abs. }
  split; [exact R|]. rewrite R. apply pass_numbers.
Qed.

(** C2, as the workbook has it.  The calculation F_T_C_from_K has no
    formula: its Result_SI cell is saved without a value.  No instance and no
    claim reads that cell: the instances and claims sheets are the same
    whatever it holds, and the shipped claims all evaluate to TRUE.  There is
    no undefined value: a formula that reads the blank cell reads 0, so an
    instance whose Value reads that Result_SI (as I_Ecalc_J reads F_Ecalc)
    converts the number 0 in its unit, to [0 * m + o] for a registered unit
    with multiplier [m] and offset [o]: 273.15 in degrees Celsius, 0 in
    kelvin.  A claim over such an SI value has an ordinary numeric range and
    a logical Pass, TRUE exactly when the range is within the tolerance. *)
Theorem unspecified_calculation_is_blank_and_unread
    (i : inputs) (e4 : value) (r : row) (u : string) (m o x b tol : float) :
  vcalc (calcs_range i) "F_T_C_from_K" = VBlank /\
  (let calcs := calcs_sheet (const_range i) (set_cell 4 5 e4 calc_rows) in
   let inst := instances_sheet (const_range i) calcs (instances_rows i) in
   vcalc calcs "F_T_C_from_K" = e4 /\
   inst = inst_range i /\
   claims_sheet (const_range i) calcs inst claims_rows = claims_range i) /\
  map (fun r => col 13 r) (claims_range shipped) =
    [VBool true; VBool true; VBool true; VBool true] /\
  instance_si shipped "I_Ecalc_J" = instance_of_calc (calcs_range shipped) "F_Ecalc" "U_J" /\
  instance_of_calc (calcs_range i) "F_T_C_from_K" u = convert (VText u) (VNum 0) /\
  (In r units_data -> col 1 r = VText u -> col 5 r = VNum m -> col 6 r = VNum o ->
   is_finite (0 * m) = true -> is_finite (0 * m + o) = true ->
   instance_of_calc (calcs_range i) "F_T_C_from_K" u = VNum (0 * m + o)) /\
  instance_of_calc (calcs_range i) "F_T_C_from_K" "U_C" = VNum 273.15 /\
  instance_of_calc (calcs_range i) "F_T_C_from_K" "U_K" = VNum 0 /\
  (is_finite (x - b) = true ->
   range_abs (VNum x) (VNum b) (VText "") = VNum (abs (x - b)) /\
   pass (range_abs (VNum x) (VNum b) (VText "")) (VNum tol) =
     VBool (abs (x - b) <=? tol)%float).
Proof.
  split.
  { unfold calcs_range.
    exact (proj2 (proj2 (proj2 (calcs_sheet_specified (const_range i) VBlank)))). }
  split.
  { cbv zeta. split.
    - exact (proj1 (proj2 (proj2 (calcs_sheet_specified (const_range i) e4)))).
    - exact (unspecified_cell_is_not_read i e4). }
  split; [vm_compute; reflexivity|].
  split; [vm_compute; reflexivity|].
  split; [apply instance_of_blank_calc|].
  split.
  { intros H H1 H5 H6 F1 F2. rewrite instance_of_blank_calc.
    destruct (units_factors r u m o H H1 H5 H6) as [Hm Ho].
    unfold convert. rewrite Hm, Ho, to_si_affine.
    unfold xl_add, xl_mul, arith. cbn [to_number].
    rewrite (number_finite _ F1). cbn [to_number]. now apply number_finite. }
  split; [rewrite instance_of_blank_calc; vm_compute; reflexivity|].
  split; [rewrite instance_of_blank_calc; vm_compute; reflexivity|].
  apply range_pass_numbers.
Qed.

Lemma unspecified_calculation_is_blank_and_unread_witness :
  instance_of_calc (calcs_range shipped) "F_T_C_from_K" "U_C" = VNum (0 * 1 + 273.15) /\
  range_abs (VNum 273.15) (VNum 0) (VText "") = VNum (abs (273.15 - 0)) /\
  pass (range_abs (VNum 273.15) (VNum 0) (VText "")) (VNum 1e-9) =
    VBool (abs (273.15 - 0) <=? 1e-9)%float.
Proof.
  destruct (unspecified_calculation_is_blank_and_unread
              shipped VBlank (nth 4 units_data []) "U_C" 1 273.15 273.15 0 1e-9)
    as [_ [_ [_ [_ [_ [W1 [_ [_ W2]]]]]]]].
  split.
  - apply W1; try reflexivity. vm_compute. do 4 right. left. reflexivity.
  - apply W2. reflexivity.
Defined.

(** C2 as stated fails: the blank Result_SI of F_T_C_from_K is read as zero.
    An instance in degrees Celsius whose Value reads it converts 0 to 273.15;
    a claim comparing it with I_Tabs0_K has range 273.15, a number and not
    an undefined value.  The same instance in kelvin converts to 0; the claim
    comparing it with I_Tabs0_K has range 0 and Pass TRUE, not FALSE. *)
Lemma unspecified_calculation_consumer_reads_zero :
  let si_C := instance_of_calc (calcs_range shipped) "F_T_C_from_K" "U_C" in
  let si_K := instance_of_calc (calcs_range shipped) "F_T_C_from_K" "U_K" in
  let rg_C := range_abs si_C (instance_si shipped "I_Tabs0_K") (VText "") in
  let rg_K := range_abs si_K (instance_si shipped "I_Tabs0_K") (VText "") in
  vcalc (calcs_range shipped) "F_T_C_from_K" = VBlank /\
  formula (vcalc (calcs_range shipped) "F_T_C_from_K") = VNum 0 /\
  si_C = VNum 273.15 /\
  rg_C = VNum 273.15 /\
  pass rg_C (VNum 1e-9) = VBool false /\
  si_K = VNum 0 /\
  rg_K = VNum 0 /\
  pass rg_K (VNum 1e-9) = VBool true /\
  pass rg_K (VNum 1e-9) <> VBool false.
Proof.
  cbv zeta. repeat split; try (vm_compute; reflexivity).
  intro H. vm_compute in H. discriminate H.
Qed.

(** ** More binary64 arithmetic: multiplying by 1 and adding 0 *)

Section MoreBinary64.
Local Open Scope Z_scope.

Lemma canonical_digits (m : positive) (e : Z) :
  canonical_mantissa prec emax m e = true ->
  fexp prec emax (Zpos (digits2_pos m) + e) = e.
Proof. unfold canonical_mantissa. apply Z.eqb_eq. Qed.

Lemma shr_fexp_canonical (m : positive) (e : Z) :
  canonical_mantissa prec emax m e = true ->
  shr_fexp prec emax (Zpos m) e loc_Exact =
  ({| shr_m := Zpos m; shr_r := false; shr_s := false |}, e).
Proof.
  intro C. unfold shr_fexp. simpl Zdigits2. rewrite (canonical_digits m e C), Z.sub_diag.
  reflexivity.
Qed.

Lemma binary_round_aux_canonical (s : bool) (m : positive) (e : Z) :
  bounded prec emax m e = true ->
  binary_round_aux prec emax s (Zpos m) e loc_Exact = S754_finite s m e.
Proof.
  intro B. unfold bounded in B. apply andb_prop in B as [C L].
  unfold binary_round_aux. rewrite (shr_fexp_canonical m e C).
  cbn [shr_m loc_of_shr_record round_nearest_even].
  rewrite (shr_fexp_canonical m e C). cbn [shr_m]. now rewrite L.
Qed.

Lemma digits2_pos_iter_xO (m n : positive) :
  digits2_pos (Pos.iter xO m n) = (digits2_pos m + n)%positive.
Proof.
  induction n as [|n IH] using Pos.peano_ind.
  - simpl. lia.
  - rewrite Pos.iter_succ. simpl digits2_pos. rewrite IH. lia.
Qed.

Lemma shr_52 (m : positive) :
  iter_pos shr_1 52 {| shr_m := Zpos (Pos.iter xO m 52); shr_r := false; shr_s := false |} =
  {| shr_m := Zpos m; shr_r := false; shr_s := false |}.
Proof. vm_compute. reflexivity. Qed.

Lemma mul_two_52 (m : positive) : (m * 4503599627370496 = Pos.iter xO m 52)%positive.
Proof. rewrite Pos.mul_comm. vm_compute. reflexivity. Qed.

(** Multiplying by 1 shifts the mantissa by 52 bits and back. *)
Lemma SF64mul_one (x : spec_float) :
  valid_binary x = true -> sf_number x = true ->
  SF64mul x (S754_finite false 4503599627370496 (-52)) = x.
Proof.
  intros V N.
  destruct x as [s|s| |s m e]; try discriminate N.
  - destruct s; reflexivity.
  - simpl in V. pose proof V as B.
    unfold bounded in V. apply andb_prop in V as [C L].
    unfold SF64mul, SFmul. rewrite xorb_false_r, mul_two_52.
    pose proof (shr_52 m) as S. pose proof (digits2_pos_iter_xO m 52) as D.
    set (P := Pos.iter xO m 52) in *.
    unfold binary_round_aux at 1. unfold shr_fexp at 1. cbn [Zdigits2].
    rewrite D.
    replace (Zpos (digits2_pos m + 52) + (e + -52)) with (Zpos (digits2_pos m) + e) by lia.
    rewrite (canonical_digits m e C).
    replace (e - (e + -52)) with 52 by lia.
    cbn [shr shr_record_of_loc]. rewrite S.
    cbn [shr_m loc_of_shr_record round_nearest_even].
    replace (e + -52 + 52) with e by lia.
    rewrite (shr_fexp_canonical m e C). cbn [shr_m]. now rewrite L.
Qed.

Lemma SF64add_zero (x : spec_float) :
  sf_number x = true -> x <> S754_zero true -> SF64add x (S754_zero false) = x.
Proof.
  destruct x as [s|s| |s m e]; try discriminate; intros _ H.
  - destruct s; [congruence | reflexivity].
  - reflexivity.
Qed.

Local Close Scope Z_scope.
Local Open Scope float_scope.

Lemma mul_one (x : float) : is_finite x = true -> x * 1 = x.
Proof.
  intro F. destruct (float_valid_number x F) as [V N].
  apply Prim2SF_inj. rewrite mul_spec.
  change (Prim2SF 1) with (S754_finite false 4503599627370496 (-52)).
  now apply SF64mul_one.
Qed.

Lemma add_zero (x : float) : is_finite x = true -> x <> -0 -> x + 0 = x.
Proof.
  intros F H. destruct (float_valid_number x F) as [V N].
  apply Prim2SF_inj. rewrite add_spec.
  change (Prim2SF 0) with (S754_zero false).
  apply SF64add_zero; [assumption|].
  intro E. apply H. apply Prim2SF_inj. rewrite E. reflexivity.
Qed.

End MoreBinary64.

(** ** Conversions that change nothing *)

Lemma plain_inv (x : float) : plain x = true -> is_finite x = true /\ x <> (-0)%float.
Proof.
  unfold plain. intro H. apply andb_prop in H as [F Z]. split; [exact F|].
  intro E. subst x. discriminate Z.
Qed.

Lemma to_si_identity (x : float) :
  plain x = true -> to_si (VNum x) (VNum 1) (VNum 0) = VNum x.
Proof.
  intro P. destruct (plain_inv x P) as [F Z].
  rewrite to_si_affine. unfold xl_mul, xl_add, arith. cbn [to_number].
  rewrite (mul_one x F), (number_finite x F). cbn [to_number].
  rewrite (add_zero x F Z). now apply number_finite.
Qed.

Lemma to_si_finite (x : float) :
  is_finite x = true -> exists y, to_si (VNum x) (VNum 1) (VNum 0) = VNum y.
Proof.
  intro F. destruct (plain x) eqn:P.
  - exists x. now apply to_si_identity.
  - unfold plain in P. rewrite F in P. simpl in P.
    apply negb_false_iff in P. apply FloatAxioms.Leibniz.eqb_spec in P. subst x.
    exists 0%float. vm_compute. reflexivity.
Qed.

(** ** The sheets, cell by cell *)

Lemma constants_value_si (i : inputs) :
  vconst (const_range i) "C_me" = to_si (VNum (in_C_me i)) (VNum 1) (VNum 0) /\
  vconst (const_range i) "C_c" = to_si (VNum (in_C_c i)) (VNum 1) (VNum 0) /\
  vconst (const_range i) "C_e" = to_si (VNum (in_C_e i)) (VNum 1) (VNum 0) /\
  vconst (const_range i) "C_mec2" = to_si (VNum (in_C_mec2 i)) (VNum 1) (VNum 0) /\
  vconst (const_range i) "C_abs0" = to_si (VNum (in_C_abs0 i)) (VNum 1) (VNum 0).
Proof. repeat split; vm_compute; reflexivity. Qed.

(** [VLOOKUP] walks the rows in order. *)
Lemma vlookup_here (id : string) (r : row) (rest : table) (c : nat) :
  lookup_match (VText id) (col 1 r) = true ->
  vlookup (VText id) (r :: rest) c = col c r.
Proof. intro H. unfold vlookup. cbn [find]. now rewrite H. Qed.

Lemma vlookup_next (id : string) (r : row) (rest : table) (c : nat) :
  lookup_match (VText id) (col 1 r) = false ->
  vlookup (VText id) (r :: rest) c = vlookup (VText id) rest c.
Proof. intro H. unfold vlookup. cbn [find]. now rewrite H. Qed.

Lemma calcs_result_si (consts : table) :
  vcalc (calcs_sheet consts calc_rows) "F_Ecalc" =
    formula (xl_mul (vconst consts "C_me") (xl_pow2 (vconst consts "C_c"))) /\
  vcalc (calcs_sheet consts calc_rows) "F_eV_to_J" = formula (vconst consts "C_e").
Proof.
  unfold vcalc.
  cbv [calcs_sheet calc_rows set_cell set_col set_nth nth Nat.sub].
  split.
  - now rewrite vlookup_here by reflexivity.
  - rewrite vlookup_next by reflexivity. now rewrite vlookup_here by reflexivity.
Qed.

Lemma instances_canonical_si (consts calcs : table) (i : inputs) :
  let inst := instances_sheet consts calcs (instances_rows i) in
  vlookup (VText "I_Ecalc_J") inst 9 =
    to_si (formula (vcalc calcs "F_Ecalc")) (VNum 1) (VNum 0) /\
  vlookup (VText "I_Ecalc_eV") inst 9 =
    to_si (formula (xl_div (vcalc calcs "F_Ecalc") (vcalc calcs "F_eV_to_J")))
          (VNum 1.602176634e-19) (VNum 0) /\
  vlookup (VText "I_Ecalc_ftlbf") inst 9 =
    to_si (formula (xl_div (vcalc calcs "F_Ecalc") (VNum 1.3558179483314)))
          (VNum 1.3558179483314) (VNum 0) /\
  vlookup (VText "I_Eexpected_J") inst 9 =
    to_si (formula (vconst consts "C_mec2")) (VNum 1) (VNum 0) /\
  vlookup (VText "I_Tabs0_K") inst 9 =
    to_si (VNum (in_I_Tabs0_K i)) (VNum 1) (VNum 0) /\
  vlookup (VText "I_Tabs0_C") inst 9 =
    to_si (formula (xl_sub (VNum (in_I_Tabs0_K i)) (VNum 273.15))) (VNum 1) (VNum 273.15).
Proof. cbv zeta. repeat split; vm_compute; reflexivity. Qed.

Lemma claims_cells (consts calcs inst : table) :
  let t := claims_sheet consts calcs inst claims_rows in
  let si id := formula (vlookup (VText id) inst 9) in
  let rg1 := range_abs (si "I_Ecalc_J") (si "I_Ecalc_eV") (si "I_Ecalc_ftlbf") in
  let rg2 := range_abs (si "I_Ecalc_J") (si "I_Eexpected_J") (VText "") in
  let rg3 := range_abs (si "I_Tabs0_K") (si "I_Tabs0_C") (VText "") in
  vlookup (VText "CL1") t 12 = rg1 /\ vlookup (VText "CL1") t 13 = pass rg1 (VNum 1e-25) /\
  vlookup (VText "CL2") t 12 = rg2 /\ vlookup (VText "CL2") t 13 = pass rg2 (VNum 1e-22) /\
  vlookup (VText "CL3") t 12 = rg3 /\ vlookup (VText "CL3") t 13 = pass rg3 (VNum 1e-9).
Proof. cbv zeta. repeat split; vm_compute; reflexivity. Qed.

(** ** The calculation E = m c^2 for any inputs *)

Lemma xl_mul_numbers (x y : float) :
  xl_mul (VNum x) (VNum y) = number (x * y).
Proof. reflexivity. Qed.

(** X3. For a plain electron mass [m] and speed of light [c], the result
    cell of F_Ecalc is the binary64 product [m * (c * c)], the square being
    taken first: the number itself when both products are finite, and #NUM!
    as soon as one of them overflows. *)
Theorem electron_rest_energy_formula (i : inputs) :
  plain (in_C_me i) = true -> plain (in_C_c i) = true ->
  let m := in_C_me i in
  let c := in_C_c i in
  vcalc (calcs_range i) "F_Ecalc" = xl_mul (VNum m) (xl_mul (VNum c) (VNum c)) /\
  (is_finite (c * c) = true -> is_finite (m * (c * c)) = true ->
   vcalc (calcs_range i) "F_Ecalc" = VNum (m * (c * c))) /\
  (is_finite (c * c) = false -> vcalc (calcs_range i) "F_Ecalc" = VErr ErrNum) /\
  (is_finite (m * (c * c)) = false -> vcalc (calcs_range i) "F_Ecalc" = VErr ErrNum).
Proof.
  intros Pm Pc. cbv zeta.
  assert (E : vcalc (calcs_range i) "F_Ecalc" =
              xl_mul (VNum (in_C_me i)) (xl_mul (VNum (in_C_c i)) (VNum (in_C_c i)))).
  { unfold calcs_range. rewrite (proj1 (calcs_result_si _)).
    destruct (constants_value_si i) as [Hm [Hc _]].
    rewrite Hm, Hc, (to_si_identity _ Pm), (to_si_identity _ Pc).
    unfold xl_pow2, xl_mul. apply formula_arith. }
  split; [exact E|].
  rewrite E, (xl_mul_numbers (in_C_c i)).
  repeat split.
  - intros F1 F2. rewrite (number_finite _ F1), xl_mul_numbers. now apply number_finite.
  - intro F1. unfold number. now rewrite F1.
  - intro F2. unfold number at 1. destruct (is_finite (in_C_c i * in_C_c i)); [|reflexivity].
    rewrite xl_mul_numbers. unfold number. now rewrite F2.
Qed.

Lemma electron_rest_energy_formula_witness :
  vcalc (calcs_range shipped) "F_Ecalc" =
    VNum (9.1093837139e-31 * (299792458 * 299792458))%float.
Proof.
  destruct (electron_rest_energy_formula shipped eq_refl eq_refl) as [_ [W _]].
  exact (W eq_refl eq_refl).
Defined.

(** X1. A unit whose row of D_Units has multiplier 1 and offset 0 converts
    every plain number (finite, and not the negative zero) to itself; such a
    unit is one of U_J, U_K, U_kg, U_mps and U_Coul.  On the sheets: a row of
    D_Constants or of D_Instances in such a unit whose Value is the plain
    number [x] has [x] as its Value_SI, respectively its Canonical_SI. *)
Theorem si_units_convert_to_themselves
    (i : inputs) (rc ri : row) (r : row) (u : string) (x : float) :
  In r units_data -> col 1 r = VText u ->
  col 5 r = VNum 1 -> col 6 r = VNum 0 ->
  plain x = true ->
  convert (VText u) (VNum x) = VNum x /\
  In (VText u) [VText "U_J"; VText "U_K"; VText "U_kg"; VText "U_mps"; VText "U_Coul"] /\
  (In rc (const_range i) -> col 5 rc = VText u -> col 4 rc = VNum x ->
   col 10 rc = VNum x) /\
  (In ri (inst_range i) -> col 6 ri = VText u -> col 5 ri = VNum x ->
   col 9 ri = VNum x).
Proof.
  intros H H1 H5 H6 P.
  destruct (units_factors r u 1 0 H H1 H5 H6) as [Hm Ho].
  assert (C : convert (VText u) (VNum x) = VNum x).
  { unfold convert. rewrite Hm, Ho. now apply to_si_identity. }
  split; [exact C|].
  split.
  - rewrite <- H1. clear H1 Hm Ho C.
    cbv [units_data] in H.
    repeat (destruct H as [<-|H];
            [cbv [col nth Nat.sub] in H5, H6 |- *;
             first [ apply (f_equal is_zero_number) in H6; vm_compute in H6; discriminate H6
                   | apply (f_equal (fun v => match v with VNum y => PrimFloat.Leibniz.eqb y 1 | _ => false end)) in H5;
                     vm_compute in H5; discriminate H5
                   | simpl; tauto ] |]).
    destruct H.
  - split.
    + intros Hc U V. rewrite (proj2 (proj2 (constants_sheet_cells i rc Hc))), U, V. exact C.
    + intros Hi U V. rewrite (proj2 (proj2 (instances_sheet_cells i ri Hi))), U, V. exact C.
Qed.

Lemma si_units_convert_to_themselves_witness :
  convert (VText "U_mps") (VNum 299792458) = VNum 299792458 /\
  col 10 (nth 1 (const_range shipped) []) = VNum 299792458.
Proof.
  destruct (si_units_convert_to_themselves shipped (nth 1 (const_range shipped) []) []
              (nth 6 units_data []) "U_mps" 299792458) as [W1 [_ [W2 _]]];
    try reflexivity.
  - vm_compute. do 6 right. left. reflexivity.
  - split; [exact W1|]. apply W2; try reflexivity.
    vm_compute. right. left. reflexivity.
Defined.

(** X2. When the editable cells hold plain numbers, the Value_SI column of
    D_Constants holds the Value of each constant unchanged, and so does every
    lookup of a constant: the five constants are all given in SI units. *)
Theorem constants_value_si_is_value (i : inputs) :
  plain_inputs i = true ->
  map (fun r => (col 1 r, col 10 r)) (const_range i) =
    [ (VText "C_me", VNum (in_C_me i)); (VText "C_c", VNum (in_C_c i));
      (VText "C_e", VNum (in_C_e i)); (VText "C_mec2", VNum (in_C_mec2 i));
      (VText "C_abs0", VNum (in_C_abs0 i)) ] /\
  vconst (const_range i) "C_me" = VNum (in_C_me i) /\
  vconst (const_range i) "C_c" = VNum (in_C_c i) /\
  vconst (const_range i) "C_e" = VNum (in_C_e i) /\
  vconst (const_range i) "C_mec2" = VNum (in_C_mec2 i) /\
  vconst (const_range i) "C_abs0" = VNum (in_C_abs0 i).
Proof.
  intro P. unfold plain_inputs in P.
  do 5 (apply andb_prop in P as [P ?]).
  destruct (constants_value_si i) as [V1 [V2 [V3 [V4 V5]]]].
  rewrite to_si_identity in V1, V2, V3, V4, V5 by assumption.
  split; [|repeat split; assumption].
  assert (M : map (fun r => (col 1 r, col 10 r)) (const_range i) =
              [ (VText "C_me", to_si (VNum (in_C_me i)) (VNum 1) (VNum 0));
                (VText "C_c", to_si (VNum (in_C_c i)) (VNum 1) (VNum 0));
                (VText "C_e", to_si (VNum (in_C_e i)) (VNum 1) (VNum 0));
                (VText "C_mec2", to_si (VNum (in_C_mec2 i)) (VNum 1) (VNum 0));
                (VText "C_abs0", to_si (VNum (in_C_abs0 i)) (VNum 1) (VNum 0)) ])
    by (vm_compute; reflexivity).
  rewrite M. rewrite !to_si_identity by assumption. reflexivity.
Qed.

Lemma constants_value_si_is_value_witness :
  vconst (const_range shipped) "C_c" = VNum 299792458.
Proof.
  exact (proj1 (proj2 (proj2 (constants_value_si_is_value shipped eq_refl)))).
Defined.

(** ** The instances derived from a calculation *)






(** ** Lookups by name *)

Lemma claim_pass_lookup (i : inputs) (cid : string) :
  claim_pass i cid = vclaim_pass (claims_range i) cid.
Proof. reflexivity. Qed.

Lemma answer_cells (cr : table) :
  answer cr Q0 = formula (vclaim_pass cr "CL4") /\
  answer cr Q1 = formula (xl_or [vclaim_pass cr "CL1"; vclaim_pass cr "CL2"; vclaim_pass cr "CL3"]) /\
  answer cr Q2 = formula (xl_not (vclaim_pass cr "CL1")) /\
  answer cr Q3 = formula (vclaim_pass cr "CL2") /\
  answer cr Q4 = formula (vclaim_pass cr "CL3") /\
  answer cr Q5 = formula (xl_or [vclaim_pass cr "CL1"; vclaim_pass cr "CL2"; vclaim_pass cr "CL3"]).
Proof. repeat split. Qed.

(** Canonical SI values of the instances, and the claims over them, for any
    inputs. *)
Lemma inst_range_si (i : inputs) :
  instance_si i "I_Ecalc_J" = to_si (formula (vcalc (calcs_range i) "F_Ecalc")) (VNum 1) (VNum 0) /\
  instance_si i "I_Ecalc_eV" =
    to_si (formula (xl_div (vcalc (calcs_range i) "F_Ecalc") (vcalc (calcs_range i) "F_eV_to_J")))
          (VNum 1.602176634e-19) (VNum 0) /\
  instance_si i "I_Ecalc_ftlbf" =
    to_si (formula (xl_div (vcalc (calcs_range i) "F_Ecalc") (VNum 1.3558179483314)))
          (VNum 1.3558179483314) (VNum 0) /\
  instance_si i "I_Eexpected_J" = to_si (formula (vconst (const_range i) "C_mec2")) (VNum 1) (VNum 0) /\
  instance_si i "I_Tabs0_K" = to_si (VNum (in_I_Tabs0_K i)) (VNum 1) (VNum 0) /\
  instance_si i "I_Tabs0_C" =
    to_si (formula (xl_sub (VNum (in_I_Tabs0_K i)) (VNum 273.15))) (VNum 1) (VNum 273.15).
Proof. exact (instances_canonical_si (const_range i) (calcs_range i) i). Qed.

Lemma claims_range_cells (i : inputs) :
  let si id := formula (instance_si i id) in
  let rg1 := range_abs (si "I_Ecalc_J") (si "I_Ecalc_eV") (si "I_Ecalc_ftlbf") in
  let rg2 := range_abs (si "I_Ecalc_J") (si "I_Eexpected_J") (VText "") in
  let rg3 := range_abs (si "I_Tabs0_K") (si "I_Tabs0_C") (VText "") in
  claim_range i "CL1" = rg1 /\ claim_pass i "CL1" = pass rg1 (VNum 1e-25) /\
  claim_range i "CL2" = rg2 /\ claim_pass i "CL2" = pass rg2 (VNum 1e-22) /\
  claim_range i "CL3" = rg3 /\ claim_pass i "CL3" = pass rg3 (VNum 1e-9).
Proof. exact (claims_cells (const_range i) (calcs_range i) (inst_range i)). Qed.

Lemma cl4_lookups (i : inputs) (y : float) :
  vconst (const_range i) "C_e" = VNum y -> is_finite y = true ->
  claim_range i "CL4" = VNum 0 /\ claim_pass i "CL4" = VBool true.
Proof.
  intros H Fy.
  destruct (cl4_cells (const_range i) (inst_range i)) as [_ [_ [_ [S12 S13]]]].
  cbv zeta in S12, S13.
  rewrite H in S12, S13. cbn [formula] in S12, S13.
  rewrite (xl_sub_diag y Fy) in S12, S13.
  split; [exact S12 | exact S13].
Qed.

(** Every finite number typed into the Value cell of C_e has a finite
    Value_SI. *)
Lemma charge_value_si (i : inputs) :
  is_finite (in_C_e i) = true ->
  exists y, vconst (const_range i) "C_e" = VNum y /\ is_finite y = true.
Proof.
  intro F.
  destruct (to_si_finite (in_C_e i) F) as [y Hy].
  exists y. split.
  - exact (eq_trans (proj1 (proj2 (proj2 (constants_value_si i)))) Hy).
  - rewrite to_si_affine in Hy. exact (arith_number _ _ _ _ Hy).
Qed.

(** X7. Whatever finite number is typed into the Value cell of the
    elementary charge C_e, the definitional claim CL4 has range 0 and passes,
    and the answer Q0 is TRUE. *)
Theorem definitional_claim_passes_for_every_charge (i : inputs) :
  is_finite (in_C_e i) = true ->
  claim_range i "CL4" = VNum 0 /\
  claim_pass i "CL4" = VBool true /\
  answer (claims_range i) Q0 = VBool true.
Proof.
  intro F.
  destruct (charge_value_si i F) as [y [H Fy]].
  destruct (cl4_lookups i y H Fy) as [R Q].
  split; [exact R|]. split; [exact Q|].
  rewrite claim_pass_lookup in Q.
  rewrite (proj1 (answer_cells _)), Q. reflexivity.
Qed.

Lemma definitional_claim_passes_for_every_charge_witness :
  answer (claims_range shipped) Q0 = VBool true.
Proof.
  exact (proj2 (proj2 (definitional_claim_passes_for_every_charge shipped eq_refl))).
Defined.

(** X12. The cross-check claim CL2 compares the calculated rest energy [E]
    with the reference constant C_mec2 as they are (both are in joules and
    plain): its range is |E - reference| and, when that difference is finite,
    it passes exactly when the difference is at most 1e-22; Q3 is the same
    truth value. *)
Theorem cross_check_claim_formula (i : inputs) (E : float) :
  vcalc (calcs_range i) "F_Ecalc" = VNum E -> plain E = true ->
  plain (in_C_mec2 i) = true ->
  let ref := in_C_mec2 i in
  instance_si i "I_Ecalc_J" = VNum E /\
  instance_si i "I_Eexpected_J" = VNum ref /\
  claim_range i "CL2" = xl_abs (xl_sub (VNum E) (VNum ref)) /\
  claim_pass i "CL2" = pass (xl_abs (xl_sub (VNum E) (VNum ref))) (VNum 1e-22) /\
  (is_finite (E - ref) = true ->
   claim_range i "CL2" = VNum (abs (E - ref)) /\
   claim_pass i "CL2" = VBool (abs (E - ref) <=? 1e-22)%float /\
   answer (claims_range i) Q3 = VBool (abs (E - ref) <=? 1e-22)%float).
Proof.
  intros HE PE Pr. cbv zeta.
  destruct (inst_range_si i) as [SJ [_ [_ [SX _]]]].
  rewrite HE in SJ. cbn [formula] in SJ. rewrite (to_si_identity E PE) in SJ.
  rewrite (proj1 (proj2 (proj2 (proj2 (constants_value_si i))))) in SX.
  rewrite (to_si_identity _ Pr) in SX. cbn [formula] in SX.
  rewrite (to_si_identity _ Pr) in SX.
  destruct (claims_range_cells i) as [_ [_ [R2 [P2 _]]]]. cbv zeta in R2, P2.
  rewrite SJ, SX in R2, P2. cbn [formula] in R2, P2.
  rewrite range_abs_two_12 in R2, P2.
  repeat split; try assumption.
  - rewrite R2. unfold xl_sub, xl_abs, arith. cbn [to_number].
    rewrite (number_finite _ H). cbn [to_number].
    apply number_finite. now rewrite is_finite_abs.
  - rewrite P2. unfold xl_sub, xl_abs, arith. cbn [to_number].
    rewrite (number_finite _ H). cbn [to_number].
    rewrite number_finite by now rewrite is_finite_abs. reflexivity.
  - rewrite claim_pass_lookup in P2.
    rewrite (proj1 (proj2 (proj2 (proj2 (answer_cells _))))), P2.
    unfold xl_sub, xl_abs, arith. cbn [to_number].
    rewrite (number_finite _ H). cbn [to_number].
    rewrite number_finite by now rewrite is_finite_abs. reflexivity.
Qed.

Lemma cross_check_claim_formula_witness :
  claim_pass shipped "CL2" =
    VBool (abs (8.1871057879684495e-14 - 8.1871057880e-14) <=? 1e-22)%float.
Proof.
  destruct (cross_check_claim_formula shipped 8.1871057879684495e-14) as [_ [_ [_ [_ W]]]].
  - vm_compute. reflexivity.
  - reflexivity.
  - reflexivity.
  - exact (proj1 (proj2 (W eq_refl))).
Defined.

(** ** Rounding errors of binary64 addition and subtraction

    Numbers are read as integers in units of 2^-1074 ([Fint]).  A sum or a
    difference is rounded to nearest: when its exact value stays under
    [2 ^ B] it is a number again, at most [2 ^ (B - 54)] (half a unit of the
    last place) away from the exact value, and it is zero only when the exact
    value is. *)

Section Rounding64.
Local Open Scope Z_scope.

Lemma shr_1_spec (q : Z) (rb sb : bool) :
  0 <= q ->
  shr_1 (Build_shr_record q rb sb) = Build_shr_record (q / 2) (Z.odd q) (rb || sb).
Proof.
  intro H. destruct q as [|[p|p|]|p]; try lia; cbn [shr_1].
  - reflexivity.
  - f_equal. rewrite Pos2Z.inj_xI. apply Z.div_unique with 1; lia.
  - f_equal. change (Zpos p~0) with (2 * Zpos p). apply Z.div_unique with 0; lia.
  - reflexivity.
Qed.

Lemma shr_1_shifted (m P : Z) (r : shr_record) :
  0 <= m -> 0 < P -> shifted m P r -> shifted m (2 * P) (shr_1 r).
Proof.
  intros Hm HP [Eq [Er Es]]. destruct r as [q rb sb]. cbn [shr_m shr_r shr_s] in *.
  pose proof (Z.mod_pos_bound m P HP) as Hr.
  pose proof (Z.div_mod m P ltac:(lia)) as Em.
  set (rho := m mod P) in *. rewrite <- Eq in Em.
  assert (Hq : 0 <= q) by (subst q; apply Z.div_pos; lia).
  rewrite (shr_1_spec q rb sb Hq). unfold shifted. cbn [shr_m shr_r shr_s].
  pose proof (Z.div_mod q 2 ltac:(lia)) as Eq2. rewrite Zmod_odd in Eq2.
  set (q' := q / 2) in *.
  set (b := if Z.odd q then 1 else 0) in *.
  assert (Hb : b = 0 \/ b = 1) by (unfold b; destruct (Z.odd q); lia).
  assert (Em2 : m = 2 * P * q' + (rho + P * b)) by (rewrite Em, Eq2; ring).
  assert (Hr2 : 0 <= rho + P * b < 2 * P) by (destruct Hb as [-> | ->]; lia).
  assert (D : m / (2 * P) = q') by (symmetry; apply Z.div_unique with (rho + P * b); [left; exact Hr2 | exact Em2]).
  assert (M : m mod (2 * P) = rho + P * b)
    by (symmetry; apply Z.mod_unique with q'; [left; exact Hr2 | exact Em2]).
  rewrite D, M.
  assert (S : 2 * (rho + P * b) mod (2 * P) = 2 * rho).
  { symmetry. apply Z.mod_unique with b; [lia | ring]. }
  rewrite S.
  split; [reflexivity|]. split.
  - unfold b in Hb |- *. destruct (Z.odd q); symmetry; [apply Z.leb_le | apply Z.leb_gt]; lia.
  - rewrite Er, Es. destruct (Z.leb_spec P (2 * rho)) as [L|L].
    + cbn [orb]. symmetry. apply negb_true_iff. apply Z.eqb_neq. lia.
    + cbn [orb]. now rewrite Z.mod_small by lia.
Qed.

Lemma iter_shr_1_shifted (p : positive) :
  forall (m P : Z) (r : shr_record),
  0 <= m -> 0 < P -> shifted m P r ->
  shifted m (P * 2 ^ Zpos p) (iter_pos shr_1 p r).
Proof.
  induction p as [p IH|p IH|]; intros m P r Hm HP H; cbn [iter_pos].
  - assert (HQ : 0 < 2 ^ Zpos p) by (apply Z.pow_pos_nonneg; lia).
    replace (P * 2 ^ Zpos p~1) with (2 * P * 2 ^ Zpos p * 2 ^ Zpos p).
    + apply IH; [assumption | apply Z.mul_pos_pos; lia |].
      apply IH; [assumption | lia |]. now apply shr_1_shifted.
    + rewrite Pos2Z.inj_xI.
      replace (2 * Zpos p + 1) with (Z.succ (2 * Zpos p)) by lia.
      rewrite Z.pow_succ_r, Z.pow_twice_r by lia. ring.
  - assert (HQ : 0 < 2 ^ Zpos p) by (apply Z.pow_pos_nonneg; lia).
    replace (P * 2 ^ Zpos p~0) with (P * 2 ^ Zpos p * 2 ^ Zpos p).
    + apply IH; [assumption | apply Z.mul_pos_pos; lia |].
      now apply IH.
    + change (Zpos p~0) with (2 * Zpos p). rewrite Z.pow_twice_r. ring.
  - change (2 ^ 1) with 2. rewrite Z.mul_comm. now apply shr_1_shifted.
Qed.

Lemma shifted_start (z : Z) : shifted z 1 (Build_shr_record z false false).
Proof.
  unfold shifted. cbn [shr_m shr_r shr_s].
  rewrite Z.div_1_r, Z.mod_1_r. repeat split.
Qed.

Lemma shr_fexp_shifted (z e : Z) (mrs : shr_record) (e' : Z) :
  0 <= z ->
  shr_fexp prec emax z e loc_Exact = (mrs, e') ->
  e' = Z.max e (fexp prec emax (Zdigits2 z + e)) /\
  shifted z (2 ^ (e' - e)) mrs.
Proof.
  intros Hz. unfold shr_fexp, shr. cbn [shr_record_of_loc].
  destruct (fexp prec emax (Zdigits2 z + e) - e) as [|p|p] eqn:D; intro H;
    injection H as <- <-.
  - split; [lia|]. rewrite Z.sub_diag. apply shifted_start.
  - split; [lia|].
    replace (e + Zpos p - e) with (Zpos p) by lia.
    rewrite <- (Z.mul_1_l (2 ^ Zpos p)).
    apply iter_shr_1_shifted; [assumption | lia | apply shifted_start].
  - split; [lia|]. rewrite Z.sub_diag. apply shifted_start.
Qed.

(** Rounding to nearest after a shift: at most half of [P] away. *)
Lemma round_shifted (m P : Z) (r : shr_record) :
  0 <= m -> 0 < P -> shifted m P r ->
  m / P <= round_nearest_even (shr_m r) (loc_of_shr_record r) <= m / P + 1 /\
  2 * Z.abs (round_nearest_even (shr_m r) (loc_of_shr_record r) * P - m) <= P /\
  (2 * (m mod P) < P -> round_nearest_even (shr_m r) (loc_of_shr_record r) = m / P).
Proof.
  intros Hm HP [Eq [Er Es]]. destruct r as [q rb sb]. cbn [shr_m shr_r shr_s] in *.
  pose proof (Z.mod_pos_bound m P HP) as Hr.
  pose proof (Z.div_mod m P ltac:(lia)) as Em.
  set (rho := m mod P) in *. rewrite <- Eq in *.
  destruct rb.
  - symmetry in Er. apply Z.leb_le in Er.
    destruct sb; cbn [loc_of_shr_record round_nearest_even].
    + split; [lia|]. split; [|lia].
      replace ((q + 1) * P - m) with (P - rho) by (rewrite Em; ring). lia.
    + symmetry in Es. apply negb_false_iff in Es. apply Z.eqb_eq in Es.
      assert (H2 : 2 * rho mod P = 2 * rho - P)
        by (symmetry; apply Z.mod_unique with 1; lia).
      assert (Half : 2 * rho = P) by lia.
      destruct (Z.even q).
      * split; [lia|]. split; [|lia].
        replace (q * P - m) with (- rho) by (rewrite Em; ring). lia.
      * split; [lia|]. split; [|lia].
        replace ((q + 1) * P - m) with (P - rho) by (rewrite Em; ring). lia.
  - symmetry in Er. apply Z.leb_gt in Er.
    assert (E : round_nearest_even q (loc_of_shr_record (Build_shr_record q false sb)) = q)
      by (destruct sb; reflexivity).
    rewrite E. split; [lia|]. split; [|reflexivity].
    replace (q * P - m) with (- rho) by (rewrite Em; ring). lia.
Qed.

Lemma Zdigits2_bounds (z : Z) :
  0 < z -> 2 ^ (Zdigits2 z - 1) <= z < 2 ^ Zdigits2 z.
Proof.
  destruct z as [|p|p]; try lia. intros _. apply digits2_pos_bounds.
Qed.

Lemma Zdigits2_nonneg (z : Z) : 0 <= Zdigits2 z.
Proof. destruct z; simpl; lia. Qed.

Lemma Zdigits2_le (z k : Z) : 0 <= z -> 0 <= k -> z < 2 ^ k -> Zdigits2 z <= k.
Proof.
  intros Hz Hk H. destruct (Z.eq_dec z 0) as [->|N]; [simpl; lia|].
  destruct (Zdigits2_bounds z ltac:(lia)) as [L _].
  destruct (Z_le_gt_dec (Zdigits2 z) k) as [|G]; [assumption|].
  assert (2 ^ k <= 2 ^ (Zdigits2 z - 1)) by (apply Z.pow_le_mono_r; lia).
  lia.
Qed.


Lemma fexp64 (x : Z) : fexp prec emax x = Z.max (x - 53) (-1074).
Proof. reflexivity. Qed.

Lemma pow2_pos (x : Z) : 0 <= x -> 0 < 2 ^ x.
Proof. intro H. apply Z.pow_pos_nonneg; lia. Qed.

Lemma pow2_lt_inv (x y : Z) : 0 <= y -> 2 ^ x < 2 ^ y -> x < y.
Proof.
  intros Hy H. destruct (Z_lt_ge_dec x y) as [|G]; [assumption|].
  assert (2 ^ y <= 2 ^ x) by (apply Z.pow_le_mono_r; lia). lia.
Qed.

Lemma digits_exponent_le (m : positive) (e B : Z) :
  -1074 <= e -> Zpos m * 2 ^ (e + 1074) < 2 ^ (B + 1074) -> -1021 <= B ->
  Zpos (digits2_pos m) + e <= B.
Proof.
  intros He Hm HB.
  destruct (digits2_pos_bounds m) as [Lm _].
  assert (HT : 0 < 2 ^ (e + 1074)) by (apply pow2_pos; lia).
  assert (2 ^ (Zpos (digits2_pos m) - 1 + (e + 1074)) < 2 ^ (B + 1074)) as H.
  { rewrite Z.pow_add_r by lia.
    eapply Z.le_lt_trans; [|exact Hm]. apply Z.mul_le_mono_nonneg_r; lia. }
  apply pow2_lt_inv in H; lia.
Qed.


(** Rounding a mantissa that sits at or below its canonical exponent: the
    result is a finite nonzero number within half a unit of the canonical
    exponent's last place.  [B] bounds the binary exponent of the value; the
    value stays under the largest number plus half a unit. *)
Lemma binary_round_aux_bound (s : bool) (m : positive) (e B : Z) :
  -1074 <= e ->
  e <= fexp prec emax (Zpos (digits2_pos m) + e) ->
  Zpos m * 2 ^ (e + 1074) < 2 ^ (B + 1074) ->
  Zpos m * 2 ^ (e + 1074) < 2 ^ 2098 - 2 ^ 2044 ->
  -1021 <= B <= 1024 ->
  exists m' e',
    binary_round_aux prec emax s (Zpos m) e loc_Exact = S754_finite s m' e' /\
    -1074 <= e' /\
    2 * Z.abs (Zpos m' * 2 ^ (e' + 1074) - Zpos m * 2 ^ (e + 1074)) <= 2 ^ (B + 1021).
Proof.
  intros He Hfe Hm Hmax HB.
  set (d := Zpos (digits2_pos m)) in *.
  assert (Hd : 1 <= d) by (unfold d; lia).
  destruct (digits2_pos_bounds m) as [Lm Um]. fold d in Lm, Um.
  set (fe := fexp prec emax (d + e)) in *.
  assert (Efe : fe = Z.max (d + e - 53) (-1074)) by apply fexp64.
  set (T := 2 ^ (e + 1074)) in *.
  assert (HT : 0 < T) by (apply pow2_pos; lia).
  assert (HdB : d + e <= B) by (apply digits_exponent_le; [assumption | exact Hm | lia]).
  set (a := fe - e).
  assert (Ha : 0 <= a) by (unfold a; lia).
  assert (Ha1 : a <= d - 1) by (unfold a; lia).
  assert (Ha2 : d - a <= 53) by (unfold a; lia).
  set (P := 2 ^ a).
  assert (HP : 0 < P) by (apply pow2_pos; lia).
  assert (PT : P * T = 2 ^ (fe + 1074)).
  { unfold P, T. rewrite <- Z.pow_add_r by lia. f_equal. unfold a. lia. }
  assert (Top : fe = 971 -> 2 * Zpos m < (2 ^ 54 - 1) * P).
  { intro F971.
    assert (PT2 : P * T = 2 * 2 ^ 2044) by (rewrite PT, F971; reflexivity).
    assert (N : 2 ^ 2098 - 2 ^ 2044 = (2 ^ 54 - 1) * 2 ^ 2044) by reflexivity.
    rewrite N in Hmax. clear - Hmax PT2 HT.
    apply (Z.mul_lt_mono_pos_r T); [exact HT|].
    replace ((2 ^ 54 - 1) * P * T) with ((2 ^ 54 - 1) * (P * T)) by ring.
    rewrite PT2. set (X := 2 ^ 2044) in *. lia. }
  clear Hmax.
  unfold binary_round_aux.
  destruct (shr_fexp prec emax (Zpos m) e loc_Exact) as [mrs1 e1] eqn:S1.
  apply shr_fexp_shifted in S1; [|lia]. cbn [Zdigits2] in S1. fold d fe in S1.
  destruct S1 as [E1 Sh1].
  assert (M : Z.max e fe = fe) by lia. rewrite M in E1. clear M.
  subst e1. fold a P in Sh1.
  destruct (round_shifted (Zpos m) P mrs1 ltac:(lia) HP Sh1) as [Hm1 [Herr Hdown]].
  set (m1 := round_nearest_even (shr_m mrs1) (loc_of_shr_record mrs1)) in *.
  pose proof (Z.mod_pos_bound (Zpos m) P HP) as Hrho.
  pose proof (Z.div_mod (Zpos m) P ltac:(lia)) as Em.
  set (q := Zpos m / P) in *. set (rho := Zpos m mod P) in *.
  assert (Hq1 : 1 <= q).
  { destruct (Z_le_gt_dec 1 q) as [|G]; [assumption|].
    assert (HPm : P <= Zpos m).
    { eapply Z.le_trans; [|exact Lm]. apply Z.pow_le_mono_r; lia. }
    assert (0 <= q) by (apply Z.div_pos; lia).
    assert (Q0 : q = 0) by lia. rewrite Q0 in Em. lia. }
  assert (Hq53 : q < 2 ^ 53).
  { assert (q < 2 ^ (d - a)).
    { assert (Zpos m < P * 2 ^ (d - a)).
      { unfold P. rewrite <- Z.pow_add_r by lia. replace (a + (d - a)) with d by lia. exact Um. }
      apply (Z.mul_lt_mono_pos_l P); lia. }
    assert (2 ^ (d - a) <= 2 ^ 53) by (apply Z.pow_le_mono_r; lia). lia. }
  destruct (shr_fexp prec emax m1 fe loc_Exact) as [mrs2 e2] eqn:S2.
  apply shr_fexp_shifted in S2; [|lia].
  destruct S2 as [E2 [Q2 _]].
  set (D1 := Zdigits2 m1) in *.
  destruct (Zdigits2_bounds m1 ltac:(lia)) as [L1 U1]. fold D1 in L1, U1.
  assert (HD1 : 1 <= D1).
  { pose proof (Zdigits2_nonneg m1) as N. fold D1 in N.
    destruct (Z.eq_dec D1 0) as [Z|]; [|lia]. rewrite Z in U1. simpl in U1. lia. }
  assert (HD54 : D1 <= 54) by (apply Zdigits2_le; lia).
  rewrite fexp64 in E2.
  set (c := e2 - fe) in *.
  assert (Hc : c = 0 \/ (c = 1 /\ D1 = 54)) by (unfold c; clear - E2 HD1 HD54 Efe; lia).
  assert (Hc0 : 0 <= c <= 1) by (clear - Hc; lia).
  assert (Hfe0 : -1074 <= fe <= B - 53) by (clear - Efe HdB HB; lia).
  clear E2.
  assert (Exact2 : exists m2, shr_m mrs2 = m2 /\ 1 <= m2 /\ m2 * 2 ^ c = m1).
  { destruct Hc as [C0 | [C1 HD]].
    - exists m1. rewrite Q2, C0. simpl (2 ^ 0). rewrite Z.div_1_r. lia.
    - assert (E53 : m1 = 2 ^ 53).
      { rewrite HD in L1. simpl (54 - 1) in L1. lia. }
      exists (2 ^ 52). rewrite Q2, C1, E53.
      split; [reflexivity|]. split; [vm_compute; discriminate | reflexivity]. }
  destruct Exact2 as [m2 [EQ [Hm2 Em2]]]. rewrite EQ.
  assert (He2 : e2 <= 971).
  { destruct Hc as [C0 | [C1 HD]]; [unfold c in C0; clear - C0 Hfe0 HB; lia|].
    destruct (Z_le_gt_dec fe 970) as [|G]; [unfold c in C1; clear - C1 l; lia|].
    exfalso.
    assert (F971 : fe = 971) by lia.
    assert (E53 : m1 = 2 ^ 53).
    { rewrite HD in L1. simpl (54 - 1) in L1. lia. }
    assert (Q53 : q = 2 ^ 53 - 1) by lia.
    pose proof (Top F971) as H2.
    rewrite Em, Q53 in H2.
    assert (Down : 2 * rho < P) by lia.
    apply Hdown in Down. lia. }
  destruct m2 as [|m'|m']; try lia.
  replace (Z.leb e2 (emax - prec)) with true
    by (symmetry; apply Z.leb_le; change (emax - prec) with 971; exact He2).
  exists m', e2. split; [reflexivity|]. split; [unfold c in Hc0; clear - Hc0 Hfe0; lia|].
  assert (E2T : Zpos m' * 2 ^ (e2 + 1074) = m1 * P * T).
  { rewrite <- Em2. unfold P, T.
    replace (e2 + 1074) with (c + (a + (e + 1074))) by (unfold c, a; lia).
    rewrite !Z.pow_add_r by (clear - Hc0 Ha He; lia). ring. }
  rewrite E2T.
  replace (m1 * P * T - Zpos m * T) with ((m1 * P - Zpos m) * T) by ring.
  rewrite Z.abs_mul, (Z.abs_eq T) by lia.
  assert (PTB : P * T <= 2 ^ (B + 1021)).
  { rewrite PT. apply Z.pow_le_mono_r; clear - Hfe0; lia. }
  assert (H : 2 * Z.abs (m1 * P - Zpos m) * T <= P * T)
    by (apply Z.mul_le_mono_nonneg_r; [clear - HT; lia | exact Herr]).
  clear - H PTB. lia.
Qed.

(** Rounding any mantissa at an exponent in range. *)
Lemma binary_round_bound (s : bool) (m : positive) (e B : Z) :
  -1074 <= e ->
  Zpos m * 2 ^ (e + 1074) < 2 ^ (B + 1074) ->
  Zpos m * 2 ^ (e + 1074) < 2 ^ 2098 - 2 ^ 2044 ->
  -1021 <= B <= 1024 ->
  exists m' e',
    binary_round prec emax s m e = S754_finite s m' e' /\
    -1074 <= e' /\
    2 * Z.abs (Zpos m' * 2 ^ (e' + 1074) - Zpos m * 2 ^ (e + 1074)) <= 2 ^ (B + 1021).
Proof.
  intros He Hm Hmax HB.
  pose proof (digits_exponent_le m e B He Hm ltac:(lia)) as HdB.
  unfold binary_round, shl_align.
  set (fe := fexp prec emax (Zpos (digits2_pos m) + e)).
  assert (Efe : fe = Z.max (Zpos (digits2_pos m) + e - 53) (-1074)) by apply fexp64.
  destruct (fe - e) as [|p|p] eqn:D.
  - apply binary_round_aux_bound; try assumption. fold fe. lia.
  - apply binary_round_aux_bound; try assumption. fold fe. lia.
  - assert (Bd : bounded prec emax (Pos.iter xO m p) fe = true).
    { unfold bounded, canonical_mantissa. rewrite digits2_pos_iter_xO.
      apply andb_true_intro. split.
      - apply Z.eqb_eq. rewrite Pos2Z.inj_add.
        replace (Zpos (digits2_pos m) + Zpos p + fe) with (Zpos (digits2_pos m) + e) by lia.
        reflexivity.
      - apply Z.leb_le. change (emax - prec) with 971. lia. }
    rewrite (binary_round_aux_canonical s _ _ Bd).
    exists (Pos.iter xO m p), fe. split; [reflexivity|]. split; [lia|].
    rewrite iter_xO.
    replace (Zpos m * 2 ^ Zpos p * 2 ^ (fe + 1074)) with (Zpos m * 2 ^ (e + 1074)).
    + rewrite Z.sub_diag. change (2 * Z.abs 0) with 0.
      apply Z.lt_le_incl, pow2_pos. lia.
    + rewrite <- Z.mul_assoc, <- Z.pow_add_r by lia. do 2 f_equal. lia.
Qed.

Lemma binary_normalize_bound (N ez B : Z) :
  -1074 <= ez ->
  Z.abs N * 2 ^ (ez + 1074) < 2 ^ (B + 1074) ->
  Z.abs N * 2 ^ (ez + 1074) < 2 ^ 2098 - 2 ^ 2044 ->
  -1021 <= B <= 1024 ->
  sf_number (binary_normalize prec emax N ez false) = true /\
  2 * Z.abs (SFint (binary_normalize prec emax N ez false) - N * 2 ^ (ez + 1074))
    <= 2 ^ (B + 1021) /\
  (SFint (binary_normalize prec emax N ez false) = 0 <-> N = 0).
Proof.
  intros He HN Hmax HB.
  assert (HU : 0 < 2 ^ (B + 1021)) by (apply pow2_pos; lia).
  destruct N as [|n|n]; cbn [binary_normalize].
  - cbn [sf_number SFint]. split; [reflexivity|]. split; [|tauto].
    replace (0 - 0 * 2 ^ (ez + 1074)) with 0 by lia. change (2 * Z.abs 0) with 0.
    clear - HU. lia.
  - destruct (binary_round_bound false n ez B He HN Hmax HB) as [m' [e' [E [He' Bd]]]].
    clear HN Hmax.
    rewrite E. cbn [sf_number SFint cond_Zopp].
    split; [reflexivity|]. split; [exact Bd|].
    assert (0 < Zpos m' * 2 ^ (e' + 1074))
      by (apply Z.mul_pos_pos; [lia | apply pow2_pos; lia]).
    split; intro H0; [lia | discriminate].
  - destruct (binary_round_bound true n ez B He HN Hmax HB) as [m' [e' [E [He' Bd]]]].
    clear HN Hmax.
    rewrite E. cbn [sf_number SFint cond_Zopp].
    split; [reflexivity|]. split.
    + replace (- (Zpos m' * 2 ^ (e' + 1074)) - Zneg n * 2 ^ (ez + 1074))
        with (- (Zpos m' * 2 ^ (e' + 1074) - Zpos n * 2 ^ (ez + 1074))) by lia.
      rewrite Z.abs_opp. exact Bd.
    + assert (0 < Zpos m' * 2 ^ (e' + 1074))
        by (apply Z.mul_pos_pos; [lia | apply pow2_pos; lia]).
      split; intro H0; [lia | discriminate].
Qed.

Lemma valid_exponent (s : bool) (m : positive) (e : Z) :
  sf_valid_number (S754_finite s m e) -> -1074 <= e.
Proof.
  intros [V _]. cbn in V. apply andb_prop in V. destruct V as [V _].
  unfold canonical_mantissa in V. apply Z.eqb_eq in V. rewrite fexp64 in V. lia.
Qed.

Lemma SFint_aligned (s : bool) (m : positive) (e ez : Z) :
  ez <= e -> -1074 <= ez ->
  cond_Zopp s (Zpos (fst (shl_align m e ez))) * 2 ^ (ez + 1074) =
  SFint (S754_finite s m e).
Proof.
  intros H1 H2. rewrite shl_align_fst by assumption. cbn [SFint].
  replace (e + 1074) with ((e - ez) + (ez + 1074)) by lia.
  rewrite (Z.pow_add_r 2 (e - ez) (ez + 1074)) by lia. destruct s; cbn [cond_Zopp]; ring.
Qed.


Lemma SFint_finite_sign (s : bool) (m : positive) (e : Z) :
  -1074 <= e ->
  if s then SFint (S754_finite s m e) < 0 else 0 < SFint (S754_finite s m e).
Proof.
  intro H. cbn [SFint].
  assert (0 < Zpos m * 2 ^ (e + 1074))
    by (apply Z.mul_pos_pos; [lia | apply pow2_pos; lia]).
  destruct s; cbn [cond_Zopp]; lia.
Qed.

(** Comparing two numbers compares their integer images. *)
Lemma SFcompare_int (x y : spec_float) :
  sf_valid_number x -> sf_valid_number y ->
  SFcompare x y = Some (SFint x ?= SFint y).
Proof.
  intros Vx Vy.
  destruct x as [sx|sx| |sx mx ex]; try (destruct Vx as [_ Nx]; discriminate Nx);
    destruct y as [sy|sy| |sy my ey]; try (destruct Vy as [_ Ny]; discriminate Ny).
  - reflexivity.
  - pose proof (SFint_finite_sign sy my ey (valid_exponent _ _ _ Vy)) as S.
    cbn [SFcompare]. f_equal. change (SFint (S754_zero sx)) with 0.
    destruct sy; symmetry; [apply Z.compare_gt_iff | apply Z.compare_lt_iff]; exact S.
  - pose proof (SFint_finite_sign sx mx ex (valid_exponent _ _ _ Vx)) as S.
    cbn [SFcompare]. f_equal. change (SFint (S754_zero sy)) with 0.
    destruct sx; symmetry; [apply Z.compare_lt_iff | apply Z.compare_gt_iff]; exact S.
  - pose proof (valid_exponent _ _ _ Vx) as Ex. pose proof (valid_exponent _ _ _ Vy) as Ey.
    destruct Vx as [Bx _], Vy as [By _]. cbn in Bx, By.
    rewrite (SFcompare_aligned sx sy mx my ex ey Bx By). f_equal.
    unfold aligned.
    rewrite <- (SFint_aligned sx mx ex (Z.min ex ey)) by lia.
    rewrite <- (SFint_aligned sy my ey (Z.min ex ey)) by lia.
    assert (HT : 0 < 2 ^ (Z.min ex ey + 1074)) by (apply pow2_pos; lia).
    destruct (Z.compare_spec (cond_Zopp sx (Zpos (fst (shl_align mx ex (Z.min ex ey)))))
                             (cond_Zopp sy (Zpos (fst (shl_align my ey (Z.min ex ey))))))
      as [E|L|G]; symmetry.
    + apply Z.compare_eq_iff. now rewrite E.
    + apply Z.compare_lt_iff. apply Z.mul_lt_mono_pos_r; assumption.
    + apply Z.compare_gt_iff. apply Z.mul_lt_mono_pos_r; assumption.
Qed.

Lemma SFleb_int (x y : spec_float) :
  sf_valid_number x -> sf_valid_number y ->
  SFleb x y = (SFint x <=? SFint y).
Proof.
  intros Vx Vy. unfold SFleb. rewrite (SFcompare_int x y Vx Vy).
  unfold Z.leb. destruct (SFint x ?= SFint y); reflexivity.
Qed.

Lemma SFeqb_int (x y : spec_float) :
  sf_valid_number x -> sf_valid_number y ->
  SFeqb x y = (SFint x =? SFint y).
Proof.
  intros Vx Vy. unfold SFeqb. rewrite (SFcompare_int x y Vx Vy).
  destruct (Z.eqb_spec (SFint x) (SFint y)) as [E|NE].
  - rewrite E, Z.compare_refl. reflexivity.
  - destruct (SFint x ?= SFint y) eqn:C; try reflexivity.
    apply Z.compare_eq in C. contradiction.
Qed.

Lemma SFint_abs (x : spec_float) : SFint (SFabs x) = Z.abs (SFint x).
Proof.
  destruct x as [s|s| |s m e]; try reflexivity.
  cbn [SFabs SFint].
  pose proof (Z.pow_nonneg 2 (e + 1074) ltac:(lia)).
  destruct s; cbn [cond_Zopp]; lia.
Qed.

Lemma SFint_opp (x : spec_float) : SFint (SFopp x) = - SFint x.
Proof.
  destruct x as [s|s| |s m e]; try reflexivity.
  cbn [SFopp SFint]. destruct s; cbn [cond_Zopp negb]; lia.
Qed.

(** The sum of two numbers, as long as it stays under [2 ^ B] and under the
    largest number plus half a unit of its last place. *)
Lemma SF64add_bound (x y : spec_float) (B : Z) :
  sf_valid_number x -> sf_valid_number y ->
  Z.abs (SFint x + SFint y) < 2 ^ (B + 1074) ->
  Z.abs (SFint x + SFint y) < 2 ^ 2098 - 2 ^ 2044 ->
  -1021 <= B <= 1024 ->
  sf_number (SF64add x y) = true /\
  2 * Z.abs (SFint (SF64add x y) - (SFint x + SFint y)) <= 2 ^ (B + 1021) /\
  (SFint (SF64add x y) = 0 <-> SFint x + SFint y = 0).
Proof.
  intros Vx Vy HN Hmax HB.
  assert (HU : 0 < 2 ^ (B + 1021)) by (apply pow2_pos; lia).
  destruct x as [sx|sx| |sx mx ex]; try (destruct Vx as [_ Nx]; discriminate Nx);
    destruct y as [sy|sy| |sy my ey]; try (destruct Vy as [_ Ny]; discriminate Ny).
  - destruct sx, sy;
      (split; [reflexivity|]; split;
       [apply (Z.le_trans _ 0); [vm_compute; discriminate | lia] | split; reflexivity]).
  - change (SF64add (S754_zero sx) (S754_finite sy my ey)) with (S754_finite sy my ey).
    change (SFint (S754_zero sx)) with 0.
    split; [reflexivity|]. split; lia.
  - change (SF64add (S754_finite sx mx ex) (S754_zero sy)) with (S754_finite sx mx ex).
    change (SFint (S754_zero sy)) with 0.
    split; [reflexivity|]. split; lia.
  - pose proof (valid_exponent _ _ _ Vx) as Ex. pose proof (valid_exponent _ _ _ Vy) as Ey.
    unfold SF64add, SFadd.
    set (ez := Z.min ex ey).
    set (N := cond_Zopp sx (Zpos (fst (shl_align mx ex ez))) +
              cond_Zopp sy (Zpos (fst (shl_align my ey ez)))).
    assert (EN : N * 2 ^ (ez + 1074) =
                 SFint (S754_finite sx mx ex) + SFint (S754_finite sy my ey)).
    { unfold N. rewrite Z.mul_add_distr_r.
      rewrite (SFint_aligned sx mx ex ez), (SFint_aligned sy my ey ez) by (unfold ez; lia).
      reflexivity. }
    rewrite <- EN in *.
    assert (HT : 0 < 2 ^ (ez + 1074)) by (apply pow2_pos; unfold ez; lia).
    destruct (binary_normalize_bound N ez B) as [R1 [R2 R3]].
    + unfold ez; lia.
    + rewrite Z.abs_mul, (Z.abs_eq (2 ^ (ez + 1074))) in HN by lia. exact HN.
    + rewrite Z.abs_mul, (Z.abs_eq (2 ^ (ez + 1074))) in Hmax by lia. exact Hmax.
    + exact HB.
    + split; [exact R1|]. split; [exact R2|].
      rewrite R3. split; intro H0; [rewrite H0; reflexivity|].
      apply Z.mul_eq_0 in H0. destruct H0; [assumption | lia].
Qed.

(** The difference of two numbers, likewise. *)
Lemma SF64sub_bound (x y : spec_float) (B : Z) :
  sf_valid_number x -> sf_valid_number y ->
  Z.abs (SFint x - SFint y) < 2 ^ (B + 1074) ->
  Z.abs (SFint x - SFint y) < 2 ^ 2098 - 2 ^ 2044 ->
  -1021 <= B <= 1024 ->
  sf_number (SF64sub x y) = true /\
  2 * Z.abs (SFint (SF64sub x y) - (SFint x - SFint y)) <= 2 ^ (B + 1021) /\
  (SFint (SF64sub x y) = 0 <-> SFint x - SFint y = 0).
Proof.
  intros Vx Vy HN Hmax HB.
  assert (HU : 0 < 2 ^ (B + 1021)) by (apply pow2_pos; lia).
  destruct x as [sx|sx| |sx mx ex]; try (destruct Vx as [_ Nx]; discriminate Nx);
    destruct y as [sy|sy| |sy my ey]; try (destruct Vy as [_ Ny]; discriminate Ny).
  - destruct sx, sy;
      (split; [reflexivity|]; split;
       [apply (Z.le_trans _ 0); [vm_compute; discriminate | lia] | split; reflexivity]).
  - change (SF64sub (S754_zero sx) (S754_finite sy my ey)) with (SFopp (S754_finite sy my ey)).
    rewrite SFint_opp. change (SFint (S754_zero sx)) with 0.
    split; [reflexivity|]. split; lia.
  - change (SF64sub (S754_finite sx mx ex) (S754_zero sy)) with (S754_finite sx mx ex).
    change (SFint (S754_zero sy)) with 0.
    split; [reflexivity|]. split; lia.
  - pose proof (valid_exponent _ _ _ Vx) as Ex. pose proof (valid_exponent _ _ _ Vy) as Ey.
    unfold SF64sub, SFsub.
    set (ez := Z.min ex ey).
    set (N := cond_Zopp sx (Zpos (fst (shl_align mx ex ez))) -
              cond_Zopp sy (Zpos (fst (shl_align my ey ez)))).
    assert (EN : N * 2 ^ (ez + 1074) =
                 SFint (S754_finite sx mx ex) - SFint (S754_finite sy my ey)).
    { unfold N. rewrite Z.mul_sub_distr_r.
      rewrite (SFint_aligned sx mx ex ez), (SFint_aligned sy my ey ez) by (unfold ez; lia).
      reflexivity. }
    rewrite <- EN in *.
    assert (HT : 0 < 2 ^ (ez + 1074)) by (apply pow2_pos; unfold ez; lia).
    destruct (binary_normalize_bound N ez B) as [R1 [R2 R3]].
    + unfold ez; lia.
    + rewrite Z.abs_mul, (Z.abs_eq (2 ^ (ez + 1074))) in HN by lia. exact HN.
    + rewrite Z.abs_mul, (Z.abs_eq (2 ^ (ez + 1074))) in Hmax by lia. exact Hmax.
    + exact HB.
    + split; [exact R1|]. split; [exact R2|].
      rewrite R3. split; intro H0; [rewrite H0; reflexivity|].
      apply Z.mul_eq_0 in H0. destruct H0; [assumption | lia].
Qed.


Lemma SFint_zero_inv (x : spec_float) :
  sf_valid_number x -> SFint x = 0 -> exists s, x = S754_zero s.
Proof.
  intros V H. destruct x as [s|s| |s m e]; try (destruct V as [_ N]; discriminate N).
  - now exists s.
  - pose proof (SFint_finite_sign s m e (valid_exponent _ _ _ V)) as S.
    destruct s; lia.
Qed.

(** *** The same facts on the primitive floats *)

Lemma add_bound (x y : float) (B : Z) :
  is_finite x = true -> is_finite y = true ->
  Z.abs (Fint x + Fint y) < 2 ^ (B + 1074) ->
  Z.abs (Fint x + Fint y) < 2 ^ 2098 - 2 ^ 2044 ->
  -1021 <= B <= 1024 ->
  is_finite (x + y) = true /\
  2 * Z.abs (Fint (x + y) - (Fint x + Fint y)) <= 2 ^ (B + 1021) /\
  (Fint (x + y) = 0 <-> Fint x + Fint y = 0).
Proof.
  intros Fx Fy HN Hmax HB. unfold Fint in *.
  rewrite is_finite_SF, add_spec.
  apply SF64add_bound; auto using float_valid_number.
Qed.

Lemma sub_bound (x y : float) (B : Z) :
  is_finite x = true -> is_finite y = true ->
  Z.abs (Fint x - Fint y) < 2 ^ (B + 1074) ->
  Z.abs (Fint x - Fint y) < 2 ^ 2098 - 2 ^ 2044 ->
  -1021 <= B <= 1024 ->
  is_finite (x - y) = true /\
  2 * Z.abs (Fint (x - y) - (Fint x - Fint y)) <= 2 ^ (B + 1021) /\
  (Fint (x - y) = 0 <-> Fint x - Fint y = 0).
Proof.
  intros Fx Fy HN Hmax HB. unfold Fint in *.
  rewrite is_finite_SF, sub_spec.
  apply SF64sub_bound; auto using float_valid_number.
Qed.

Lemma Fint_abs (x : float) : Fint (abs x) = Z.abs (Fint x).
Proof. unfold Fint. rewrite abs_spec. apply SFint_abs. Qed.

Lemma leb_int (x y : float) :
  is_finite x = true -> is_finite y = true ->
  (x <=? y)%float = (Fint x <=? Fint y).
Proof.
  intros Fx Fy. rewrite leb_spec. apply SFleb_int; now apply float_valid_number.
Qed.

Lemma eqb_int (x y : float) :
  is_finite x = true -> is_finite y = true ->
  (x =? y)%float = (Fint x =? Fint y).
Proof.
  intros Fx Fy. rewrite eqb_spec. apply SFeqb_int; now apply float_valid_number.
Qed.

Lemma abs_zero_int (x : float) :
  is_finite x = true -> (abs x = 0%float <-> Fint x = 0).
Proof.
  intro F. split; intro H.
  - assert (A : Fint (abs x) = 0) by (rewrite H; reflexivity).
    rewrite Fint_abs in A. lia.
  - destruct (SFint_zero_inv (Prim2SF x) (float_valid_number x F) H) as [s E].
    apply Prim2SF_inj. rewrite abs_spec, E. reflexivity.
Qed.

(** No number is larger than [(2^53 - 1) * 2^971]. *)
Lemma Fint_max (x : float) :
  is_finite x = true -> Z.abs (Fint x) <= 2 ^ 2098 - 2 ^ 2045.
Proof.
  intro F. destruct (float_valid_number x F) as [V N]. unfold Fint.
  destruct (Prim2SF x) as [s|s| |s m e]; try discriminate N.
  - vm_compute. discriminate.
  - cbn in V. apply andb_prop in V as [C L]. apply Z.leb_le in L.
    change (emax - prec) with 971 in L.
    unfold canonical_mantissa in C. apply Z.eqb_eq in C. rewrite fexp64 in C.
    destruct (digits2_pos_bounds m) as [_ U].
    assert (D : Zpos (digits2_pos m) <= 53) by lia.
    assert (M : Zpos m <= 2 ^ 53 - 1).
    { assert (2 ^ Zpos (digits2_pos m) <= 2 ^ 53) by (apply Z.pow_le_mono_r; lia). lia. }
    assert (P : 0 < 2 ^ (e + 1074)) by (apply pow2_pos; lia).
    assert (E : 2 ^ (e + 1074) <= 2 ^ 2045) by (apply Z.pow_le_mono_r; lia).
    cbn [SFint].
    replace (Z.abs (cond_Zopp s (Zpos m * 2 ^ (e + 1074)))) with (Zpos m * 2 ^ (e + 1074))
      by (destruct s; cbn [cond_Zopp]; lia).
    change (2 ^ 2098 - 2 ^ 2045) with ((2 ^ 53 - 1) * 2 ^ 2045).
    apply Z.mul_le_mono_nonneg; lia.
Qed.

End Rounding64.

(** ** The scale-anchor claim CL3 under other Kelvin literals *)

Section ScaleAnchor.

Local Open Scope Z_scope.

(** Subtracting 273.15 from a number and adding it back gives numbers at
    every step; the result is the number itself or a neighbour of it. *)
Lemma celsius_round_trip_finite (k : float) :
  is_finite k = true ->
  let c := (k - 273.15)%float in
  let rt := (c + 273.15)%float in
  let d := (k - rt)%float in
  is_finite c = true /\ is_finite rt = true /\ is_finite d = true /\
  (abs d = 0%float <-> (rt =? k)%float = true).
Proof.
  intros F. cbv zeta.
  set (c := (k - 273.15)%float). set (rt := (c + 273.15)%float). set (d := (k - rt)%float).
  pose proof (Fint_max k F) as HK.
  set (K := Fint k) in *.
  set (c0 := Fint 273.15%float).
  assert (N0 : 0 <= c0) by (vm_compute; discriminate).
  assert (N1 : 2 ^ 2098 - 2 ^ 2045 + c0 < 2 ^ 2098 - 2 ^ 2044) by (vm_compute; reflexivity).
  assert (N2 : 2 ^ 2098 - 2 ^ 2044 < 2 ^ (1024 + 1074)) by (vm_compute; reflexivity).
  assert (N3 : 2 ^ (1024 + 1021) < 2 ^ (972 + 1074)) by (vm_compute; reflexivity).
  assert (N4 : 2 ^ (972 + 1074) < 2 ^ 2098 - 2 ^ 2044) by (vm_compute; reflexivity).
  assert (F0 : is_finite 273.15%float = true) by reflexivity.
  destruct (sub_bound k 273.15%float 1024 F F0) as [Fc [Bc _]];
    [fold K c0; lia | fold K c0; lia | lia |].
  fold c K c0 in Bc, Fc.
  pose proof (Fint_max c Fc) as HC.
  destruct (add_bound c 273.15%float 1024 Fc F0) as [Frt [Brt _]];
    [fold c0; lia | fold c0; lia | lia |].
  fold rt c0 in Brt, Frt.
  destruct (sub_bound k rt 972 F Frt) as [Fd [_ Zd]];
    [fold K; lia | fold K; lia | lia |].
  fold d K in Fd, Zd.
  split; [exact Fc|]. split; [exact Frt|]. split; [exact Fd|].
  rewrite (abs_zero_int d Fd), (eqb_int rt k Frt F), Zd. fold K.
  rewrite Z.eqb_eq. lia.
Qed.

(** For a number of magnitude at most 8388334 (just under 2^23 - 273.15)
    the result is within 1e-9 of the number. *)
Lemma celsius_round_trip_close (k : float) :
  is_finite k = true ->
  (abs k <=? 8388334)%float = true ->
  (abs (k - (k - 273.15 + 273.15)) <=? 1e-9)%float = true.
Proof.
  intros F L.
  destruct (celsius_round_trip_finite k F) as [Fc [Frt [Fd _]]]. cbv zeta in Fc, Frt, Fd.
  set (c := (k - 273.15)%float) in *. set (rt := (c + 273.15)%float) in *.
  set (d := (k - rt)%float) in *.
  rewrite leb_int in L by (rewrite ?is_finite_abs; auto).
  apply Z.leb_le in L. rewrite Fint_abs in L.
  set (K := Fint k) in *.
  set (c0 := Fint 273.15%float).
  set (M := Fint 8388334%float) in *.
  assert (N0 : 0 <= c0 /\ 0 <= M) by (split; vm_compute; discriminate).
  assert (N1 : M + c0 + 2 ^ (23 + 1021) < 2 ^ (23 + 1074)) by (vm_compute; reflexivity).
  assert (N2 : 2 ^ (23 + 1074) < 2 ^ 2098 - 2 ^ 2044) by (vm_compute; reflexivity).
  assert (N3 : 2 ^ (23 + 1021) < 2 ^ (-29 + 1074)) by (vm_compute; reflexivity).
  assert (N4 : 2 ^ (-29 + 1074) < 2 ^ 2098 - 2 ^ 2044) by (vm_compute; reflexivity).
  assert (N5 : 2 * 2 ^ (23 + 1021) + 2 ^ (-29 + 1021) <= 2 * Fint 1e-9%float)
    by (vm_compute; discriminate).
  assert (N6 : 0 < 2 ^ (23 + 1021) /\ 0 < 2 ^ (-29 + 1021)) by (split; vm_compute; reflexivity).
  assert (F0 : is_finite 273.15%float = true) by reflexivity.
  destruct (sub_bound k 273.15%float 23 F F0) as [_ [Bc _]];
    [fold K c0; lia | fold K c0; lia | lia |].
  fold c K c0 in Bc.
  destruct (add_bound c 273.15%float 23 Fc F0) as [_ [Brt _]];
    [fold c0; lia | fold c0; lia | lia |].
  fold rt c0 in Brt.
  destruct (sub_bound k rt (-29) F Frt) as [_ [Bd _]];
    [fold K; lia | fold K; lia | lia |].
  fold d K in Bd.
  rewrite leb_int by (rewrite ?is_finite_abs; auto).
  apply Z.leb_le. rewrite Fint_abs. lia.
Qed.

Local Close Scope Z_scope.

(** C10, as the workbook has it.  For every plain Kelvin literal [k], CL3
    compares [k] converted from kelvin with [k - 273.15] converted from
    degrees Celsius, in binary64 arithmetic: the Kelvin instance converts to
    [k], the Celsius instance to [(k - 273.15) + 273.15], the range of CL3 is
    the magnitude of their difference, and CL3 passes exactly when that is at
    most the tolerance 1e-9.  The range is exactly 0 precisely when
    subtracting 273.15 and adding it back returns [k].  CL3 passes for every
    literal of magnitude at most 8388334. *)
Theorem scale_anchor_round_trip (i : inputs) :
  plain (in_I_Tabs0_K i) = true ->
  let k := in_I_Tabs0_K i in
  let back := (k - 273.15 + 273.15)%float in
  instance_si i "I_Tabs0_K" = VNum k /\
  instance_si i "I_Tabs0_C" = VNum back /\
  claim_range i "CL3" = VNum (abs (k - back)) /\
  claim_pass i "CL3" = VBool (abs (k - back) <=? 1e-9)%float /\
  (claim_range i "CL3" = VNum 0 <-> (back =? k)%float = true) /\
  ((abs k <=? 8388334)%float = true ->
   (abs (k - back) <=? 1e-9)%float = true /\ claim_pass i "CL3" = VBool true).
Proof.
  intros P. cbv zeta.
  set (k := in_I_Tabs0_K i) in *.
  destruct (plain_inv k P) as [F NZ].
  destruct (celsius_round_trip_finite k F) as [Fc [Frt [Fd Ze]]]. cbv zeta in *.
  pose proof (celsius_round_trip_close k F) as Close.
  set (c := (k - 273.15)%float) in *.
  set (back := (c + 273.15)%float) in *.
  destruct (inst_range_si i) as [_ [_ [_ [_ [SK SC]]]]]. fold k in SK, SC.
  destruct (claims_range_cells i) as [_ [_ [_ [_ [R3 P3]]]]]. cbv zeta in R3, P3.
  assert (EK : instance_si i "I_Tabs0_K" = VNum k).
  { rewrite SK. now apply to_si_identity. }
  assert (EC : instance_si i "I_Tabs0_C" = VNum back).
  { rewrite SC, to_si_affine. unfold xl_sub, xl_mul, xl_add, arith. cbn [to_number].
    fold c. rewrite (number_finite c Fc). cbn [formula to_number].
    rewrite (mul_one c Fc), (number_finite c Fc). cbn [to_number].
    fold back. now apply number_finite. }
  rewrite EK, EC in R3, P3. cbn [formula] in R3, P3.
  destruct (range_pass_numbers k back 1e-9 Fd) as [RG PS].
  rewrite RG in R3. rewrite PS in P3.
  split; [exact EK|]. split; [exact EC|]. split; [exact R3|]. split; [exact P3|].
  split.
  - rewrite R3, <- Ze. split; intro H; [now injection H | now rewrite H].
  - intro L. pose proof (Close L) as Le. split; [exact Le | now rewrite P3, Le].
Qed.

Lemma scale_anchor_round_trip_witness :
  claim_range (with_kelvin 123456.789) "CL3" =
    VNum (abs (123456.789 - (123456.789 - 273.15 + 273.15))) /\
  claim_pass (with_kelvin 123456.789) "CL3" = VBool true.
Proof.
  pose proof (scale_anchor_round_trip (with_kelvin 123456.789) eq_refl) as W.
  cbv zeta in W.
  split; [exact (proj1 (proj2 (proj2 W)))|].
  exact (proj2 (proj2 (proj2 (proj2 (proj2 (proj2 W)))) eq_refl)).
Defined.

(** C10 as stated fails on both counts.  With 0.1 typed into the Kelvin
    cell the Celsius instance converts to 0.10000000000002274 and the range
    of CL3 is 2.27e-14, not 0; with 1e-20 the Celsius instance converts to 0
    and the range is 1e-20; both still pass.  With -16777116 the Celsius
    instance converts to -16777115.999999998, the range is 1.86e-9, above the
    tolerance 1e-9, and CL3 fails. *)
Lemma scale_anchor_range_nonzero_at_1e_20 :
  (instance_si (with_kelvin 1e-20) "I_Tabs0_K" = VNum 1e-20 /\
   instance_si (with_kelvin 1e-20) "I_Tabs0_C" = VNum 0 /\
   claim_range (with_kelvin 1e-20) "CL3" = VNum 1e-20 /\
   claim_range (with_kelvin 1e-20) "CL3" <> VNum 0 /\
   claim_pass (with_kelvin 1e-20) "CL3" = VBool true) /\
  (instance_si (with_kelvin 0.1) "I_Tabs0_K" = VNum 0.1 /\
   instance_si (with_kelvin 0.1) "I_Tabs0_C" = VNum 0.10000000000002274 /\
   claim_range (with_kelvin 0.1) "CL3" = VNum 2.273181642920008e-14 /\
   claim_range (with_kelvin 0.1) "CL3" <> VNum 0 /\
   claim_pass (with_kelvin 0.1) "CL3" = VBool true) /\
  (instance_si (with_kelvin (-16777116)) "I_Tabs0_K" = VNum (-16777116) /\
   instance_si (with_kelvin (-16777116)) "I_Tabs0_C" = VNum (-16777115.999999998) /\
   claim_range (with_kelvin (-16777116)) "CL3" = VNum 1.862645149230957e-09 /\
   claim_range (with_kelvin (-16777116)) "CL3" <> VNum 0 /\
   (1.862645149230957e-09 <=? 1e-9)%float = false /\
   claim_pass (with_kelvin (-16777116)) "CL3" = VBool false /\
   claim_pass (with_kelvin (-16777116)) "CL3" <> VBool true).
Proof.
  repeat split; try (vm_compute; reflexivity);
    intro H; first [ apply (f_equal is_zero_number) in H; vm_compute in H; discriminate H
                   | vm_compute in H; discriminate H ].
Qed.

End ScaleAnchor.

(** ** What each claim depends on *)

Lemma temperature_instances (k : float) :
  formula (to_si (VNum k) (VNum 1) (VNum 0)) = kelvin_si k /\
  formula (to_si (formula (xl_sub (VNum k) (VNum 273.15))) (VNum 1) (VNum 273.15)) = celsius_si k.
Proof. split; reflexivity. Qed.

(** X6. The scale-anchor claim CL3 and the answer Q4 depend on the literal
    of instance I_Tabs0_K alone: range, pass and answer are the functions
    [cl3_range] and [cl3_pass] of that literal, so two workbooks that agree on
    it agree on CL3 and Q4, whatever their constants are. *)
Theorem scale_anchor_reads_the_kelvin_literal_only (i j : inputs) :
  in_I_Tabs0_K i = in_I_Tabs0_K j ->
  claim_range i "CL3" = cl3_range (in_I_Tabs0_K i) /\
  claim_pass i "CL3" = cl3_pass (in_I_Tabs0_K i) /\
  answer (claims_range i) Q4 = formula (cl3_pass (in_I_Tabs0_K i)) /\
  claim_range i "CL3" = claim_range j "CL3" /\
  claim_pass i "CL3" = claim_pass j "CL3" /\
  answer (claims_range i) Q4 = answer (claims_range j) Q4.
Proof.
  intro K.
  assert (C : forall a : inputs,
             claim_range a "CL3" = cl3_range (in_I_Tabs0_K a) /\
             claim_pass a "CL3" = cl3_pass (in_I_Tabs0_K a) /\
             answer (claims_range a) Q4 = formula (cl3_pass (in_I_Tabs0_K a))).
  { intro a.
    destruct (inst_range_si a) as [_ [_ [_ [_ [SK SC]]]]].
    destruct (claims_range_cells a) as [_ [_ [_ [_ [R3 P3]]]]]. cbv zeta in R3, P3.
    destruct (temperature_instances (in_I_Tabs0_K a)) as [TK TC].
    rewrite SK, SC, TK, TC in R3, P3.
    split; [exact R3|]. split; [exact P3|].
    rewrite claim_pass_lookup in P3.
    rewrite (proj1 (proj2 (proj2 (proj2 (proj2 (answer_cells _)))))), P3. reflexivity. }
  destruct (C i) as [Ri [Pi Qi]]. destruct (C j) as [Rj [Pj Qj]].
  repeat split; try assumption.
  - now rewrite Ri, Rj, K.
  - now rewrite Pi, Pj, K.
  - now rewrite Qi, Qj, K.
Qed.

Lemma scale_anchor_reads_the_kelvin_literal_only_witness :
  let j := {| in_C_me := 1; in_C_c := 2; in_C_e := 3; in_C_mec2 := 4;
              in_C_abs0 := 5; in_I_Tabs0_K := 0 |} in
  claim_pass shipped "CL3" = claim_pass j "CL3".
Proof.
  exact (proj1 (proj2 (proj2 (proj2 (proj2
    (scale_anchor_reads_the_kelvin_literal_only shipped
       {| in_C_me := 1; in_C_c := 2; in_C_e := 3; in_C_mec2 := 4;
          in_C_abs0 := 5; in_I_Tabs0_K := 0 |} eq_refl)))))).
Defined.

(** The sheets read the constants only through [vconst]. *)
Lemma calcs_sheet_reads (c1 c2 rows : table) :
  vconst c1 "C_me" = vconst c2 "C_me" ->
  vconst c1 "C_c" = vconst c2 "C_c" ->
  vconst c1 "C_e" = vconst c2 "C_e" ->
  calcs_sheet c1 rows = calcs_sheet c2 rows.
Proof. intros H1 H2 H3. unfold calcs_sheet. now rewrite H1, H2, H3. Qed.

Lemma instances_sheet_reads_constants (c1 c2 calcs rows : table) :
  vconst c1 "C_mec2" = vconst c2 "C_mec2" ->
  instances_sheet c1 calcs rows = instances_sheet c2 calcs rows.
Proof. intro H. unfold instances_sheet. now rewrite H. Qed.

Lemma claims_sheet_reads_constants (c1 c2 calcs inst rows : table) :
  vconst c1 "C_e" = vconst c2 "C_e" ->
  claims_sheet c1 calcs inst rows = claims_sheet c2 calcs inst rows.
Proof. intro H. unfold claims_sheet, patch_cl4. now rewrite H. Qed.

(** X5. The constant C_abs0 is read by one formula only, the dashboard cell
    B6, which displays it: inputs that differ only in the Value of C_abs0
    give the same calculations, instances and claims sheets, the same answer
    to every question and the same dashboard cells in every row but 6, where
    B6 shows the Value_SI of C_abs0 (the Value itself when it is plain). *)
Theorem absolute_zero_constant_reaches_the_dashboard_only (i j : inputs) :
  in_C_me i = in_C_me j -> in_C_c i = in_C_c j -> in_C_e i = in_C_e j ->
  in_C_mec2 i = in_C_mec2 j -> in_I_Tabs0_K i = in_I_Tabs0_K j ->
  calcs_range i = calcs_range j /\
  inst_range i = inst_range j /\
  claims_range i = claims_range j /\
  (forall q, answer (claims_range i) q = answer (claims_range j) q) /\
  filter (fun p => negb (fst p =? 6)%nat)
         (dashboard_values (const_range i) (calcs_range i) (claims_range i)) =
  filter (fun p => negb (fst p =? 6)%nat)
         (dashboard_values (const_range j) (calcs_range j) (claims_range j)) /\
  In (6%nat, dash_B6 (const_range i))
     (dashboard_values (const_range i) (calcs_range i) (claims_range i)) /\
  dash_B6 (const_range i) = vconst (const_range i) "C_abs0" /\
  (plain (in_C_abs0 i) = true -> dash_B6 (const_range i) = VNum (in_C_abs0 i)).
Proof.
  intros Hm Hc He Hr Hk.
  destruct (constants_value_si i) as [Im [Ic [Ie [Ir Ia]]]].
  destruct (constants_value_si j) as [Jm [Jc [Je [Jr _]]]].
  rewrite Hm in Im. rewrite Hc in Ic. rewrite He in Ie. rewrite Hr in Ir.
  assert (C : calcs_range i = calcs_range j).
  { unfold calcs_range. apply calcs_sheet_reads; congruence. }
  assert (R : instances_rows i = instances_rows j).
  { unfold instances_rows. now rewrite Hk. }
  assert (I : inst_range i = inst_range j).
  { unfold inst_range. rewrite C, R. apply instances_sheet_reads_constants. congruence. }
  assert (L : claims_range i = claims_range j).
  { unfold claims_range. rewrite C, I. apply claims_sheet_reads_constants. congruence. }
  assert (B6 : dash_B6 (const_range i) = vconst (const_range i) "C_abs0").
  { unfold dash_B6. rewrite Ia, to_si_affine. apply formula_arith. }
  split; [exact C|]. split; [exact I|]. split; [exact L|].
  split; [intro q; now rewrite L|].
  split.
  { unfold dashboard_values. rewrite C, L. unfold dash_B5. rewrite Ir, Jr. reflexivity. }
  split; [unfold dashboard_values; apply in_or_app; left; apply in_cons, in_cons, in_eq|].
  split; [exact B6|].
  intro P. rewrite B6, Ia. now apply to_si_identity.
Qed.

Lemma absolute_zero_constant_reaches_the_dashboard_only_witness :
  let j := {| in_C_me := in_C_me shipped; in_C_c := in_C_c shipped;
              in_C_e := in_C_e shipped; in_C_mec2 := in_C_mec2 shipped;
              in_C_abs0 := 42; in_I_Tabs0_K := in_I_Tabs0_K shipped |} in
  claims_range j = claims_range shipped /\ dash_B6 (const_range j) = VNum 42.
Proof.
  cbv zeta.
  destruct (absolute_zero_constant_reaches_the_dashboard_only
       {| in_C_me := in_C_me shipped; in_C_c := in_C_c shipped;
          in_C_e := in_C_e shipped; in_C_mec2 := in_C_mec2 shipped;
          in_C_abs0 := 42; in_I_Tabs0_K := in_I_Tabs0_K shipped |} shipped
       eq_refl eq_refl eq_refl eq_refl eq_refl) as [_ [_ [W1 [_ [_ [_ [_ W2]]]]]]].
  split; [exact W1 | apply W2; reflexivity].
Defined.

(** ** Errors *)

(** X9. An error in the Pass cell of a claim becomes the answer of every
    question that reads that claim: NOT passes it on, and OR gives the first
    error among its arguments even when another claim passes. *)
Theorem answers_propagate_errors (cr : table) (e : error) (b1 b2 : bool) :
  (vclaim_pass cr "CL1" = VErr e ->
   answer cr Q1 = VErr e /\ answer cr Q2 = VErr e /\ answer cr Q5 = VErr e) /\
  (vclaim_pass cr "CL1" = VBool b1 -> vclaim_pass cr "CL2" = VErr e ->
   answer cr Q1 = VErr e /\ answer cr Q3 = VErr e /\ answer cr Q5 = VErr e) /\
  (vclaim_pass cr "CL1" = VBool b1 -> vclaim_pass cr "CL2" = VBool b2 ->
   vclaim_pass cr "CL3" = VErr e ->
   answer cr Q1 = VErr e /\ answer cr Q4 = VErr e /\ answer cr Q5 = VErr e) /\
  (vclaim_pass cr "CL4" = VErr e -> answer cr Q0 = VErr e).
Proof.
  destruct (answer_cells cr) as [A0 [A1 [A2 [A3 [A4 A5]]]]].
  rewrite A0, A1, A2, A3, A4, A5.
  repeat split; intros;
    repeat match goal with H : vclaim_pass _ _ = _ |- _ => rewrite H; clear H end;
    reflexivity.
Qed.

Lemma answers_propagate_errors_witness :
  answer (claims_range (with_charge 0)) Q2 = VErr ErrDiv0.
Proof.
  destruct (answers_propagate_errors (claims_range (with_charge 0)) ErrDiv0 true true)
    as [W _].
  refine (proj1 (proj2 (W _))). vm_compute. reflexivity.
Defined.

Lemma range_abs_error_2 (a k : float) (e : error) :
  range_abs (VNum a) (VErr e) (VNum k) = VErr e.
Proof. reflexivity. Qed.

(** X8. With 0 typed in as the elementary charge, F_eV_to_J is 0, the
    instance I_Ecalc_eV divides by it and is #DIV/0!, and the error reaches
    the range and the pass of CL1 and the answers Q1, Q2 and Q5, while Q0
    stays TRUE. (F_Ecalc and the foot-pound instance are assumed to be
    numbers, as they are for the shipped mass and speed of light.) *)
Theorem zero_charge_is_a_division_by_zero (i : inputs) (E k : float) :
  in_C_e i = 0%float ->
  vcalc (calcs_range i) "F_Ecalc" = VNum E ->
  instance_si i "I_Ecalc_ftlbf" = VNum k ->
  vcalc (calcs_range i) "F_eV_to_J" = VNum 0 /\
  instance_si i "I_Ecalc_eV" = VErr ErrDiv0 /\
  claim_range i "CL1" = VErr ErrDiv0 /\
  claim_pass i "CL1" = VErr ErrDiv0 /\
  answer (claims_range i) Q1 = VErr ErrDiv0 /\
  answer (claims_range i) Q2 = VErr ErrDiv0 /\
  answer (claims_range i) Q5 = VErr ErrDiv0 /\
  answer (claims_range i) Q0 = VBool true.
Proof.
  intros He HE Hk.
  assert (FE : is_finite E = true).
  { unfold calcs_range in HE. rewrite (proj1 (calcs_result_si _)) in HE.
    unfold xl_mul in HE. rewrite formula_arith in HE. exact (arith_number _ _ _ _ HE). }
  assert (V : vcalc (calcs_range i) "F_eV_to_J" = VNum 0).
  { unfold calcs_range. rewrite (proj2 (calcs_result_si _)).
    rewrite (proj1 (proj2 (proj2 (constants_value_si i)))), He. reflexivity. }
  destruct (inst_range_si i) as [SJ [SV _]].
  rewrite HE in SJ, SV. rewrite V in SV. cbn [formula] in SJ.
  destruct (to_si_finite E FE) as [a Ha]. rewrite Ha in SJ.
  assert (SV' : instance_si i "I_Ecalc_eV" = VErr ErrDiv0) by (rewrite SV; reflexivity).
  destruct (claims_range_cells i) as [R1 [P1 _]]. cbv zeta in R1, P1.
  rewrite SJ, SV', Hk in R1, P1. cbn [formula] in R1, P1.
  rewrite range_abs_error_2 in R1, P1.
  assert (P1' : claim_pass i "CL1" = VErr ErrDiv0) by (rewrite P1; reflexivity).
  split; [exact V|]. split; [exact SV'|]. split; [exact R1|]. split; [exact P1'|].
  rewrite claim_pass_lookup in P1'.
  destruct (answer_cells (claims_range i)) as [A0 [A1 [A2 [_ [_ A5]]]]].
  rewrite A0, A1, A2, A5, P1'.
  repeat split.
  assert (Fe : is_finite (in_C_e i) = true) by (rewrite He; reflexivity).
  destruct (charge_value_si i Fe) as [y [H Fy]].
  destruct (cl4_lookups i y H Fy) as [_ Q].
  rewrite claim_pass_lookup in Q. rewrite Q. reflexivity.
Qed.

Lemma zero_charge_is_a_division_by_zero_witness :
  claim_pass (with_charge 0) "CL1" = VErr ErrDiv0 /\
  answer (claims_range (with_charge 0)) Q1 = VErr ErrDiv0 /\
  answer (claims_range (with_charge 0)) Q0 = VBool true.
Proof.
  destruct (zero_charge_is_a_division_by_zero (with_charge 0)
              8.1871057879684495e-14 8.1871057879684495e-14)
    as [_ [_ [_ [P [A1 [_ [_ A0]]]]]]].
  - reflexivity.
  - vm_compute. reflexivity.
  - vm_compute. reflexivity.
  - repeat split; assumption.
Defined.

(** ** Lookups find their rows *)

Lemma found_ids (key : value) (range : table) :
  found key range = existsb (lookup_match key) (map (fun r => col 1 r) range).
Proof.
  unfold found. induction range as [|r rest IH]; [reflexivity|].
  cbn [find map existsb]. destruct (lookup_match key (col 1 r)); [reflexivity | exact IH].
Qed.

Lemma vlookup_not_found (id : string) (range : table) (c : nat) :
  found (VText id) range = false -> vlookup (VText id) range c = VErr ErrNA.
Proof.
  unfold found, vlookup.
  destruct (find (fun r => lookup_match (VText id) (col 1 r)) range); [discriminate | reflexivity].
Qed.

Lemma sheet_ids (i : inputs) :
  map (fun r => col 1 r) units_range =
    [VText "U_J"; VText "U_eV"; VText "U_ftlbf"; VText "U_K"; VText "U_C";
     VText "U_kg"; VText "U_mps"; VText "U_Coul"] /\
  map (fun r => col 1 r) (const_range i) =
    [VText "C_me"; VText "C_c"; VText "C_e"; VText "C_mec2"; VText "C_abs0"] /\
  map (fun r => col 1 r) (calcs_range i) =
    [VText "F_Ecalc"; VText "F_eV_to_J"; VText "F_T_C_from_K"] /\
  map (fun r => col 1 r) (inst_range i) =
    [VText "I_Ecalc_J"; VText "I_Ecalc_eV"; VText "I_Ecalc_ftlbf";
     VText "I_Eexpected_J"; VText "I_Tabs0_K"; VText "I_Tabs0_C"] /\
  map (fun r => col 1 r) (claims_range i) =
    [VText "CL1"; VText "CL2"; VText "CL3"; VText "CL4"].
Proof.
  split; [reflexivity|].
  split; [reflexivity|].
  split.
  { unfold calcs_range. generalize (const_range i). intro consts. reflexivity. }
  split.
  { unfold inst_range. generalize (calcs_range i) (const_range i). intros calcs consts.
    reflexivity. }
  exact (proj1 (vclaim_pass_cells i)).
Qed.

(** X4. Whatever the inputs, every id that a formula of the workbook looks
    up is found in the range it is looked up in: the unit of each constant
    and instance row, the unit U_ftlbf, the constants and calculations that
    formulas name, each non-empty instance reference of a claim row, and the
    claims the questions name. Within each range no two ids match each other
    (the match ignores case), so the first matching row is the only one. *)
Theorem every_lookup_finds_its_row (i : inputs) :
  forallb (fun r => found (col 5 r) units_range) (constants_rows i) = true /\
  forallb (fun r => found (col 6 r) units_range) (instances_rows i) = true /\
  found (VText "U_ftlbf") units_range = true /\
  forallb (fun id => found (VText id) (const_range i))
          ["C_me"; "C_c"; "C_e"; "C_mec2"; "C_abs0"] = true /\
  forallb (fun id => found (VText id) (calcs_range i)) ["F_Ecalc"; "F_eV_to_J"] = true /\
  forallb (fun r => forallb (fun c => referenced_or_empty (inst_range i) (col c r)) [5; 6; 7])
          claims_rows = true /\
  forallb (fun id => found (VText id) (claims_range i)) ["CL1"; "CL2"; "CL3"; "CL4"] = true /\
  distinct_ids (map (fun r => col 1 r) units_range) = true /\
  distinct_ids (map (fun r => col 1 r) (const_range i)) = true /\
  distinct_ids (map (fun r => col 1 r) (calcs_range i)) = true /\
  distinct_ids (map (fun r => col 1 r) (inst_range i)) = true /\
  distinct_ids (map (fun r => col 1 r) (claims_range i)) = true.
Proof.
  destruct (sheet_ids i) as [U [C [F [I L]]]].
  unfold referenced_or_empty.
  repeat setoid_rewrite found_ids.
  rewrite U, C, F, I, L.
  repeat split; vm_compute; reflexivity.
Qed.

(** ** The dashboard counts *)

Lemma four_rows (cr : table) (a b c d : value) :
  map (fun r => col 1 r) cr = [a; b; c; d] ->
  exists r1 r2 r3 r4, cr = [r1; r2; r3; r4].
Proof.
  destruct cr as [|r1 [|r2 [|r3 [|r4 [|r5 rest]]]]]; try discriminate.
  intros _. now exists r1, r2, r3, r4.
Qed.

Lemma count_number_4 (n : nat) :
  (n <= 4)%nat -> VNum (count_number n) = VNum (count_number 4) -> n = 4%nat.
Proof.
  intros L E.
  do 4 (destruct n as [|n];
        [apply (f_equal (fun v => match v with
                                  | VNum x => PrimFloat.Leibniz.eqb x (count_number 4)
                                  | _ => false end)) in E;
         vm_compute in E; discriminate E|]).
  destruct n; [reflexivity | lia].
Qed.

(** The COUNTIF range is the Pass cell of each claim. *)
Lemma pass_cells (i : inputs) :
  map (fun r => col 13 r) (firstn (List.length claims_rows) (claims_range i)) =
  map (vclaim_pass (claims_range i)) ["CL1"; "CL2"; "CL3"; "CL4"].
Proof.
  destruct (vclaim_pass_cells i) as [Ids [P1 [P2 [P3 P4]]]].
  revert Ids P1 P2 P3 P4. generalize (claims_range i). intros cr Ids.
  destruct (four_rows cr _ _ _ _ Ids) as [r1 [r2 [r3 [r4 ->]]]]. clear Ids.
  intros P1 P2 P3 P4. cbn [map]. rewrite P1, P2, P3, P4. reflexivity.
Qed.

Lemma count_and_answers (cr : table) :
  let passes := map (vclaim_pass cr) ["CL1"; "CL2"; "CL3"; "CL4"] in
  let n := List.length (filter is_true passes) in
  (n <= 4)%nat /\
  (VNum (count_number n) = VNum (count_number 4) ->
   passes = [VBool true; VBool true; VBool true; VBool true] /\
   map (answer cr) all_questions =
     [VBool true; VBool true; VBool false; VBool true; VBool true; VBool true]).
Proof.
  cbv zeta. cbn [map all_questions].
  destruct (answer_cells cr) as [A0 [A1 [A2 [A3 [A4 A5]]]]].
  rewrite A0, A1, A2, A3, A4, A5. clear.
  generalize (vclaim_pass cr "CL1") (vclaim_pass cr "CL2")
             (vclaim_pass cr "CL3") (vclaim_pass cr "CL4").
  intros v1 v2 v3 v4.
  assert (L : (List.length (filter is_true [v1; v2; v3; v4]) <= 4)%nat).
  { cbn [filter]. destruct (is_true v1), (is_true v2), (is_true v3), (is_true v4); simpl; lia. }
  split; [exact L|].
  intro E. apply count_number_4 in E; [|exact L]. cbn [filter] in E.
  destruct (is_true v1) eqn:T1, (is_true v2) eqn:T2, (is_true v3) eqn:T3, (is_true v4) eqn:T4;
    try discriminate E.
  apply is_true_inv in T1, T2, T3, T4. subst. split; reflexivity.
Qed.

(** X10. The dashboard cell "Claims passing" is the number of Pass cells
    that hold TRUE, errors and FALSE not being counted; it is at most 4, the
    value of "Claims total"; and when the two cells are equal every claim
    passes and the six answers are TRUE, TRUE, FALSE, TRUE, TRUE, TRUE. *)
Theorem dashboard_counts_the_passing_claims (i : inputs) :
  let passes := map (claim_pass i) ["CL1"; "CL2"; "CL3"; "CL4"] in
  let n := List.length (filter is_true passes) in
  dash_B8 (claims_range i) = VNum (count_number n) /\
  (n <= 4)%nat /\
  dash_B9 = VNum 4 /\
  (dash_B8 (claims_range i) = dash_B9 ->
   passes = [VBool true; VBool true; VBool true; VBool true] /\
   map (answer (claims_range i)) all_questions =
     [VBool true; VBool true; VBool false; VBool true; VBool true; VBool true]).
Proof.
  cbv zeta. cbn [map]. rewrite !claim_pass_lookup.
  assert (B8 : dash_B8 (claims_range i) =
               VNum (count_number (List.length (filter is_true
                 (map (vclaim_pass (claims_range i)) ["CL1"; "CL2"; "CL3"; "CL4"]))))).
  { unfold dash_B8, xl_countif_true. now rewrite pass_cells. }
  destruct (count_and_answers (claims_range i)) as [L A]. cbn [map] in B8, L, A.
  split; [exact B8|]. split; [exact L|]. split; [reflexivity|].
  intro E. apply A. rewrite <- B8. exact E.
Qed.

Lemma dashboard_counts_the_passing_claims_witness :
  dash_B8 (claims_range shipped) = VNum 4 /\
  map (answer (claims_range shipped)) all_questions =
    [VBool true; VBool true; VBool false; VBool true; VBool true; VBool true].
Proof.
  destruct (dashboard_counts_the_passing_claims shipped) as [_ [_ [_ W]]].
  assert (E : dash_B8 (claims_range shipped) = dash_B9) by (vm_compute; reflexivity).
  split; [exact E | exact (proj2 (W E))].
Defined.

(** ** The TruthSource_Layer label *)

Lemma upper_length (s : string) : String.length (upper s) = String.length s.
Proof. induction s as [|c s IH]; [reflexivity | simpl; now rewrite IH]. Qed.

Lemma substring_0_length (n : nat) (s : string) :
  (String.length (substring 0 n s) <= String.length s)%nat.
Proof.
  revert s. induction n as [|n IH]; intros [|c s]; simpl; try lia.
  specialize (IH s). lia.
Qed.

Lemma text_eqb_length (s t : string) : text_eqb s t = true -> String.length s = String.length t.
Proof.
  unfold text_eqb. intro H. apply String.eqb_eq in H.
  rewrite <- (upper_length s), <- (upper_length t). now rewrite H.
Qed.

Lemma substring_prefix (p rest : string) :
  substring 0 (String.length p) (p ++ rest) = p.
Proof.
  induction p as [|c p IH]; simpl.
  - destruct rest; reflexivity.
  - now rewrite IH.
Qed.

Lemma substring_split (n : nat) (s : string) :
  exists rest, s = substring 0 n s ++ rest.
Proof.
  revert s. induction n as [|n IH]; intros [|c s]; simpl.
  - now exists "".
  - now exists (String c s).
  - now exists "".
  - destruct (IH s) as [rest E]. exists rest. now rewrite <- E.
Qed.

(** The label turns on one test: whether the first 11 characters of the
    claim type spell "Constructed" in any case of letters. *)
Lemma truth_source_layer_prefix (s : string) :
  (truth_source_layer s = VText "Convention/Definition" /\
   exists p rest, s = p ++ rest /\ upper p = "CONSTRUCTED") \/
  (truth_source_layer s = VText "Reality (constraint) + Convention (coordinates)" /\
   ~ exists p rest, s = p ++ rest /\ upper p = "CONSTRUCTED").
Proof.
  unfold truth_source_layer, xl_eq, compare_op, value_eqb.
  destruct (text_eqb (xl_left s 11) "Constructed") eqn:E.
  - left. split; [reflexivity|].
    destruct (substring_split 11 s) as [rest R].
    exists (substring 0 11 s), rest. split; [exact R|].
    unfold text_eqb in E. apply String.eqb_eq in E. exact E.
  - right. split; [reflexivity|].
    intros [p [rest [R U]]].
    assert (L : String.length p = 11%nat).
    { rewrite <- (upper_length p), U. reflexivity. }
    unfold xl_left in E. rewrite R, <- L, substring_prefix in E.
    unfold text_eqb in E. rewrite U in E. discriminate E.
Qed.

(** X11. The TruthSource_Layer cell of a claim is "Convention/Definition"
    exactly when the first 11 characters of its claim type spell
    "Constructed", in any case of letters, and the "Reality ..." label for
    every other claim type, in particular for every type shorter than 11
    characters; of the four shipped claims only CL4 is labelled as a
    convention.  The claim type enters no other formula of the row: the cells
    SI_1, SI_2, SI_3, Range_Abs and Pass are the same for any two types. *)
Theorem truth_source_label (inst : table)
    (cid text t1 t2 criteria id_1 id_2 id_3 rest s : string) (tol : float) :
  ((exists p rest, s = p ++ rest /\ upper p = "CONSTRUCTED") ->
   truth_source_layer s = VText "Convention/Definition") /\
  (~ (exists p rest, s = p ++ rest /\ upper p = "CONSTRUCTED") ->
   truth_source_layer s = VText "Reality (constraint) + Convention (coordinates)") /\
  truth_source_layer ("Constructed" ++ rest) = VText "Convention/Definition" /\
  truth_source_layer ("constructed" ++ rest) = VText "Convention/Definition" /\
  ((String.length s < 11)%nat ->
   truth_source_layer s = VText "Reality (constraint) + Convention (coordinates)") /\
  (truth_source_layer s = VText "Convention/Definition" \/
   truth_source_layer s = VText "Reality (constraint) + Convention (coordinates)") /\
  map truth_source_layer
      ["Reality-constrained invariant"; "Reality-constrained invariant";
       "Mixed (scale + reality)"; "Constructed (definition/convention)"] =
    [VText "Reality (constraint) + Convention (coordinates)";
     VText "Reality (constraint) + Convention (coordinates)";
     VText "Reality (constraint) + Convention (coordinates)";
     VText "Convention/Definition"] /\
  map (fun r => col 3 r) claims_rows =
    map VText ["Reality-constrained invariant"; "Reality-constrained invariant";
               "Mixed (scale + reality)"; "Constructed (definition/convention)"] /\
  (let r1 := claim_formulas inst (claim_row cid text t1 criteria id_1 id_2 id_3 tol) in
   let r2 := claim_formulas inst (claim_row cid text t2 criteria id_1 id_2 id_3 tol) in
   map (fun c => col c r1) [9; 10; 11; 12; 13] = map (fun c => col c r2) [9; 10; 11; 12; 13]).
Proof.
  split.
  { intro Ex. destruct (truth_source_layer_prefix s) as [[L _]|[_ N]]; [exact L | contradiction]. }
  split.
  { intro N. destruct (truth_source_layer_prefix s) as [[_ Ex]|[L _]]; [contradiction | exact L]. }
  split; [destruct rest; reflexivity|]. split; [destruct rest; reflexivity|].
  split.
  { intro L. unfold truth_source_layer, xl_eq, compare_op, value_eqb.
    destruct (text_eqb (xl_left s 11) "Constructed") eqn:E; [|reflexivity].
    apply text_eqb_length in E. unfold xl_left in E.
    pose proof (substring_0_length 11 s). simpl in E. lia. }
  split.
  { destruct (truth_source_layer_prefix s) as [[L _]|[L _]]; [left | right]; exact L. }
  repeat split.
Qed.

Lemma truth_source_label_witness :
  truth_source_layer "CONSTRUCTED by convention" = VText "Convention/Definition" /\
  truth_source_layer "Mixed" = VText "Reality (constraint) + Convention (coordinates)".
Proof.
  split.
  - refine (proj1 (truth_source_label [] "" "" "" "" "" "" "" "" ""
                     "CONSTRUCTED by convention" 0) _).
    exists "CONSTRUCTED", " by convention". split; reflexivity.
  - refine (proj1 (proj2 (proj2 (proj2 (proj2
              (truth_source_label [] "" "" "" "" "" "" "" "" "" "Mixed" 0))))) _).
    simpl. lia.
Defined.

(** ** The formatting helpers *)

Section FormattingFacts.
Import Formatting.
Local Open Scope Z_scope.

Lemma range_incl_In (a b x : Z) : In x (range_incl a b) <-> a <= x <= b.
Proof.
  unfold range_incl. rewrite in_map_iff. split.
  - intros [k [E H]]. apply in_seq in H. lia.
  - intros H. exists (Z.to_nat (x - a)). split; [lia|]. apply in_seq. lia.
Qed.

Lemma range_incl_empty (a b : Z) : b < a -> range_incl a b = [].
Proof.
  intros H. unfold range_incl. replace (Z.to_nat (b + 1 - a)) with 0%nat by lia. reflexivity.
Qed.

Lemma range_incl_cons (a b : Z) : a <= b -> range_incl a b = a :: range_incl (a + 1) b.
Proof.
  intros H. unfold range_incl.
  replace (Z.to_nat (b + 1 - a)) with (S (Z.to_nat (b + 1 - (a + 1)))) by lia.
  cbn [seq map]. f_equal; [lia|].
  rewrite <- seq_shift, map_map. apply map_ext. intros k. lia.
Qed.

Lemma mem_In (x : Z) (xs : list Z) : existsb (Z.eqb x) xs = true <-> In x xs.
Proof.
  rewrite existsb_exists. split.
  - intros [y [H E]]. apply Z.eqb_eq in E. now subst.
  - intros H. exists x. split; [assumption | apply Z.eqb_refl].
Qed.

Lemma grow_ge (xs : list Z) : forall m, m <= grow m xs.
Proof.
  induction xs as [|x xs IH]; intros m; cbn; [lia|].
  specialize (IH (Z.max m x)). unfold grow in IH. lia.
Qed.

Lemma grow_bound (xs : list Z) : forall m M, m <= M -> (forall x, In x xs -> x <= M) -> grow m xs <= M.
Proof.
  induction xs as [|x xs IH]; intros m M Hm H; cbn; [lia|].
  apply IH; [|intros y Hy; apply H; now right].
  specialize (H x (or_introl eq_refl)). lia.
Qed.

Lemma grow_In (xs : list Z) : forall m x, In x xs -> x <= grow m xs.
Proof.
  induction xs as [|y xs IH]; intros m x H; [destruct H|].
  destruct H as [E|H]; cbn.
  - subst. pose proof (grow_ge xs (Z.max m x)). unfold grow in *. lia.
  - now apply IH.
Qed.

Lemma grow_range (m a b : Z) : a <= b -> grow m (range_incl a b) = Z.max m b.
Proof.
  intros H. apply Z.le_antisymm.
  - apply grow_bound; [lia|]. intros x Hx. apply range_incl_In in Hx. lia.
  - pose proof (grow_ge (range_incl a b) m).
    assert (In b (range_incl a b)) as Hb by (apply range_incl_In; lia).
    pose proof (grow_In _ m _ Hb). lia.
Qed.

Lemma grow_absorb (xs : list Z) (m : Z) : grow (grow m xs) xs = grow m xs.
Proof.
  apply Z.le_antisymm; [|apply grow_ge].
  apply grow_bound; [lia|]. intros x Hx. now apply grow_In.
Qed.

Lemma header_loop (row : Z) (cs : list Z) :
  1 <= row -> (forall c, In c cs -> 1 <= c) ->
  forall ws, exists ws',
    for_each (style_header_cell row) cs ws = Some ws' /\
    (forall r c, cell_formats ws' r c =
                 if (r =? row) && existsb (Z.eqb c) cs then header_format
                 else cell_formats ws r c) /\
    (forall r, row_heights ws' r = row_heights ws r) /\
    (forall c, col_widths ws' c = col_widths ws c) /\
    max_row ws' = match cs with [] => max_row ws | _ => Z.max (max_row ws) row end /\
    max_column ws' = grow (max_column ws) cs.
Proof.
  intros Hrow. induction cs as [|c0 cs IH]; intros Hcs ws.
  - exists ws. cbn. repeat split; intros; try reflexivity.
    now rewrite andb_false_r.
  - assert (1 <= c0) as Hc0 by (apply Hcs; now left).
    cbn [for_each]. unfold style_header_cell at 1, ws_cell.
    replace (1 <=? row) with true by (symmetry; apply Z.leb_le; lia).
    replace (1 <=? c0) with true by (symmetry; apply Z.leb_le; lia).
    cbn [andb].
    match goal with |- context [for_each _ cs ?w] => destruct (IH (fun c H => Hcs c (or_intror H)) w)
      as [ws' [E [F [Hh [Hw [Hr Hc]]]]]] end.
    exists ws'. split; [exact E|]. cbn in F, Hh, Hw, Hr, Hc.
    split; [|split; [exact Hh|split; [exact Hw|split]]].
    + intros r c. rewrite F. cbn [existsb].
      destruct (r =? row); cbn [andb]; [|reflexivity].
      destruct (existsb (Z.eqb c) cs); [now rewrite orb_true_r|].
      rewrite orb_false_r. reflexivity.
    + rewrite Hr. destruct cs; lia.
    + rewrite Hc. reflexivity.
Qed.

Lemma for_each_raises_first {A S : Type} (body : A -> S -> option S) (x : A) (xs : list A) (s : S) :
  body x s = None -> for_each body (x :: xs) s = None.
Proof. intros H. cbn. now rewrite H. Qed.

Lemma data_row_loop (r : Z) (cs : list Z) :
  1 <= r -> (forall c, In c cs -> 1 <= c) ->
  forall ws, exists ws',
    for_each (style_data_cell r) cs ws = Some ws' /\
    (forall r' c, cell_formats ws' r' c =
                 if (r' =? r) && existsb (Z.eqb c) cs then data_format (cell_formats ws r' c)
                 else cell_formats ws r' c) /\
    (forall r', row_heights ws' r' = row_heights ws r') /\
    (forall c, col_widths ws' c = col_widths ws c) /\
    max_row ws' = match cs with [] => max_row ws | _ => Z.max (max_row ws) r end /\
    max_column ws' = grow (max_column ws) cs.
Proof.
  intros Hrow. induction cs as [|c0 cs IH]; intros Hcs ws.
  - exists ws. cbn. repeat split; intros; try reflexivity.
    now rewrite andb_false_r.
  - assert (1 <= c0) as Hc0 by (apply Hcs; now left).
    cbn [for_each]. unfold style_data_cell at 1, ws_cell.
    replace (1 <=? r) with true by (symmetry; apply Z.leb_le; lia).
    replace (1 <=? c0) with true by (symmetry; apply Z.leb_le; lia).
    cbn [andb].
    match goal with |- context [for_each _ cs ?w] => destruct (IH (fun c H => Hcs c (or_intror H)) w)
      as [ws' [E [F [Hh [Hw [Hr Hc]]]]]] end.
    exists ws'. split; [exact E|]. cbn in F, Hh, Hw, Hr, Hc.
    split; [|split; [exact Hh|split; [exact Hw|split]]].
    + intros r' c. rewrite F. cbn [existsb].
      destruct (Z.eqb_spec r' r) as [->|]; cbn [andb]; [|reflexivity].
      destruct (Z.eqb_spec c c0) as [->|]; cbn [orb];
        destruct (existsb (Z.eqb _) cs); reflexivity.
    + rewrite Hr. destruct cs; lia.
    + rewrite Hc. reflexivity.
Qed.

Lemma block_loop (heights : bool) (cs rs : list Z) :
  (forall r, In r rs -> 1 <= r) -> (forall c, In c cs -> 1 <= c) ->
  forall ws, exists ws',
    for_each (fun r ws => for_each (style_data_cell r) cs
                            (if heights then set_row_height ws r 18 else ws)) rs ws = Some ws' /\
    (forall r c, cell_formats ws' r c =
                 if existsb (Z.eqb r) rs && existsb (Z.eqb c) cs then data_format (cell_formats ws r c)
                 else cell_formats ws r c) /\
    (forall r, row_heights ws' r =
               if heights && existsb (Z.eqb r) rs then Some 18 else row_heights ws r) /\
    (forall c, col_widths ws' c = col_widths ws c) /\
    max_row ws' = match cs with [] => max_row ws | _ => grow (max_row ws) rs end /\
    max_column ws' = match rs with [] => max_column ws | _ => grow (max_column ws) cs end.
Proof.
  intros Hrs Hcs. induction rs as [|r0 rs IH]; intros ws.
  - exists ws. cbn. repeat split; intros; try reflexivity.
    + now rewrite andb_false_r.
    + now destruct cs.
  - assert (1 <= r0) as Hr0 by (apply Hrs; now left).
    cbn [for_each].
    destruct (data_row_loop r0 cs Hr0 Hcs (if heights then set_row_height ws r0 18 else ws))
      as [w1 [E1 [F1 [Hh1 [Hw1 [Hr1 Hc1]]]]]].
    rewrite E1.
    destruct (IH (fun r H => Hrs r (or_intror H)) w1) as [ws' [E [F [Hh [Hw [Hr Hc]]]]]].
    exists ws'. split; [exact E|].
    split; [|split; [|split; [|split]]].
    + intros r c. rewrite F, F1. cbn [existsb].
      destruct heights; cbn [cell_formats set_row_height];
        destruct (r =? r0); destruct (existsb (Z.eqb r) rs); destruct (existsb (Z.eqb c) cs);
        reflexivity.
    + intros r. rewrite Hh, Hh1. cbn [existsb].
      destruct heights; cbn [row_heights set_row_height andb];
        destruct (r =? r0); destruct (existsb (Z.eqb r) rs); reflexivity.
    + intros c. rewrite Hw, Hw1. now destruct heights.
    + rewrite Hr, Hr1. destruct heights; destruct cs; reflexivity.
    + rewrite Hc, Hc1. destruct heights; cbn [max_column set_row_height];
        (destruct rs; [reflexivity|]; apply grow_absorb).
Qed.

Lemma mem_range (x a b : Z) : existsb (Z.eqb x) (range_incl a b) = (a <=? x) && (x <=? b).
Proof.
  destruct (existsb (Z.eqb x) (range_incl a b)) eqn:E.
  - apply mem_In, range_incl_In in E. symmetry. apply andb_true_iff. split; apply Z.leb_le; lia.
  - symmetry. apply not_true_is_false. intros H. apply andb_true_iff in H as [H1 H2].
    apply Z.leb_le in H1, H2.
    assert (existsb (Z.eqb x) (range_incl a b) = true) by (apply mem_In, range_incl_In; lia).
    congruence.
Qed.


Lemma col_width_loop (widths : list float) :
  forall (k : nat) (ws : worksheet),
    (1 <= k)%nat -> Z.of_nat k + Z.of_nat (List.length widths) <= 18279 ->
    exists ws',
      for_each (fun iw ws =>
                  if get_column_letter_ok (fst iw)
                  then Some (set_col_width ws (fst iw) (snd iw))
                  else None)
               (combine (map Z.of_nat (seq k (List.length widths))) widths) ws = Some ws' /\
      (forall c, col_widths ws' c =
                 if (Z.of_nat k <=? c) && (c <? Z.of_nat k + Z.of_nat (List.length widths))
                 then Some (nth (Z.to_nat (c - Z.of_nat k)) widths 0%float)
                 else col_widths ws c) /\
      (forall r c, cell_formats ws' r c = cell_formats ws r c) /\
      (forall r, row_heights ws' r = row_heights ws r) /\
      max_row ws' = max_row ws /\ max_column ws' = max_column ws.
Proof.
  induction widths as [|w widths IH]; intros k ws Hk Hlen.
  - exists ws. cbn. repeat split; intros; try reflexivity.
    replace (c <? Z.of_nat k + 0) with (c <? Z.of_nat k) by (f_equal; lia).
    destruct (Z.leb_spec (Z.of_nat k) c), (Z.ltb_spec c (Z.of_nat k)); try reflexivity; lia.
  - cbn [List.length seq map combine for_each fst snd].
    cbn [List.length] in Hlen.
    unfold get_column_letter_ok at 1.
    replace (1 <=? Z.of_nat k) with true by (symmetry; apply Z.leb_le; lia).
    replace (Z.of_nat k <=? 18278) with true by (symmetry; apply Z.leb_le; lia).
    cbn [andb].
    destruct (IH (S k) (set_col_width ws (Z.of_nat k) w)) as [ws' [E [F [Hf [Hh [Hr Hc]]]]]];
      [lia | lia |].
    exists ws'. split; [exact E|].
    cbn [set_col_width col_widths cell_formats row_heights max_row max_column] in F, Hf, Hh, Hr, Hc.
    split; [|repeat split; assumption].
    intros c. rewrite F.
    destruct (Z.leb_spec (Z.of_nat (S k)) c), (Z.ltb_spec c (Z.of_nat (S k) + Z.of_nat (List.length widths))),
      (Z.eqb_spec c (Z.of_nat k)), (Z.leb_spec (Z.of_nat k) c),
      (Z.ltb_spec c (Z.of_nat k + Z.of_nat (S (List.length widths)))); cbn [andb]; try lia; try reflexivity.
    + replace (Z.to_nat (c - Z.of_nat k)) with (S (Z.to_nat (c - Z.of_nat (S k)))) by lia.
      reflexivity.
    + subst c. replace (Z.to_nat (Z.of_nat k - Z.of_nat k)) with 0%nat by lia. reflexivity.
Qed.

Lemma col_width_loop_raises (widths : list float) :
  forall (k : nat) (ws : worksheet),
    (1 <= k)%nat -> Z.of_nat k <= 18279 -> 18279 < Z.of_nat k + Z.of_nat (List.length widths) ->
    for_each (fun iw ws =>
                if get_column_letter_ok (fst iw)
                then Some (set_col_width ws (fst iw) (snd iw))
                else None)
             (combine (map Z.of_nat (seq k (List.length widths))) widths) ws = None.
Proof.
  induction widths as [|w widths IH]; intros k ws Hk Hk' Hlen.
  - cbn in Hlen. lia.
  - cbn [List.length seq map combine for_each fst snd].
    cbn [List.length] in Hlen.
    unfold get_column_letter_ok at 1.
    destruct (Z.leb_spec (Z.of_nat k) 18278).
    + replace (1 <=? Z.of_nat k) with true by (symmetry; apply Z.leb_le; lia).
      cbn [andb]. apply IH; lia.
    + now rewrite andb_false_r.
Qed.

(** X13. [set_col_widths] gives column [k] the [k]-th width of the list
    (counting from 1) and leaves every other column width, every cell format,
    every row height and the extent of the sheet as they were; a list longer
    than 18278 widths raises, as there is no column letter beyond ZZZ. *)
Theorem set_col_widths_assigns (ws : worksheet) (widths : list float) :
  (Z.of_nat (List.length widths) <= 18278 ->
   exists ws',
     set_col_widths ws widths = Some ws' /\
     (forall c, col_widths ws' c =
                if (1 <=? c) && (c <=? Z.of_nat (List.length widths))
                then Some (nth (Z.to_nat (c - 1)) widths 0%float)
                else col_widths ws c) /\
     (forall r c, cell_formats ws' r c = cell_formats ws r c) /\
     (forall r, row_heights ws' r = row_heights ws r) /\
     max_row ws' = max_row ws /\ max_column ws' = max_column ws) /\
  (18278 < Z.of_nat (List.length widths) -> set_col_widths ws widths = None).
Proof.
  split.
  - intros H. destruct (col_width_loop widths 1 ws) as [ws' [E [F R]]]; [lia | lia |].
    exists ws'. split; [exact E|]. split; [|exact R].
    intros c. rewrite F. change (Z.of_nat 1) with 1.
    replace (c <? 1 + Z.of_nat (List.length widths)) with (c <=? Z.of_nat (List.length widths)); [reflexivity|].
    destruct (Z.leb_spec c (Z.of_nat (List.length widths))), (Z.ltb_spec c (1 + Z.of_nat (List.length widths)));
      try reflexivity; lia.
  - intros H. apply (col_width_loop_raises widths 1 ws); lia.
Qed.

Lemma set_col_widths_assigns_witness :
  exists ws',
    set_col_widths create_sheet [18; 18; 12; 12; 70]%float = Some ws' /\
    col_widths ws' 5 = Some 70%float /\ col_widths ws' 6 = None.
Proof.
  destruct (set_col_widths_assigns create_sheet [18; 18; 12; 12; 70]%float) as [H _].
  destruct (H ltac:(cbn; lia)) as [ws' [E [F _]]].
  exists ws'. split; [exact E|]. rewrite !F. split; reflexivity.
Defined.

Lemma header_row_cells (ws : worksheet) (row n : Z) :
  1 <= row ->
  exists ws',
    for_each (style_header_cell row) (range_incl 1 n) (set_row_height ws row 22) = Some ws' /\
    (forall r c, cell_formats ws' r c =
                 if (r =? row) && ((1 <=? c) && (c <=? n)) then header_format
                 else cell_formats ws r c) /\
    (forall r, row_heights ws' r = if r =? row then Some 22 else row_heights ws r) /\
    (forall c, col_widths ws' c = col_widths ws c) /\
    max_row ws' = (if 1 <=? n then Z.max (max_row ws) row else max_row ws) /\
    max_column ws' = (if 1 <=? n then Z.max (max_column ws) n else max_column ws).
Proof.
  intros Hrow.
  destruct (header_loop row (range_incl 1 n) Hrow
              (fun c H => proj1 (proj1 (range_incl_In 1 n c) H)) (set_row_height ws row 22))
    as [ws' [E [F [Hh [Hw [Hr Hc]]]]]].
  exists ws'. split; [exact E|]. cbn in F, Hh, Hw, Hr, Hc.
  split; [|split; [exact Hh|split; [exact Hw|split]]].
  - intros r c. rewrite F, mem_range. reflexivity.
  - rewrite Hr. destruct (Z.leb_spec 1 n).
    + rewrite range_incl_cons by assumption. reflexivity.
    + rewrite range_incl_empty by lia. reflexivity.
  - rewrite Hc. destruct (Z.leb_spec 1 n).
    + now apply grow_range.
    + rewrite range_incl_empty by lia. reflexivity.
Qed.

(** X14. [style_header_row] on a row [row >= 1] sets the height of that
    row to 22 and gives exactly the cells of columns 1 to [max_col] of that
    row the header format (fill, font, centring, border), [max_col] being the
    sheet's last column when it is not given; the sheet grows to include these
    cells. On a row below 1 it raises as soon as there is a column to style,
    and with no column to style it only sets the row height. *)
Theorem header_row_styling (ws : worksheet) (row : Z) (max_col : option Z) :
  let n := match max_col with None => max_column ws | Some m => m end in
  (1 <= row ->
   exists ws',
     style_header_row ws row max_col = Some ws' /\
     (forall r c, cell_formats ws' r c =
                  if (r =? row) && ((1 <=? c) && (c <=? n)) then header_format
                  else cell_formats ws r c) /\
     (forall r, row_heights ws' r = if r =? row then Some 22 else row_heights ws r) /\
     (forall c, col_widths ws' c = col_widths ws c) /\
     max_row ws' = (if 1 <=? n then Z.max (max_row ws) row else max_row ws) /\
     max_column ws' = (if 1 <=? n then Z.max (max_column ws) n else max_column ws)) /\
  (row < 1 -> 1 <= n -> style_header_row ws row max_col = None) /\
  (n < 1 -> style_header_row ws row max_col = Some (set_row_height ws row 22)).
Proof.
  intros n. split; [|split].
  - intros Hrow. unfold style_header_row. fold n. now apply header_row_cells.
  - intros Hrow Hn. unfold style_header_row. fold n.
    rewrite range_incl_cons by assumption. apply for_each_raises_first.
    unfold style_header_cell, ws_cell.
    replace (1 <=? row) with false by (symmetry; apply Z.leb_gt; lia). reflexivity.
  - intros Hn. unfold style_header_row. fold n.
    rewrite range_incl_empty by lia. reflexivity.
Qed.

Lemma header_row_styling_witness :
  (exists ws',
     style_header_row create_sheet 1 (Some 5) = Some ws' /\
     cell_formats ws' 1 5 = header_format /\
     cell_formats ws' 1 6 = cell_formats create_sheet 1 6 /\
     max_column ws' = 5) /\
  style_header_row create_sheet 0 (Some 5) = None /\
  style_header_row create_sheet 0 (Some 0) = Some (set_row_height create_sheet 0 22).
Proof.
  destruct (header_row_styling create_sheet 1 (Some 5)) as [H _].
  destruct (H ltac:(lia)) as [ws' [E [F [_ [_ [_ Hc]]]]]].
  split; [|split].
  - exists ws'. split; [exact E|]. rewrite !F, Hc. repeat split.
  - apply (header_row_styling create_sheet 0 (Some 5)); lia.
  - apply (header_row_styling create_sheet 0 (Some 0)); lia.
Defined.

Lemma data_range_cells (ws : worksheet) (start_row end_row start_col end_col : Z) :
  1 <= start_row -> 1 <= start_col ->
  exists ws',
    style_data_range ws start_row end_row start_col end_col = Some ws' /\
    (forall r c, cell_formats ws' r c =
                 if ((start_row <=? r) && (r <=? end_row)) && ((start_col <=? c) && (c <=? end_col))
                 then {| fill := fill (cell_formats ws r c);
                         font := font (cell_formats ws r c);
                         alignment := WRAP;
                         border := BORDER |}
                 else cell_formats ws r c) /\
    (forall r, row_heights ws' r =
               if (start_row <=? r) && (r <=? end_row) then Some 18 else row_heights ws r) /\
    (forall c, col_widths ws' c = col_widths ws c) /\
    max_row ws' = (if (start_row <=? end_row) && (start_col <=? end_col)
                   then Z.max (max_row ws) end_row else max_row ws) /\
    max_column ws' = (if (start_row <=? end_row) && (start_col <=? end_col)
                      then Z.max (max_column ws) end_col else max_column ws).
Proof.
  intros Hr0 Hc0. unfold style_data_range.
  destruct (block_loop true (range_incl start_col end_col) (range_incl start_row end_row)
              (fun r H => Z.le_trans _ _ _ Hr0 (proj1 (proj1 (range_incl_In _ _ r) H)))
              (fun c H => Z.le_trans _ _ _ Hc0 (proj1 (proj1 (range_incl_In _ _ c) H))) ws)
    as [ws' [E [F [Hh [Hw [Hr Hc]]]]]].
  exists ws'. split; [exact E|].
  split; [|split; [|split; [exact Hw|split]]].
  - intros r c. rewrite F, !mem_range. reflexivity.
  - intros r. rewrite Hh, mem_range. reflexivity.
  - rewrite Hr. destruct (Z.leb_spec start_col end_col).
    + rewrite (range_incl_cons start_col) by assumption.
      destruct (Z.leb_spec start_row end_row); cbn [andb].
      * now apply grow_range.
      * rewrite range_incl_empty by lia. reflexivity.
    + rewrite (range_incl_empty start_col) by lia. now rewrite andb_false_r.
  - rewrite Hc. destruct (Z.leb_spec start_row end_row); cbn [andb].
    + rewrite (range_incl_cons start_row) by assumption.
      destruct (Z.leb_spec start_col end_col).
      * now apply grow_range.
      * rewrite range_incl_empty by lia. reflexivity.
    + rewrite (range_incl_empty start_row) by lia. reflexivity.
Qed.

(** X15. [style_data_range] on a range that starts at row and column 1 or
    later gives every cell of the rectangle the thin border and wrapped
    alignment while keeping its fill and font, sets the height of each row of
    the range to 18 (even when the range has no column), leaves everything
    outside untouched, and grows the sheet to the rectangle. A non-empty
    rectangle that starts below row 1 or column 1 raises. *)
Theorem data_range_styling (ws : worksheet) (start_row end_row start_col end_col : Z) :
  (1 <= start_row -> 1 <= start_col ->
   exists ws',
     style_data_range ws start_row end_row start_col end_col = Some ws' /\
     (forall r c, cell_formats ws' r c =
                  if ((start_row <=? r) && (r <=? end_row)) && ((start_col <=? c) && (c <=? end_col))
                  then {| fill := fill (cell_formats ws r c);
                          font := font (cell_formats ws r c);
                          alignment := WRAP;
                          border := BORDER |}
                  else cell_formats ws r c) /\
     (forall r, row_heights ws' r =
                if (start_row <=? r) && (r <=? end_row) then Some 18 else row_heights ws r) /\
     (forall c, col_widths ws' c = col_widths ws c) /\
     max_row ws' = (if (start_row <=? end_row) && (start_col <=? end_col)
                    then Z.max (max_row ws) end_row else max_row ws) /\
     max_column ws' = (if (start_row <=? end_row) && (start_col <=? end_col)
                       then Z.max (max_column ws) end_col else max_column ws)) /\
  (start_row <= end_row -> start_col <= end_col -> start_row < 1 \/ start_col < 1 ->
   style_data_range ws start_row end_row start_col end_col = None).
Proof.
  split.
  - apply data_range_cells.
  - intros Hr Hc H. unfold style_data_range.
    rewrite (range_incl_cons start_row) by assumption. apply for_each_raises_first.
    unfold style_data_row. rewrite (range_incl_cons start_col) by assumption.
    apply for_each_raises_first. unfold style_data_cell, ws_cell.
    destruct H.
    + replace (1 <=? start_row) with false by (symmetry; apply Z.leb_gt; lia). reflexivity.
    + replace (1 <=? start_col) with false by (symmetry; apply Z.leb_gt; lia).
      now rewrite andb_false_r.
Qed.

Lemma data_range_styling_witness :
  (exists ws',
     style_data_range (set_format create_sheet 2 4 header_format) 2 6 1 5 = Some ws' /\
     cell_formats ws' 2 4 =
       {| fill := HEADER_FILL; font := HEADER_FONT; alignment := WRAP; border := BORDER |} /\
     row_heights ws' 6 = Some 18 /\ row_heights ws' 1 = None /\
     max_row ws' = 6) /\
  style_data_range create_sheet 2 6 0 5 = None.
Proof.
  destruct (data_range_styling (set_format create_sheet 2 4 header_format) 2 6 1 5) as [H _].
  destruct (H ltac:(lia) ltac:(lia)) as [ws' [E [F [Hh [_ [Hr _]]]]]].
  split.
  - exists ws'. split; [exact E|]. rewrite F, !Hh, Hr. repeat split.
  - apply (data_range_styling create_sheet 2 6 0 5); lia.
Defined.

(** X16. The two styling calls each data sheet gets, header row first and
    data rows 2 to [ws.max_row] second, do not interfere: row 1 keeps the
    header format in columns 1 to [n_headers], the data rows get border and
    wrapping with their fill and font kept, the heights are 22 and 18, and
    the number of rows of the sheet stays what it was. *)
Theorem sheet_styling (ws : worksheet) (n_headers : Z) :
  1 <= max_row ws ->
  exists ws',
    style_sheet ws n_headers = Some ws' /\
    (forall r c, cell_formats ws' r c =
                 if (1 <=? c) && (c <=? n_headers) then
                   if r =? 1 then header_format
                   else if (2 <=? r) && (r <=? max_row ws) then
                     {| fill := fill (cell_formats ws r c);
                        font := font (cell_formats ws r c);
                        alignment := WRAP;
                        border := BORDER |}
                   else cell_formats ws r c
                 else cell_formats ws r c) /\
    (forall r, row_heights ws' r =
               if r =? 1 then Some 22
               else if (2 <=? r) && (r <=? max_row ws) then Some 18
               else row_heights ws r) /\
    (forall c, col_widths ws' c = col_widths ws c) /\
    max_row ws' = max_row ws /\
    max_column ws' = (if 1 <=? n_headers then Z.max (max_column ws) n_headers else max_column ws).
Proof.
  intros Hm. unfold style_sheet, style_header_row.
  destruct (header_row_cells ws 1 n_headers ltac:(lia)) as [w1 [E1 [F1 [Hh1 [Hw1 [Hr1 Hc1]]]]]].
  rewrite E1.
  assert (max_row w1 = max_row ws) as Em.
  { rewrite Hr1. destruct (1 <=? n_headers); lia. }
  rewrite Em.
  destruct (data_range_cells w1 2 (max_row ws) 1 n_headers ltac:(lia) ltac:(lia))
    as [ws' [E [F [Hh [Hw [Hr Hc]]]]]].
  exists ws'. split; [exact E|].
  split; [|split; [|split; [|split]]].
  - intros r c. rewrite F, !F1.
    destruct (Z.eqb_spec r 1) as [->|]; cbn [andb].
    + destruct ((1 <=? c) && (c <=? n_headers)); reflexivity.
    + destruct ((2 <=? r) && (r <=? max_row ws)), ((1 <=? c) && (c <=? n_headers)); reflexivity.
  - intros r. rewrite Hh, Hh1.
    destruct (Z.eqb_spec r 1) as [->|]; [reflexivity|].
    destruct ((2 <=? r) && (r <=? max_row ws)); reflexivity.
  - intros c. now rewrite Hw, Hw1.
  - rewrite Hr, Em.
    destruct ((2 <=? max_row ws) && (1 <=? n_headers)); lia.
  - rewrite Hc, Hc1.
    destruct (Z.leb_spec 1 n_headers), (Z.leb_spec 2 (max_row ws)); cbn [andb]; lia.
Qed.


Lemma sheet_styling_witness :
  let ws := {| cell_formats := cell_formats create_sheet;
               row_heights := row_heights create_sheet;
               col_widths := col_widths create_sheet;
               max_row := 9;
               max_column := 7 |} in
  exists ws',
    style_sheet ws 7 = Some ws' /\
    cell_formats ws' 1 7 = header_format /\
    alignment (cell_formats ws' 9 7) = WRAP /\
    row_heights ws' 9 = Some 18 /\
    max_row ws' = 9.
Proof.
  cbv zeta.
  destruct (sheet_styling {| cell_formats := cell_formats create_sheet;
                             row_heights := row_heights create_sheet;
                             col_widths := col_widths create_sheet;
                             max_row := 9;
                             max_column := 7 |} 7) as [ws' [E [F [Hh [_ [Hr _]]]]]].
  - simpl. lia.
  - exists ws'. split; [exact E|]. rewrite !F, Hh, Hr. repeat split.
Defined.

(** *** The dashboard *)

Lemma for_each_map {A B S : Type} (f : A -> B) (body : B -> S -> option S) (xs : list A) :
  forall s, for_each (fun x => body (f x)) xs s = for_each body (map f xs) s.
Proof.
  induction xs as [|x xs IH]; intros s; [reflexivity|].
  cbn. destruct (body (f x) s); [apply IH | reflexivity].
Qed.

Lemma range_incl_shift (k a b : Z) :
  map (fun x => k + x) (range_incl a b) = range_incl (k + a) (k + b).
Proof.
  unfold range_incl. rewrite map_map.
  assert (E : Z.to_nat (k + b + 1 - (k + a)) = Z.to_nat (b + 1 - a)) by (f_equal; lia).
  rewrite E. apply map_ext. intros n. lia.
Qed.

Lemma ws_cell_spec (ws : worksheet) (r c : Z) :
  1 <= r -> 1 <= c ->
  exists ws',
    ws_cell ws r c = Some ws' /\
    (forall r' c', cell_formats ws' r' c' = cell_formats ws r' c') /\
    (forall r', row_heights ws' r' = row_heights ws r') /\
    (forall c', col_widths ws' c' = col_widths ws c') /\
    max_row ws' = Z.max (max_row ws) r /\
    max_column ws' = Z.max (max_column ws) c.
Proof.
  intros Hr Hc. unfold ws_cell.
  replace (1 <=? r) with true by (symmetry; apply Z.leb_le; lia).
  replace (1 <=? c) with true by (symmetry; apply Z.leb_le; lia).
  eexists. split; [reflexivity|]. repeat split.
Qed.

Lemma set_font_spec (ws : worksheet) (r c : Z) (f : font_style) :
  1 <= r -> 1 <= c ->
  exists ws',
    set_font ws r c f = Some ws' /\
    (forall r' c', cell_formats ws' r' c' =
                   if (r' =? r) && (c' =? c)
                   then {| fill := fill (cell_formats ws r' c');
                           font := f;
                           alignment := alignment (cell_formats ws r' c');
                           border := border (cell_formats ws r' c') |}
                   else cell_formats ws r' c') /\
    (forall r', row_heights ws' r' = row_heights ws r') /\
    (forall c', col_widths ws' c' = col_widths ws c') /\
    max_row ws' = Z.max (max_row ws) r /\
    max_column ws' = Z.max (max_column ws) c.
Proof.
  intros Hr Hc. unfold set_font, ws_cell.
  replace (1 <=? r) with true by (symmetry; apply Z.leb_le; lia).
  replace (1 <=? c) with true by (symmetry; apply Z.leb_le; lia).
  eexists. split; [reflexivity|].
  split; [|repeat split].
  intros r' c'. cbn [cell_formats set_format].
  destruct (Z.eqb_spec r' r) as [->|]; [|reflexivity].
  destruct (Z.eqb_spec c' c) as [->|]; reflexivity.
Qed.

Lemma bind_eq {A B : Type} (m : option A) (a : A) (k : A -> option B) :
  m = Some a -> bind m k = k a.
Proof. intros ->. reflexivity. Qed.

Ltac head_step :=
  match goal with
  | |- context [set_font ?ws ?r ?c ?f] =>
      let E := fresh "E" in
      destruct (set_font_spec ws r c f ltac:(clear; lia) ltac:(clear; lia))
        as [? [E [? [? [? [? ?]]]]]];
      first [rewrite (bind_eq _ _ _ E) | rewrite E]; clear E
  | |- context [ws_cell ?ws ?r ?c] =>
      let E := fresh "E" in
      destruct (ws_cell_spec ws r c ltac:(clear; lia) ltac:(clear; lia))
        as [? [E [? [? [? [? ?]]]]]];
      first [rewrite (bind_eq _ _ _ E) | rewrite E]; clear E
  end.

Ltac rewrite_back :=
  repeat match goal with
         | F : forall r c, cell_formats ?w r c = _ |- context [cell_formats ?w _ _] => rewrite !F
         | F : forall r, row_heights ?w r = _ |- context [row_heights ?w _] => rewrite !F
         | F : forall c, col_widths ?w c = _ |- context [col_widths ?w _] => rewrite !F
         | F : max_row ?w = _ |- context [max_row ?w] => rewrite !F
         | F : max_column ?w = _ |- context [max_column ?w] => rewrite !F
         end.

Lemma dashboard_head_cells :
  exists ws,
    dashboard_head = Some ws /\
    (forall r c, cell_formats ws r c =
       {| fill := NoFill;
          font := if (r =? 1) && (c =? 1) then BoldFont16
                  else if ((r =? 3) || (r =? 8) || (r =? 11)) && (c =? 1) then BoldFont
                  else DefaultFont;
          alignment := DefaultAlignment;
          border := NoBorder |}) /\
    (forall r, row_heights ws r = None) /\
    (forall c, col_widths ws c = None) /\
    max_row ws = 11 /\ max_column ws = 2.
Proof.
  unfold dashboard_head.
  head_step.
  do 16 head_step.
  eexists. split; [reflexivity|].
  split; [|split; [|split; [|split]]].
  - intros r c. rewrite_back. cbn [cell_formats create_sheet fill font alignment border].
    destruct (Z.eqb_spec r 11), (Z.eqb_spec r 8), (Z.eqb_spec r 3), (Z.eqb_spec r 1);
      try (exfalso; congruence); destruct (c =? 1); reflexivity.
  - intros r. rewrite_back. reflexivity.
  - intros c. rewrite_back. reflexivity.
  - rewrite_back. reflexivity.
  - rewrite_back. reflexivity.
Qed.

Lemma question_loop (rs : list Z) :
  (forall r, In r rs -> 1 <= r) ->
  forall ws, exists ws',
    for_each (fun r ws => ws <- ws_cell ws r 1;; ws <- ws_cell ws r 2;; set_alignment ws r 2 CENTER)
             rs ws = Some ws' /\
    (forall r c, cell_formats ws' r c =
                 if existsb (Z.eqb r) rs && (c =? 2) then centred (cell_formats ws r c)
                 else cell_formats ws r c) /\
    (forall r, row_heights ws' r = row_heights ws r) /\
    (forall c, col_widths ws' c = col_widths ws c) /\
    max_row ws' = grow (max_row ws) rs /\
    max_column ws' = match rs with [] => max_column ws | _ => Z.max (max_column ws) 2 end.
Proof.
  induction rs as [|r0 rs IH]; intros Hrs ws.
  - exists ws. cbn. repeat split; intros; reflexivity.
  - assert (1 <= r0) as Hr0 by (apply Hrs; now left).
    cbn [for_each]. unfold set_alignment, ws_cell.
    replace (1 <=? r0) with true by (symmetry; apply Z.leb_le; lia).
    cbn [andb Z.leb Z.compare Pos.compare Pos.compare_cont bind
         cell_formats row_heights col_widths max_row max_column].
    match goal with |- context [for_each _ rs ?w] =>
      destruct (IH (fun r H => Hrs r (or_intror H)) w) as [ws' [E [F [Hh [Hw [Hr Hc]]]]]] end.
    exists ws'. split; [exact E|].
    cbn [set_format cell_formats row_heights col_widths max_row max_column] in F, Hh, Hw, Hr, Hc.
    split; [|split; [exact Hh|split; [exact Hw|split]]].
    + intros r c. rewrite F. cbn [existsb].
      destruct (Z.eqb_spec r r0) as [->|]; cbn [andb orb];
        destruct (existsb (Z.eqb _) rs); destruct (Z.eqb_spec c 2) as [->|]; reflexivity.
    + rewrite Hr. unfold grow. cbn [fold_left]. f_equal. lia.
    + rewrite Hc. destruct rs; lia.
Qed.

Lemma touch_loop (c0 : Z) (rs : list Z) :
  1 <= c0 -> (forall r, In r rs -> 1 <= r) ->
  forall ws, exists ws',
    for_each (fun r ws => ws_cell ws r c0) rs ws = Some ws' /\
    (forall r c, cell_formats ws' r c = cell_formats ws r c) /\
    (forall r, row_heights ws' r = row_heights ws r) /\
    (forall c, col_widths ws' c = col_widths ws c) /\
    max_row ws' = grow (max_row ws) rs /\
    max_column ws' = match rs with [] => max_column ws | _ => Z.max (max_column ws) c0 end.
Proof.
  intros Hc0. induction rs as [|r0 rs IH]; intros Hrs ws.
  - exists ws. cbn. repeat split; intros; reflexivity.
  - assert (1 <= r0) as Hr0 by (apply Hrs; now left).
    cbn [for_each]. unfold ws_cell at 1.
    replace (1 <=? r0) with true by (symmetry; apply Z.leb_le; lia).
    replace (1 <=? c0) with true by (symmetry; apply Z.leb_le; lia).
    cbn [andb].
    match goal with |- context [for_each _ rs ?w] =>
      destruct (IH (fun r H => Hrs r (or_intror H)) w) as [ws' [E [F [Hh [Hw [Hr Hc]]]]]] end.
    exists ws'. split; [exact E|].
    cbn [cell_formats row_heights col_widths max_row max_column] in F, Hh, Hw, Hr, Hc.
    split; [exact F|split; [exact Hh|split; [exact Hw|split]]].
    + rewrite Hr. reflexivity.
    + rewrite Hc. destruct rs; lia.
Qed.


Lemma grow_range_le (m a b : Z) :
  grow m (range_incl a b) = if a <=? b then Z.max m b else m.
Proof.
  destruct (Z.leb_spec a b).
  - now apply grow_range.
  - rewrite range_incl_empty by lia. reflexivity.
Qed.

(** The dashboard, stage by stage. *)
Lemma dashboard_format_stages (n_questions : Z) :
  dashboard_format n_questions =
    (ws <- dashboard_head;;
     ws <- for_each dashboard_question (range_incl 0 (n_questions - 1)) ws;;
     ws <- set_col_widths ws [70; 18; 18; 18]%float;;
     ws <- for_each (fun r ws => ws_cell ws r 2) (range_incl 4 6) ws;;
     ws <- border_block 4 9 1 2 ws;;
     border_block 12 (12 + n_questions - 1) 1 2 ws).
Proof. reflexivity. Qed.

Ltac split_tests :=
  repeat match goal with
         | |- context [Z.eqb ?a ?b] => destruct (Z.eqb_spec a b); try (exfalso; lia)
         | |- context [Z.leb ?a ?b] => destruct (Z.leb_spec a b); try (exfalso; lia)
         end.

(** X17. On the dashboard of a workbook with [n_questions] questions the
    centring given to each answer cell B12, B13, ... is overwritten by the
    border-and-wrap pass that follows: in the end no cell of the sheet is
    centred. The framed cells are columns A and B of rows 4 to 9 and of the
    question rows, the bold fonts stay on A1, A3, A8 and A11, no row height
    is set, columns A to D have widths 70, 18, 18, 18, and the sheet has
    11 + [n_questions] rows and 2 columns. *)
Theorem dashboard_centring_is_overwritten (n_questions : Z) :
  0 <= n_questions ->
  exists ws,
    dashboard_format n_questions = Some ws /\
    (forall r c,
       let framed := (((4 <=? r) && (r <=? 9)) || ((12 <=? r) && (r <=? 11 + n_questions)))
                     && ((1 <=? c) && (c <=? 2)) in
       cell_formats ws r c =
         {| fill := NoFill;
            font := if (r =? 1) && (c =? 1) then BoldFont16
                    else if ((r =? 3) || (r =? 8) || (r =? 11)) && (c =? 1) then BoldFont
                    else DefaultFont;
            alignment := if framed then WRAP else DefaultAlignment;
            border := if framed then BORDER else NoBorder |}) /\
    (forall r c, alignment (cell_formats ws r c) <> CENTER) /\
    (forall r, row_heights ws r = None) /\
    (forall c, col_widths ws c =
               if c =? 1 then Some 70%float
               else if (2 <=? c) && (c <=? 4) then Some 18%float
               else None) /\
    max_row ws = 11 + n_questions /\
    max_column ws = 2.
Proof.
  intros Hn. rewrite dashboard_format_stages.
  destruct dashboard_head_cells as [w0 [E0 [F0 [H0 [W0 [R0 C0]]]]]].
  rewrite (bind_eq _ _ _ E0).
  change (for_each dashboard_question)
    with (for_each (fun idx => (fun r ws => ws <- ws_cell ws r 1;; ws <- ws_cell ws r 2;;
                                           set_alignment ws r 2 CENTER) (12 + idx))).
  rewrite for_each_map, range_incl_shift.
  destruct (question_loop (range_incl (12 + 0) (12 + (n_questions - 1)))
              (fun r H => Z.le_trans 1 (12 + 0) r ltac:(lia) (proj1 (proj1 (range_incl_In _ _ r) H))) w0)
    as [w1 [E1 [F1 [H1 [W1 [R1 C1]]]]]].
  rewrite (bind_eq _ _ _ E1).
  destruct (col_width_loop [70; 18; 18; 18]%float 1 w1 ltac:(lia) ltac:(cbn; lia))
    as [w2 [E2 [W2 [F2 [H2 [R2 C2]]]]]].
  rewrite (bind_eq _ _ _ E2).
  destruct (touch_loop 2 (range_incl 4 6) ltac:(lia)
              (fun r H => Z.le_trans 1 4 r ltac:(lia) (proj1 (proj1 (range_incl_In _ _ r) H))) w2)
    as [w3 [E3 [F3 [H3 [W3 [R3 C3]]]]]].
  rewrite (bind_eq _ _ _ E3).
  destruct (block_loop false (range_incl 1 2) (range_incl 4 9)
              (fun r H => Z.le_trans 1 4 r ltac:(lia) (proj1 (proj1 (range_incl_In _ _ r) H)))
              (fun c H => proj1 (proj1 (range_incl_In _ _ c) H)) w3)
    as [w4 [E4 [F4 [H4 [W4 [R4 C4]]]]]].
  rewrite (bind_eq _ _ _ E4).
  destruct (block_loop false (range_incl 1 2) (range_incl 12 (12 + n_questions - 1))
              (fun r H => Z.le_trans 1 12 r ltac:(lia) (proj1 (proj1 (range_incl_In _ _ r) H)))
              (fun c H => proj1 (proj1 (range_incl_In _ _ c) H)) w4)
    as [w5 [E5 [F5 [H5 [W5 [R5 C5]]]]]].
  cbv beta iota in E5.
  exists w5. split; [exact E5|].
  assert (F : forall r c,
             cell_formats w5 r c =
               {| fill := NoFill;
                  font := if (r =? 1) && (c =? 1) then BoldFont16
                          else if ((r =? 3) || (r =? 8) || (r =? 11)) && (c =? 1) then BoldFont
                          else DefaultFont;
                  alignment := if (((4 <=? r) && (r <=? 9)) || ((12 <=? r) && (r <=? 11 + n_questions)))
                                  && ((1 <=? c) && (c <=? 2)) then WRAP else DefaultAlignment;
                  border := if (((4 <=? r) && (r <=? 9)) || ((12 <=? r) && (r <=? 11 + n_questions)))
                               && ((1 <=? c) && (c <=? 2)) then BORDER else NoBorder |}).
  { clear - Hn F0 F1 F2 F3 F4 F5.
    intros r c. rewrite F5, !F4, !F3, !F2, !F1, !F0, !mem_range.
    split_tests; reflexivity. }
  split; [exact F|].
  split.
  { intros r c. rewrite F. cbn [alignment].
    destruct ((((4 <=? r) && (r <=? 9)) || ((12 <=? r) && (r <=? 11 + n_questions)))
              && ((1 <=? c) && (c <=? 2))); discriminate. }
  split.
  { intros r. rewrite H5, H4, H3, H2, H1, H0. reflexivity. }
  split.
  { clear - W0 W1 W2 W3 W4 W5.
    intros c. rewrite W5, W4, W3, W2, W1, W0.
    cbn [List.length]. change (Z.of_nat 1) with 1. change (Z.of_nat 4) with 4.
    destruct (Z.eq_dec c 1) as [->|]; [reflexivity|].
    destruct (Z.eq_dec c 2) as [->|]; [reflexivity|].
    destruct (Z.eq_dec c 3) as [->|]; [reflexivity|].
    destruct (Z.eq_dec c 4) as [->|]; [reflexivity|].
    destruct (Z.leb_spec 1 c), (Z.ltb_spec c (1 + 4)), (Z.eqb_spec c 1),
      (Z.leb_spec 2 c), (Z.leb_spec c 4); try lia; reflexivity. }
  split.
  - rewrite R5, (range_incl_cons 1 2) by (clear; lia). rewrite grow_range_le.
    rewrite R4, (range_incl_cons 1 2) by (clear; lia). rewrite grow_range_le.
    rewrite R3, grow_range_le, R2, R1, grow_range_le, R0.
    clear - Hn. split_tests; lia.
  - rewrite C5, C4, grow_range_le, C3, C2, C1, C0. clear - Hn.
    destruct (Z.leb_spec 12 (12 + n_questions - 1)).
    + rewrite (range_incl_cons 12) by lia. rewrite grow_range_le.
      rewrite (range_incl_cons 4 9), (range_incl_cons 4 6) by lia.
      rewrite (range_incl_cons (12 + 0)) by lia. cbn. lia.
    + rewrite (range_incl_empty 12) by lia.
      rewrite (range_incl_cons 4 9), (range_incl_cons 4 6) by lia.
      rewrite (range_incl_empty (12 + 0)) by lia. cbn. lia.
Qed.

Lemma dashboard_centring_is_overwritten_witness :
  exists ws,
    dashboard_format 6 = Some ws /\
    alignment (cell_formats ws 12 2) = WRAP /\
    max_row ws = 17.
Proof.
  destruct (dashboard_centring_is_overwritten 6 ltac:(lia)) as [ws [E [F [_ [_ [_ [R _]]]]]]].
  exists ws. split; [exact E|]. rewrite F, R. split; reflexivity.
Defined.

End FormattingFacts.
